(** * ir_collect.py: a shallow embedding of the incident-response collector

    The collector is a sequential script: every [collect_*] method of
    [IRCollector] runs a few shell commands or file-system calls, reformats
    their text with [str] methods and stores one fragment in the [self.data]
    dictionary; [save_results] dumps that dictionary as JSON.

    The embedding follows the script:
    - Python [str] values are [string]s whose characters are the code points
      below 256; the [str] methods used by the script are functions of
      [PyStr];
    - Python values put in [self.data] are the JSON-like trees of [Value];
      a [dict] is an association list in insertion order;
    - the machine the script runs on is a [Host] record: what each command
      prints, which paths exist, what [os.listdir], [open] and [os.stat]
      answer, what the clock says; [subprocess_run] puts the shell's
      [| head -N] stage and Python's text mode on top of it;
    - a method that can raise returns a [Result]; the methods of
      [IRCollector] thread [self.data] through the monad [M];
    - what the artifact holds is said with [JsonRead], a reader of JSON
      text that is proved to invert the encoder [Json]. *)

From Stdlib Require Import String Ascii List ZArith Lia Bool Arith DecimalString
  DecimalNat DecimalPos DecimalZ.
Import ListNotations.
Open Scope string_scope.
Open Scope list_scope.
Open Scope nat_scope.

Infix "+++" := String.append (at level 60, right associativity).

(** ** Python [str] methods *)

Module PyStr.

Definition NL : ascii := ascii_of_nat 10.
Definition CR : ascii := ascii_of_nat 13.
Definition SP : ascii := ascii_of_nat 32.
Definition COLON : ascii := ascii_of_nat 58.

(** [str.isspace] on one character: the code points below 256 that Python
    counts as white space. *)
Definition is_space (c : ascii) : bool :=
  let n := nat_of_ascii c in
  ((9 <=? n) && (n <=? 13)) || ((28 <=? n) && (n <=? 32))
  || (n =? 133) || (n =? 160).

(** Truth value of a string: [if s:]. *)
Definition nonempty (s : string) : bool :=
  match s with EmptyString => false | String _ _ => true end.

Fixpoint lstrip (s : string) : string :=
  match s with
  | EmptyString => EmptyString
  | String c s' => if is_space c then lstrip s' else s
  end.

Fixpoint rstrip (s : string) : string :=
  match s with
  | EmptyString => EmptyString
  | String c s' =>
      match rstrip s' with
      | EmptyString => if is_space c then EmptyString else String c EmptyString
      | r => String c r
      end
  end.

(** [s.strip()] *)
Definition strip (s : string) : string := rstrip (lstrip s).

(** Put [c] in front of the first word of a non-empty word list. *)
Definition cons_head (c : ascii) (ws : list string) : list string :=
  match ws with
  | [] => [String c EmptyString]
  | w :: ws' => String c w :: ws'
  end.

(** [s.split(sep)] for a one-character separator: always at least one
    field, empty fields kept. *)
Fixpoint split_on (sep : ascii) (s : string) : list string :=
  match s with
  | EmptyString => [EmptyString]
  | String c s' =>
      if Ascii.eqb c sep then EmptyString :: split_on sep s'
      else cons_head c (split_on sep s')
  end.

(** White-space splitting, [s.split(None, maxsplit)].  [k] is the number of
    words that may still be cut off ([None]: no limit); [inword] tells
    whether the scan is inside a word, whose remaining characters are then
    the head of the result.  When [k] is exhausted the rest of the text,
    leading white space skipped, is the last field. *)
Definition dec_count (k : option nat) : option (option nat) :=
  match k with
  | None => Some None
  | Some 0 => None
  | Some (S k') => Some (Some k')
  end.

Fixpoint split_ws_from (inword : bool) (k : option nat) (s : string)
  : list string :=
  match s with
  | EmptyString => if inword then [EmptyString] else []
  | String c s' =>
      if is_space c then
        if inword then EmptyString :: split_ws_from false k s'
        else split_ws_from false k s'
      else if inword then cons_head c (split_ws_from true k s')
      else match dec_count k with
           | None => [String c s']
           | Some k' => cons_head c (split_ws_from true k' s')
           end
  end.

(** [s.split()] *)
Definition split_ws (s : string) : list string := split_ws_from false None s.

(** [s.split(None, n)] *)
Definition split_ws_max (n : nat) (s : string) : list string :=
  split_ws_from false (Some n) s.

(** [s[:n]] *)
Fixpoint take (n : nat) (s : string) : string :=
  match n, s with
  | S n', String c s' => String c (take n' s')
  | _, _ => EmptyString
  end.

(** [s.startswith(p)] *)
Definition startswith (p s : string) : bool := String.prefix p s.

(** [sub in s] *)
Fixpoint contains (sub s : string) : bool :=
  String.prefix sub s
  || match s with
     | EmptyString => false
     | String _ s' => contains sub s'
     end.

(** Number of occurrences of a character. *)
Fixpoint count_char (c : ascii) (s : string) : nat :=
  match s with
  | EmptyString => 0
  | String a s' => (if Ascii.eqb a c then 1 else 0) + count_char c s'
  end.

(** [l[i]] with a default for the places where the script has checked the
    length beforehand. *)
Definition item (l : list string) (i : nat) : string := nth i l EmptyString.

(** *** [int(s)] *)

Definition is_digit (c : ascii) : bool :=
  let n := nat_of_ascii c in (48 <=? n) && (n <=? 57).

Definition digit_val (c : ascii) : Z := Z.of_nat (nat_of_ascii c - 48).

(** Decimal digits with single underscores between them; returns the value
    and the number of digits read. *)
Fixpoint int_digits (s : string) (after_digit : bool) (acc : Z) (nd : nat)
  : option (Z * nat) :=
  match s with
  | EmptyString => if after_digit then Some (acc, nd) else None
  | String c s' =>
      if is_digit c then int_digits s' true (acc * 10 + digit_val c) (S nd)
      else if Ascii.eqb c "_" then
             if after_digit then int_digits s' false acc nd else None
           else None
  end.

(** [sys.get_int_max_str_digits()]: [None] when the interpreter has no
    limit, [Some m] when literals of more than [m] digits (never fewer
    than 640) are refused. *)
Definition digits_allowed (limit : option nat) (nd : nat) : bool :=
  match limit with
  | None => true
  | Some m => nd <=? Nat.max 640 m
  end.

(** White space as [int()] skips it around the digits: the characters
    [str.strip] removes, without the separators U+001C to U+001F, which the
    conversion refuses. *)
Definition is_int_space (c : ascii) : bool :=
  let n := nat_of_ascii c in
  ((9 <=? n) && (n <=? 13)) || (n =? 32) || (n =? 133) || (n =? 160).

Fixpoint int_lstrip (s : string) : string :=
  match s with
  | EmptyString => EmptyString
  | String c s' => if is_int_space c then int_lstrip s' else s
  end.

Fixpoint int_rstrip (s : string) : string :=
  match s with
  | EmptyString => EmptyString
  | String c s' =>
      match int_rstrip s' with
      | EmptyString =>
          if is_int_space c then EmptyString else String c EmptyString
      | r => String c r
      end
  end.

(** [int(s)]: [None] stands for [ValueError]. *)
Definition py_int (limit : option nat) (s : string) : option Z :=
  let body sign t :=
    match int_digits t false 0%Z 0 with
    | Some (v, nd) => if digits_allowed limit nd then Some (sign * v)%Z else None
    | None => None
    end in
  match int_rstrip (int_lstrip s) with
  | String "+" t => body 1%Z t
  | String "-" t => body (-1)%Z t
  | t => body 1%Z t
  end.

End PyStr.

Import PyStr.

(** ** Python values and dictionaries *)

(** The values the script stores in [self.data]: text, integers, lists and
    dictionaries with text keys. *)
#[warnings="-register-all"]
Inductive Value : Type :=
| VStr (s : string)
| VInt (z : Z)
| VList (l : list Value)
| VDict (d : list (string * Value)).

(** A [dict] with [str] keys, in insertion order. *)
Definition Dict : Type := list (string * Value).

Fixpoint dict_get (k : string) (d : Dict) : option Value :=
  match d with
  | [] => None
  | (k', v) :: d' => if String.eqb k' k then Some v else dict_get k d'
  end.

(** [d[k] = v]: an existing key keeps its place, a new key goes last. *)
Fixpoint dict_set (k : string) (v : Value) (d : Dict) : Dict :=
  match d with
  | [] => [(k, v)]
  | (k', v') :: d' =>
      if String.eqb k' k then (k', v) :: d' else (k', v') :: dict_set k v d'
  end.

Definition dict_keys (d : Dict) : list string := map fst d.

Definition dict_has (k : string) (d : Dict) : bool :=
  match dict_get k d with Some _ => true | None => false end.

(** Truth value of a dictionary: [if d:]. *)
Definition dict_nonempty (d : Dict) : bool :=
  match d with [] => false | _ :: _ => true end.

(** ** Exceptions *)

Inductive PyExc : Type :=
| TimeoutExpired
| OSError
| FileNotFoundError
| PermissionError
| NotADirectoryError
| UnicodeDecodeError
| ValueError.

Inductive Result (A : Type) : Type :=
| Ok (a : A)
| Raise (e : PyExc).

Arguments Ok {A} a.
Arguments Raise {A} e.

(** ** Date and time *)

Record DateTime : Type := {
  year : nat; month : nat; day : nat;
  hour : nat; minute : nat; second : nat;
  microsecond : nat
}.

Definition dec (n : nat) : string := NilZero.string_of_uint (Nat.to_uint n).

Fixpoint zeros (n : nat) : string :=
  match n with 0 => EmptyString | S n' => String "0" (zeros n') end.

(** [n] in decimal, padded with zeros on the left to [w] digits. *)
Definition pad (w n : nat) : string :=
  let s := dec n in zeros (w - String.length s) +++ s.

(** [t.strftime("%Y%m%d_%H%M%S")] *)
Definition strftime_stamp (t : DateTime) : string :=
  pad 4 (year t) +++ pad 2 (month t) +++ pad 2 (day t) +++ "_"
  +++ pad 2 (hour t) +++ pad 2 (minute t) +++ pad 2 (second t).

(** [t.isoformat()] *)
Definition isoformat (t : DateTime) : string :=
  pad 4 (year t) +++ "-" +++ pad 2 (month t) +++ "-" +++ pad 2 (day t) +++ "T"
  +++ pad 2 (hour t) +++ ":" +++ pad 2 (minute t) +++ ":" +++ pad 2 (second t)
  +++ (if microsecond t =? 0 then EmptyString
       else "." +++ pad 6 (microsecond t)).

(** ** The host *)

(** How running a command line ends: a completed process with its exit
    status and output, or an exception of [subprocess.run(cmd, shell=True,
    capture_output=True, text=True, timeout=30)] ([TimeoutExpired] after
    30 seconds, [OSError] when no shell can be started,
    [UnicodeDecodeError] when the output is not text). *)
Inductive ProcOutcome : Type :=
| Completed (returncode : Z) (stdout stderr : string)
| RunRaises (e : PyExc).

(** [os.stat(path)] as the script uses it: the size and the modification
    time as the local date and time [datetime.fromtimestamp] makes of it. *)
Record StatResult : Type := {
  st_mtime : DateTime;
  st_size : Z
}.

Record Host : Type := {
  (* the platform module and socket.gethostname() *)
  platform_system : string;
  platform_release : string;
  platform_version : string;
  platform_machine : string;
  platform_processor : string;
  platform_python_version : string;
  gethostname : string;
  int_max_str_digits : option nat;
  (* /bin/sh -c on a command line that has no final head stage: the exit
     status and what the command wrote on its standard output and standard
     error, line endings as the command wrote them *)
  sh_simple : string -> ProcOutcome;
  (* the file system *)
  path_exists : string -> bool;
  os_listdir : string -> Result (list string);
  (* open(path) and the iteration over the file: an exception when the
     file cannot be opened, else the text of the lines delivered, and the
     exception that ends the reading early when there is one *)
  open_read : string -> Result (string * option PyExc);
  os_stat : string -> Result StatResult;
  mkdir_parents : string -> Result unit;
  open_write : string -> string -> Result unit;
  (* datetime.now() in __init__ and in save_results *)
  now_at_init : DateTime;
  now_at_save : DateTime
}.

(** ** The shell pipeline stage [| head -N] *)

Module Shell.

(** The first line of a text with its newline, and the rest. *)
Fixpoint cut_line (s : string) : string * string :=
  match s with
  | EmptyString => (EmptyString, EmptyString)
  | String c s' =>
      if Ascii.eqb c NL then (String c EmptyString, s')
      else let (l, r) := cut_line s' in (String c l, r)
  end.

(** [head -n]: the first [n] lines of the input. *)
Fixpoint head_lines (n : nat) (s : string) : string :=
  match n with
  | 0 => EmptyString
  | S n' => let (l, r) := cut_line s in l +++ head_lines n' r
  end.

(** Number of lines of a text, an unfinished last line counted. *)
Fixpoint line_count (s : string) : nat :=
  match s with
  | EmptyString => 0
  | String c EmptyString => 1
  | String c s' => (if Ascii.eqb c NL then 1 else 0) + line_count s'
  end.

Fixpoint drop (n : nat) (s : string) : string :=
  match n, s with
  | S n', String _ s' => drop n' s'
  | _, _ => s
  end.

(** Cut a text at the first occurrence of [sep]. *)
Fixpoint cut_at (sep s : string) : option (string * string) :=
  if String.prefix sep s then Some (EmptyString, drop (String.length sep) s)
  else match s with
       | EmptyString => None
       | String c s' =>
           match cut_at sep s' with
           | Some (a, b) => Some (String c a, b)
           | None => None
           end
       end.

Fixpoint parse_nat_from (s : string) (acc : nat) : option nat :=
  match s with
  | EmptyString => Some acc
  | String c s' =>
      if is_digit c then parse_nat_from s' (acc * 10 + (nat_of_ascii c - 48))
      else None
  end.

Definition parse_nat (s : string) : option nat :=
  match s with
  | EmptyString => None
  | _ => parse_nat_from s 0
  end.

(** A command line of the form [producer | head -N]. *)
Definition split_pipe_head (cmd : string) : option (string * nat) :=
  match cut_at " | head -" cmd with
  | Some (producer, count) =>
      match parse_nat count with
      | Some n => Some (producer, n)
      | None => None
      end
  | None => None
  end.

End Shell.

Import Shell.

(** Text mode ([text=True]): in what Python hands back every carriage
    return followed by a newline, and every other carriage return, has
    become a newline. *)
Fixpoint translate_newlines (s : string) : string :=
  match s with
  | EmptyString => EmptyString
  | String c s' =>
      if Ascii.eqb c CR then
        match s' with
        | String d s'' =>
            if Ascii.eqb d NL then String NL (translate_newlines s'')
            else String NL (translate_newlines s')
        | EmptyString => String NL EmptyString
        end
      else String c (translate_newlines s')
  end.

(** What a command line wrote on standard output, nothing if it could not
    be run. *)
Definition raw_stdout (h : Host) (cmd : string) : string :=
  match sh_simple h cmd with
  | Completed _ out _ => out
  | RunRaises _ => EmptyString
  end.

(** [subprocess.run(cmd, shell=True, capture_output=True, text=True,
    timeout=30)]: the shell runs the command line; a final [| head -N]
    stage passes on the first [N] lines of what the producer wrote, and the
    pipeline's status is that of [head]; Python then reads the output in
    text mode. *)
Definition subprocess_run (h : Host) (cmd : string) : ProcOutcome :=
  match split_pipe_head cmd with
  | Some (producer, n) =>
      match sh_simple h producer with
      | Completed _ out err =>
          Completed 0 (translate_newlines (head_lines n out))
            (translate_newlines err)
      | RunRaises e => RunRaises e
      end
  | None =>
      match sh_simple h cmd with
      | Completed rc out err =>
          Completed rc (translate_newlines out) (translate_newlines err)
      | RunRaises e => RunRaises e
      end
  end.

Definition is_linux (h : Host) : bool := String.eqb (platform_system h) "Linux".

(** ** [json.dumps(value, indent=2)] *)

Module Json.

Definition QUOTE : ascii := ascii_of_nat 34.
Definition BACKSLASH : ascii := ascii_of_nat 92.

Definition hex_digit (n : nat) : ascii :=
  if n <? 10 then ascii_of_nat (48 + n) else ascii_of_nat (87 + n).

(** One character inside a JSON string, [ensure_ascii] being on: printable
    ASCII as it is, the rest escaped. *)
Definition escape_char (c : ascii) : string :=
  let n := nat_of_ascii c in
  if n =? 34 then String BACKSLASH (String QUOTE EmptyString)
  else if n =? 92 then String BACKSLASH (String BACKSLASH EmptyString)
  else if n =? 10 then String BACKSLASH "n"
  else if n =? 13 then String BACKSLASH "r"
  else if n =? 9 then String BACKSLASH "t"
  else if n =? 8 then String BACKSLASH "b"
  else if n =? 12 then String BACKSLASH "f"
  else if (32 <=? n) && (n <=? 126) then String c EmptyString
  else String BACKSLASH
         ("u00" +++ String (hex_digit (n / 16))
                      (String (hex_digit (n mod 16)) EmptyString)).

Fixpoint escape (s : string) : string :=
  match s with
  | EmptyString => EmptyString
  | String c s' => escape_char c +++ escape s'
  end.

Definition quoted (s : string) : string :=
  String QUOTE (escape s +++ String QUOTE EmptyString).

Definition int_text (z : Z) : string := NilZero.string_of_int (Z.to_int z).

Fixpoint spaces (n : nat) : string :=
  match n with 0 => EmptyString | S n' => String SP (spaces n') end.

Definition newline_indent (level : nat) : string :=
  String NL (spaces (2 * level)).

(** The encoder at nesting depth [level]. *)
Fixpoint encode (level : nat) (v : Value) : string :=
  match v with
  | VStr s => quoted s
  | VInt z => int_text z
  | VList [] => "[]"
  | VList (x :: xs) =>
      "[" +++ newline_indent (S level) +++ encode (S level) x
      +++ (fix items (l : list Value) : string :=
             match l with
             | [] => EmptyString
             | y :: l' =>
                 "," +++ newline_indent (S level) +++ encode (S level) y
                 +++ items l'
             end) xs
      +++ newline_indent level +++ "]"
  | VDict [] => "{}"
  | VDict ((k, x) :: kxs) =>
      "{" +++ newline_indent (S level) +++ quoted k +++ ": "
      +++ encode (S level) x
      +++ (fix members (l : list (string * Value)) : string :=
             match l with
             | [] => EmptyString
             | (k', y) :: l' =>
                 "," +++ newline_indent (S level) +++ quoted k' +++ ": "
                 +++ encode (S level) y +++ members l'
             end) kxs
      +++ newline_indent level +++ "}"
  end.

Definition dumps (v : Value) : string := encode 0 v.

End Json.

(** ** The collector object *)

Record IRCollector : Type := {
  output_dir : string;
  data : Dict
}.

(** A method of [IRCollector]: it reads and updates [self] and returns a
    value, or raises. *)
Definition M (A : Type) : Type := IRCollector -> Result (A * IRCollector).

Definition ret {A : Type} (a : A) : M A := fun self => Ok (a, self).

Definition bind {A B : Type} (m : M A) (f : A -> M B) : M B :=
  fun self =>
    match m self with
    | Ok (a, self') => f a self'
    | Raise e => Raise e
    end.

Definition lift {A : Type} (r : Result A) : M A :=
  fun self =>
    match r with
    | Ok a => Ok (a, self)
    | Raise e => Raise e
    end.

(** [self.data[k] = v] *)
Definition set_data (k : string) (v : Value) : M unit :=
  fun self =>
    Ok (tt, {| output_dir := output_dir self;
               data := dict_set k v (data self) |}).

Notation "x <- m ;; f" := (bind m (fun x => f))
  (at level 61, m at next level, right associativity).
Notation "m ;; f" := (bind m (fun _ => f))
  (at level 61, right associativity).

(** [IRCollector.__init__] *)
Definition init (h : Host) (output_dir : string) : Result IRCollector :=
  match mkdir_parents h output_dir with
  | Ok _ =>
      Ok {| output_dir := output_dir;
            data := [("collection_time", VStr (isoformat (now_at_init h)));
                     ("hostname", VStr (gethostname h));
                     ("platform", VStr (platform_system h))] |}
  | Raise e => Raise e
  end.

(** [IRCollector.run_command]: the bare [except] turns every exception into
    the empty text; a completed process gives its standard output. *)
Definition run_command (h : Host) (cmd : string) : string :=
  match subprocess_run h cmd with
  | Completed _ stdout _ => stdout
  | RunRaises _ => EmptyString
  end.

(** [IRCollector.collect_system_info] *)
Definition system_info_found (h : Host) : Dict :=
  let info : Dict :=
    [("os", VStr (platform_system h));
     ("os_release", VStr (platform_release h));
     ("os_version", VStr (platform_version h));
     ("machine", VStr (platform_machine h));
     ("processor", VStr (platform_processor h));
     ("hostname", VStr (gethostname h));
     ("python_version", VStr (platform_python_version h))] in
  if is_linux h then
    let uptime := run_command h "uptime -p" in
    let info := dict_set "uptime" (VStr (strip uptime)) info in
    dict_set "kernel" (VStr (strip (run_command h "uname -r"))) info
  else info.

Definition collect_system_info (h : Host) : M unit :=
  set_data "system_info" (VDict (system_info_found h)).

(** [IRCollector.collect_processes]: the body of the loop over the lines
    of [ps]. *)
Definition processes_step (processes : list Value) (line : string)
  : list Value :=
  if nonempty line then
    let parts := split_ws_max 10 line in
    if 11 <=? length parts then
      processes ++ [VDict [("user", VStr (item parts 0));
                           ("pid", VStr (item parts 1));
                           ("cpu", VStr (item parts 2));
                           ("mem", VStr (item parts 3));
                           ("command", VStr (take 100 (item parts 10)))]]
    else processes
  else processes.

Definition processes_found (h : Host) : list Value :=
  if is_linux h then
    let output := run_command h "ps aux --no-headers" in
    fold_left processes_step (split_on NL (strip output)) []
  else [].

Definition collect_processes (h : Host) : M unit :=
  set_data "processes" (VList (firstn 100 (processes_found h))).

(** [IRCollector.collect_network]: the body of the loop over the lines of
    [ss], the header line left out. *)
Definition connections_step (connections : list Value) (line : string)
  : list Value :=
  if nonempty line then
    let parts := split_ws line in
    if 5 <=? length parts then
      connections
      ++ [VDict [("proto", VStr (item parts 0));
                 ("local", VStr (item parts 4));
                 ("remote", VStr (if 5 <? length parts then item parts 5
                                  else EmptyString));
                 ("state", VStr (if 1 <? length parts then item parts 1
                                 else EmptyString))]]
    else connections
  else connections.

Definition connections_found (h : Host) : list Value :=
  if is_linux h then
    let output := run_command h "ss -tunapl 2>/dev/null | head -100" in
    fold_left connections_step (tl (split_on NL (strip output))) []
  else [].

(** [IRCollector.get_interfaces]: the loop keeps the list of finished
    records and the record under construction. *)
Definition is_header (line : string) : bool :=
  nonempty line && negb (startswith " " line).

Definition interfaces_step (st : list Dict * Dict) (line : string)
  : list Dict * Dict :=
  let (interfaces, current) := st in
  if is_header line then
    let interfaces :=
      if dict_nonempty current then interfaces ++ [current] else interfaces in
    let parts := split_on COLON line in
    (interfaces,
     [("name", VStr (if 1 <? length parts then strip (item parts 1)
                     else EmptyString))])
  else if contains "inet " line then
    let parts := split_ws (strip line) in
    (interfaces,
     dict_set "ipv4" (VStr (if 1 <? length parts then item parts 1
                            else EmptyString)) current)
  else (interfaces, current).

Definition get_interfaces (h : Host) : list Dict :=
  if is_linux h then
    let output := run_command h "ip addr show" in
    let (interfaces, current) :=
      fold_left interfaces_step (split_on NL output) ([], []) in
    if dict_nonempty current then interfaces ++ [current] else interfaces
  else [].

Definition network_found (h : Host) : Dict :=
  let connections := connections_found h in
  let listening := run_command h "ss -tlnp 2>/dev/null" in
  [("connections", VList connections);
   ("interfaces", VList (map VDict (get_interfaces h)))].

Definition collect_network (h : Host) : M unit :=
  set_data "network" (VDict (network_found h)).

(** Iterating over a text file: the lines with their newline. *)
Fixpoint file_lines (s : string) : list string :=
  match s with
  | EmptyString => []
  | String c s' =>
      if Ascii.eqb c NL then String c EmptyString :: file_lines s'
      else cons_head c (file_lines s')
  end.

(** [IRCollector.collect_users]: the record made of the fields of one
    line. *)
Definition account_record (parts : list string) : Value :=
  VDict [("username", VStr (item parts 0));
         ("uid", VStr (item parts 2));
         ("gid", VStr (item parts 3));
         ("home", VStr (item parts 5));
         ("shell", VStr (item parts 6))].

(** The loop over the lines of /etc/passwd.  It runs inside the [try]:
    when [int] raises the loop stops there, and the records appended so far
    stay in [users]. *)
Fixpoint passwd_loop (limit : option nat) (lines : list string)
  (users : list Value) : list Value * option PyExc :=
  match lines with
  | [] => (users, None)
  | line :: rest =>
      let parts := split_on COLON (strip line) in
      if 7 <=? length parts then
        match py_int limit (item parts 2) with
        | None => (users, Some ValueError)
        | Some uid =>
            if ((1000 <=? uid) || (uid =? 0))%Z then
              passwd_loop limit rest (users ++ [account_record parts])
            else passwd_loop limit rest users
        end
      else passwd_loop limit rest users
  end.

Definition accounts_found (h : Host) : list Value :=
  if is_linux h then
    match open_read h "/etc/passwd" with
    | Ok (text, _) =>
        fst (passwd_loop (int_max_str_digits h) (file_lines text) [])
    | Raise _ => []
    end
  else [].

Definition users_found (h : Host) : Dict :=
  let users := accounts_found h in
  let logged_in :=
    if is_linux h then run_command h "who" else EmptyString in
  [("accounts", VList users);
   ("logged_in",
    VList (if is_linux h
           then map VStr (split_on NL (strip (run_command h "who")))
           else []))].

Definition collect_users (h : Host) : M unit :=
  set_data "users" (VDict (users_found h)).

(** [IRCollector.collect_scheduled_tasks] *)
Definition cron_dirs : list string :=
  ["/etc/cron.d"; "/etc/cron.daily"; "/etc/cron.hourly"].

(** The loop over the cron directories; [os.listdir] is not guarded. *)
Fixpoint cron_dirs_loop (h : Host) (dirs : list string) (tasks : list Value)
  : Result (list Value) :=
  match dirs with
  | [] => Ok tasks
  | cron_dir :: rest =>
      if path_exists h cron_dir then
        match os_listdir h cron_dir with
        | Ok files =>
            cron_dirs_loop h rest
              (tasks ++ [VDict [("type", VStr cron_dir);
                                ("files", VList (map VStr files))]])
        | Raise e => Raise e
        end
      else cron_dirs_loop h rest tasks
  end.

Definition tasks_found (h : Host) : Result (list Value) :=
  if is_linux h then
    let tasks := [] in
    let crontab := run_command h "cat /etc/crontab 2>/dev/null" in
    let tasks :=
      if nonempty crontab then
        tasks ++ [VDict [("type", VStr "system_crontab");
                         ("content", VStr (take 1000 crontab))]]
      else tasks in
    let user_cron := run_command h "crontab -l 2>/dev/null" in
    let tasks :=
      if nonempty user_cron then
        tasks ++ [VDict [("type", VStr "user_crontab");
                         ("content", VStr (take 1000 user_cron))]]
      else tasks in
    match cron_dirs_loop h cron_dirs tasks with
    | Ok tasks =>
        let timers :=
          run_command h
            "systemctl list-timers --no-pager 2>/dev/null | head -20" in
        Ok (if nonempty timers then
              tasks ++ [VDict [("type", VStr "systemd_timers");
                               ("content", VStr timers)]]
            else tasks)
    | Raise e => Raise e
    end
  else Ok [].

Definition collect_scheduled_tasks (h : Host) : M unit :=
  tasks <- lift (tasks_found h) ;;
  set_data "scheduled_tasks" (VList tasks).

(** [IRCollector.collect_autostart] *)
Definition autostart_found (h : Host) : Result (list Value) :=
  if is_linux h then
    let autostart := [] in
    let services :=
      run_command h
        "systemctl list-unit-files --type=service --state=enabled --no-pager 2>/dev/null | head -50" in
    let autostart :=
      if nonempty services then
        autostart ++ [VDict [("type", VStr "systemd_enabled");
                             ("content", VStr services)]]
      else autostart in
    match (if path_exists h "/etc/init.d" then
             match os_listdir h "/etc/init.d" with
             | Ok files =>
                 Ok (autostart ++ [VDict [("type", VStr "initd");
                                          ("files", VList (map VStr files))]])
             | Raise e => Raise e
             end
           else Ok autostart) with
    | Ok autostart =>
        let rclocal := run_command h "cat /etc/rc.local 2>/dev/null" in
        Ok (if nonempty rclocal then
              autostart ++ [VDict [("type", VStr "rc.local");
                                   ("content", VStr (take 500 rclocal))]]
            else autostart)
    | Raise e => Raise e
    end
  else Ok [].

Definition collect_autostart (h : Host) : M unit :=
  autostart <- lift (autostart_found h) ;;
  set_data "autostart" (VList autostart).

(** [IRCollector.collect_recent_files]: the body of the loop over the paths
    [find] printed; the [try] around [os.stat] drops a path that cannot be
    examined. *)
Definition recent_step (h : Host) (recent : list Value) (line : string)
  : list Value :=
  if nonempty line then
    match os_stat h line with
    | Ok st =>
        recent ++ [VDict [("path", VStr line);
                          ("mtime", VStr (isoformat (st_mtime st)));
                          ("size", VInt (st_size st))]]
    | Raise _ => recent
    end
  else recent.

Definition recent_found (h : Host) : list Value :=
  if is_linux h then
    let output :=
      run_command h
        "find /home /tmp /var/log -mtime -1 -type f 2>/dev/null | head -100" in
    fold_left (recent_step h) (split_on NL (strip output)) []
  else [].

Definition collect_recent_files (h : Host) : M unit :=
  set_data "recent_files" (VList (firstn 50 (recent_found h))).

(** [IRCollector.collect_logs] *)
Definition log_files : list string :=
  ["/var/log/auth.log"; "/var/log/syslog"; "/var/log/secure";
   "/var/log/messages"].

(** The command run for one log file: [f"tail -50 {log_file} 2>/dev/null"]. *)
Definition tail_command (log_file : string) : string :=
  "tail -50 " +++ log_file +++ " 2>/dev/null".

(** What [tail -n] prints for a file with the given content: its last [n]
    lines, an unfinished last line counted as a line. *)
Definition last_lines (n : nat) (content : string) : string :=
  let lines := file_lines content in
  String.concat EmptyString (skipn (length lines - n) lines).

Definition logs_step (h : Host) (logs : Dict) (log_file : string) : Dict :=
  if path_exists h log_file then
    let output := run_command h (tail_command log_file) in
    if nonempty output then dict_set log_file (VStr output) logs else logs
  else logs.

Definition logs_found (h : Host) : Dict :=
  if is_linux h then fold_left (logs_step h) log_files [] else [].

Definition collect_logs (h : Host) : M unit :=
  set_data "logs" (VDict (logs_found h)).

(** [IRCollector.save_results]: the file written, as directory, name and
    content. *)
Record SavedFile : Type := {
  sf_dir : string;
  sf_name : string;
  sf_content : string
}.

Definition save_results (h : Host) : M SavedFile :=
  fun self =>
    let timestamp := strftime_stamp (now_at_save h) in
    let filename := "ir_collection_" +++ timestamp +++ ".json" in
    match open_write h (output_dir self) filename with
    | Ok _ =>
        Ok ({| sf_dir := output_dir self;
               sf_name := filename;
               sf_content := Json.dumps (VDict (data self)) |}, self)
    | Raise e => Raise e
    end.

(** [IRCollector.run_collection].  The lines the method and the
    collectors print are left out of it ([collect_processes_prints] and
    its like, below, give those of the collectors): it describes the runs
    whose standard output takes every line. *)
Definition run_collection (h : Host) : M SavedFile :=
  collect_system_info h ;;
  collect_processes h ;;
  collect_network h ;;
  collect_users h ;;
  collect_scheduled_tasks h ;;
  collect_autostart h ;;
  collect_recent_files h ;;
  collect_logs h ;;
  filepath <- save_results h ;;
  ret filepath.

(** The eight collectors in the order [run_collection] calls them, each
    with the key of [self.data] it assigns. *)
Definition collectors (h : Host) : list (string * M unit) :=
  [("system_info", collect_system_info h);
   ("processes", collect_processes h);
   ("network", collect_network h);
   ("users", collect_users h);
   ("scheduled_tasks", collect_scheduled_tasks h);
   ("autostart", collect_autostart h);
   ("recent_files", collect_recent_files h);
   ("logs", collect_logs h)].

(** The three metadata keys [__init__] sets, and all the keys of the
    artifact in the order the script assigns them. *)
Definition metadata_keys : list string :=
  ["collection_time"; "hostname"; "platform"].

Definition snapshot_keys : list string :=
  metadata_keys ++ ["system_info"; "processes"; "network"; "users";
                    "scheduled_tasks"; "autostart"; "recent_files"; "logs"].

(** The [content] of a tagged entry of the scheduled-task or autostart
    list, when the entry has the given [type]. *)
Definition entry_content (ty : string) (v : Value) : option string :=
  match v with
  | VDict d =>
      match dict_get "type" d, dict_get "content" d with
      | Some (VStr t), Some (VStr c) =>
          if String.eqb t ty then Some c else None
      | _, _ => None
      end
  | _ => None
  end.

(** The truncation bounds, entry by entry. *)
Definition command_bounded (p : Value) : Prop :=
  exists d c, p = VDict d /\ dict_get "command" d = Some (VStr c)
              /\ String.length c <= 100.

Definition crontab_bounded (t : Value) : Prop :=
  forall c,
    entry_content "system_crontab" t = Some c
    \/ entry_content "user_crontab" t = Some c ->
    String.length c <= 1000.

Definition services_bounded (a : Value) : Prop :=
  forall c, entry_content "systemd_enabled" a = Some c -> line_count c <= 50.

Definition rclocal_bounded (a : Value) : Prop :=
  forall c, entry_content "rc.local" a = Some c -> String.length c <= 500.

(** The connection list of a snapshot. *)
Definition connections_of (d : Dict) : option (list Value) :=
  match dict_get "network" d with
  | Some (VDict n) =>
      match dict_get "connections" n with
      | Some (VList l) => Some l
      | _ => None
      end
  | _ => None
  end.

(** The entries of the autostart list of a snapshot. *)
Definition autostart_of (d : Dict) : option (list Value) :=
  match dict_get "autostart" d with
  | Some (VList l) => Some l
  | _ => None
  end.

(** The bounds the script sets with slices. *)
Definition sliced_bounds (d : Dict) : Prop :=
  exists processes recent tasks autostart,
    dict_get "processes" d = Some (VList processes)
    /\ length processes <= 100
    /\ Forall command_bounded processes
    /\ dict_get "recent_files" d = Some (VList recent)
    /\ length recent <= 50
    /\ dict_get "scheduled_tasks" d = Some (VList tasks)
    /\ Forall crontab_bounded tasks
    /\ autostart_of d = Some autostart
    /\ Forall rclocal_bounded autostart.

(** The bounds the script leaves to the [head] stage of a pipeline. *)
Definition piped_bounds (d : Dict) : Prop :=
  exists connections autostart,
    connections_of d = Some connections
    /\ length connections <= 100
    /\ autostart_of d = Some autostart
    /\ Forall services_bounded autostart.

(** The bounds on a whole snapshot. *)
Definition snapshot_bounded (d : Dict) : Prop :=
  sliced_bounds d /\ piped_bounds d.

(** The account list as the specification words it: the entries of the
    account database that are well formed (seven fields or more, an
    integer uid) and whose uid is at least 1000 or is 0, in file order. *)
Definition well_formed_entry (limit : option nat) (line : string)
  : option (list string * Z) :=
  let parts := split_on COLON (strip line) in
  if 7 <=? length parts then
    match py_int limit (item parts 2) with
    | Some uid => Some (parts, uid)
    | None => None
    end
  else None.

Definition accounts_by_spec (limit : option nat) (lines : list string)
  : list Value :=
  flat_map (fun line =>
              match well_formed_entry limit line with
              | Some (parts, uid) =>
                  if ((1000 <=? uid) || (uid =? 0))%Z
                  then [account_record parts] else []
              | None => []
              end) lines.

(** A line of the account database that has seven fields or more and a
    uid that [int] refuses. *)
Definition unparsable_uid (limit : option nat) (line : string) : bool :=
  let parts := split_on COLON (strip line) in
  (7 <=? length parts)
  && match py_int limit (item parts 2) with Some _ => false | None => true end.

(** The lines in front of the first one with an unparsable uid. *)
Fixpoint before_unparsable (limit : option nat) (lines : list string)
  : list string :=
  match lines with
  | [] => []
  | line :: rest =>
      if unparsable_uid limit line then []
      else line :: before_unparsable limit rest
  end.

(** An account record whose uid passes the filter. *)
Definition account_kept (limit : option nat) (v : Value) : Prop :=
  exists d u z,
    v = VDict d /\ dict_get "uid" d = Some (VStr u)
    /\ py_int limit u = Some z /\ (1000 <= z \/ z = 0)%Z.

(** On host [h] the log file [p] holds [content] and [tail] can read it:
    the command [collect_logs] runs for [p] exits with status 0 after
    writing the last 50 lines of the file. *)
Definition tail_prints (h : Host) (p content : string) : Prop :=
  sh_simple h (tail_command p)
  = Completed 0 (last_lines 50 content) EmptyString.

(** An interface record started inside an interface block: an address and
    no name. *)
Definition nameless (r : Dict) : Prop :=
  dict_has "ipv4" r = true /\ dict_has "name" r = false.

Definition named (r : Dict) : Prop := dict_has "name" r = true.

(** The state of the loop of [get_interfaces] before the first header
    line: no record is finished, and the record under construction is
    empty or has an address and no name. *)
Definition prelude_state (st : list Dict * Dict) : Prop :=
  fst st = [] /\ (snd st = [] \/ nameless (snd st)).

(** The state of the loop of [get_interfaces] when the listing began with
    an address line: the first record, finished or still under
    construction, is one without a name; every later one has a name. *)
Definition headless_state (st : list Dict * Dict) : Prop :=
  match fst st with
  | [] => nameless (snd st)
  | r :: others => nameless r /\ Forall named others /\ named (snd st)
  end.

(** [main] without the demo mode: build the collector, run it. *)
Definition main (h : Host) (output : string) : Result (SavedFile * IRCollector) :=
  match init h output with
  | Ok collector => run_collection h collector
  | Raise e => Raise e
  end.

(** ** Sample hosts *)

Module Hosts.

(** A text made of the given lines, each ended by a newline. *)
Fixpoint text (ls : list string) : string :=
  match ls with
  | [] => EmptyString
  | l :: ls' => l +++ String NL (text ls')
  end.

Fixpoint assoc {A : Type} (k : string) (l : list (string * A)) : option A :=
  match l with
  | [] => None
  | (k', a) :: l' => if String.eqb k' k then Some a else assoc k l'
  end.

Definition morning : DateTime :=
  {| year := 2024; month := 1; day := 15;
     hour := 10; minute := 30; second := 45; microsecond := 0 |}.

Definition a_second_later : DateTime :=
  {| year := 2024; month := 1; day := 15;
     hour := 10; minute := 30; second := 46; microsecond := 250 |}.

(** A host described by what its commands print, which directories it has
    (with what [os.listdir] answers), which text files and which other
    paths.  A command that is not listed is unknown to the shell: status
    127 and nothing on standard output. *)
Definition make (system : string)
  (commands : list (string * ProcOutcome))
  (dirs : list (string * Result (list string)))
  (files : list (string * string))
  (others : list (string * StatResult))
  (save_time : DateTime) : Host :=
  {| platform_system := system;
     platform_release := "6.1.0-18-amd64";
     platform_version := "#1 SMP PREEMPT_DYNAMIC Debian 6.1.76-1";
     platform_machine := "x86_64";
     platform_processor := EmptyString;
     platform_python_version := "3.11.2";
     gethostname := "web01";
     int_max_str_digits := Some 4300;
     sh_simple := fun cmd =>
       match assoc cmd commands with
       | Some o => o
       | None => Completed 127 EmptyString "sh: 1: not found"
       end;
     path_exists := fun p =>
       match assoc p dirs, assoc p files, assoc p others with
       | None, None, None => false
       | _, _, _ => true
       end;
     os_listdir := fun p =>
       match assoc p dirs with
       | Some r => r
       | None => match assoc p files, assoc p others with
                 | None, None => Raise FileNotFoundError
                 | _, _ => Raise NotADirectoryError
                 end
       end;
     open_read := fun p =>
       match assoc p files with
       | Some t => Ok (t, None)
       | None => Raise FileNotFoundError
       end;
     os_stat := fun p =>
       match assoc p others with
       | Some st => Ok st
       | None => Raise FileNotFoundError
       end;
     mkdir_parents := fun _ => Ok tt;
     open_write := fun _ _ => Ok tt;
     now_at_init := morning;
     now_at_save := save_time |}.

(** Nothing answers: every command runs into the timeout, no path exists. *)
Definition silent : Host :=
  {| platform_system := "Linux";
     platform_release := EmptyString;
     platform_version := EmptyString;
     platform_machine := EmptyString;
     platform_processor := EmptyString;
     platform_python_version := "3.9.2";
     gethostname := "localhost";
     int_max_str_digits := None;
     sh_simple := fun _ => RunRaises TimeoutExpired;
     path_exists := fun _ => false;
     os_listdir := fun _ => Raise FileNotFoundError;
     open_read := fun _ => Raise FileNotFoundError;
     os_stat := fun _ => Raise FileNotFoundError;
     mkdir_parents := fun _ => Ok tt;
     open_write := fun _ _ => Ok tt;
     now_at_init := morning;
     now_at_save := morning |}.

Definition passwd : string :=
  text ["root:x:0:0:root:/root:/bin/bash";
        "daemon:x:1:1:daemon:/usr/sbin:/usr/sbin/nologin";
        "www-data:x:33:33:www-data:/var/www:/usr/sbin/nologin";
        "alice:x:1000:1000:Alice,,,:/home/alice:/bin/bash"].

Definition ps_output : string :=
  text ["root           1  0.0  0.1 167744 11852 ?        Ss   Jan14   0:03 /sbin/init splash";
        "alice       2211  1.5  2.0 912344 81220 pts/0    Sl+  10:02   0:41 python3 -m http.server 8000"].

Definition ss_output : string :=
  text ["Netid State  Recv-Q Send-Q Local Address:Port Peer Address:Port Process";
        "tcp   LISTEN 0      128    0.0.0.0:22         0.0.0.0:*";
        "tcp   ESTAB  0      0      10.0.0.5:22        10.0.0.9:51234"].

Definition ip_output : string :=
  text ["1: lo: <LOOPBACK,UP,LOWER_UP> mtu 65536 qdisc noqueue state UNKNOWN";
        "    link/loopback 00:00:00:00:00:00 brd 00:00:00:00:00:00";
        "    inet 127.0.0.1/8 scope host lo";
        "2: eth0: <BROADCAST,MULTICAST,UP,LOWER_UP> mtu 1500 qdisc fq_codel";
        "    inet 10.0.0.5/24 brd 10.0.0.255 scope global eth0"].

Definition commands : list (string * ProcOutcome) :=
  [("uptime -p", Completed 0 (text ["up 3 days, 2 hours"]) EmptyString);
   ("uname -r", Completed 0 (text ["6.1.0-18-amd64"]) EmptyString);
   ("ps aux --no-headers", Completed 0 ps_output EmptyString);
   ("ss -tunapl 2>/dev/null", Completed 0 ss_output EmptyString);
   ("ip addr show", Completed 0 ip_output EmptyString);
   ("who", Completed 0 (text ["alice    pts/0        2024-01-15 10:02 (10.0.0.9)"])
             EmptyString);
   ("cat /etc/crontab 2>/dev/null",
    Completed 0 (text ["17 *    * * *   root    cd / && run-parts --report /etc/cron.hourly"])
      EmptyString);
   ("crontab -l 2>/dev/null", Completed 1 EmptyString EmptyString);
   ("find /home /tmp /var/log -mtime -1 -type f 2>/dev/null",
    Completed 0 (text ["/tmp/gone.tmp"; "/var/log/auth.log"]) EmptyString);
   ("tail -50 /var/log/auth.log 2>/dev/null",
    Completed 0 (text ["Jan 15 10:02:11 web01 sshd[2200]: Accepted publickey for alice"])
      EmptyString)].

Definition auth_log_stat : StatResult :=
  {| st_mtime := morning; st_size := 48213 |}.

(** An ordinary Linux server. *)
Definition server : Host :=
  make "Linux" commands
    [("/etc/cron.d", Ok ["e2scrub_all"; ".placeholder"]);
     ("/etc/init.d", Ok ["ssh"; "cron"])]
    [("/etc/passwd", passwd)]
    [("/var/log/auth.log", auth_log_stat)]
    morning.

(** The same server, saving one second later. *)
Definition server_later : Host :=
  make "Linux" commands
    [("/etc/cron.d", Ok ["e2scrub_all"; ".placeholder"]);
     ("/etc/init.d", Ok ["ssh"; "cron"])]
    [("/etc/passwd", passwd)]
    [("/var/log/auth.log", auth_log_stat)]
    a_second_later.

(** The same server hardened so that only root may list /etc/cron.d, the
    script being run by another user. *)
Definition hardened : Host :=
  make "Linux" commands
    [("/etc/cron.d", Raise PermissionError);
     ("/etc/init.d", Ok ["ssh"; "cron"])]
    [("/etc/passwd", passwd)]
    [("/var/log/auth.log", auth_log_stat)]
    morning.

(** A server whose init scripts directory cannot be listed. *)
Definition closed_initd : Host :=
  make "Linux" commands
    [("/etc/init.d", Raise PermissionError)]
    [("/etc/passwd", passwd)]
    []
    morning.

(** An account database with a NIS compatibility entry, whose uid field
    is empty, in front of an ordinary user. *)
Definition passwd_compat : string :=
  text ["root:x:0:0:root:/root:/bin/bash";
        "+::::::";
        "alice:x:1000:1000:Alice,,,:/home/alice:/bin/bash"].

Definition nis_client : Host :=
  make "Linux" commands [] [("/etc/passwd", passwd_compat)] [] morning.

(** An account database with a line of too few fields in front of an
    ordinary user. *)
Definition passwd_short_line : string :=
  text ["root:x:0:0:root:/root:/bin/bash";
        "# local accounts";
        "alice:x:1000:1000:Alice,,,:/home/alice:/bin/bash"].

(** A server whose authentication log has sixty lines. *)
Definition session_line (n : nat) : string :=
  "Jan 15 10:02:11 web01 sshd[2200]: session " +++ dec n.

Definition sixty_lines : string := text (map session_line (seq 1 60)).

Definition long_log : Host :=
  make "Linux"
    [("tail -50 /var/log/auth.log 2>/dev/null",
      Completed 0 (last_lines 50 sixty_lines) EmptyString)]
    [] [] [("/var/log/auth.log", auth_log_stat)] morning.

(** A server whose authentication log has one line with a carriage return
    in it. *)
Definition line_with_cr : string :=
  "apt: 10%" +++ String CR ("apt: 100%" +++ String NL EmptyString).

Definition cr_log : Host :=
  make "Linux"
    [("tail -50 /var/log/auth.log 2>/dev/null",
      Completed 0 (last_lines 50 line_with_cr) EmptyString)]
    [] [] [("/var/log/auth.log", auth_log_stat)] morning.

(** A server whose authentication log exists and cannot be read by the
    user running the script: [tail] prints nothing on standard output. *)
Definition unreadable_log : Host :=
  make "Linux"
    [("tail -50 /var/log/auth.log 2>/dev/null",
      Completed 1 EmptyString EmptyString)]
    [] [] [("/var/log/auth.log", auth_log_stat)] morning.

(** A host where a command prints a line and then fails. *)
Definition failing_command : string := "grep -c sshd /var/log/auth.log /var/log/secure".

Definition partial_output : Host :=
  make "Linux"
    [(failing_command,
      Completed 2 (text ["/var/log/auth.log:12"])
        "grep: /var/log/secure: No such file or directory")]
    [] [] [] morning.

(** A host whose address listing starts inside an interface block. *)
Definition ip_output_headless : string :=
  text ["    inet 127.0.0.1/8 scope host lo";
        "2: eth0: <BROADCAST,MULTICAST,UP,LOWER_UP> mtu 1500 qdisc fq_codel";
        "    inet 10.0.0.5/24 brd 10.0.0.255 scope global eth0"].

Definition headless : Host :=
  make "Linux" [("ip addr show", Completed 0 ip_output_headless EmptyString)]
    [] [] [] morning.

(** A host that is not Linux and has an account database. *)
Definition mac : Host :=
  make "Darwin" [] [] [("/etc/passwd", passwd)] [] morning.

(** A server under load: 150 processes with long command lines, 300
    sockets, 200 files changed in the last day, a crontab of 5000
    characters, 80 enabled services. *)
Definition long_command : string := "/usr/bin/java " +++ zeros 150.

Definition many (n : nat) (line : string) : string := text (repeat line n).

Definition changed_files : list string :=
  map (fun i => "/tmp/upload-" +++ dec i) (seq 0 200).

Definition busy : Host :=
  make "Linux"
    [("ps aux --no-headers",
      Completed 0
        (many 150 ("app 4242 9.9 1.0 1 1 ? S 10:00 0:01 " +++ long_command))
        EmptyString);
     ("ss -tunapl 2>/dev/null",
      Completed 0
        (many 300 "tcp ESTAB 0 0 10.0.0.5:443 10.0.0.9:51234") EmptyString);
     ("find /home /tmp /var/log -mtime -1 -type f 2>/dev/null",
      Completed 0 (text changed_files) EmptyString);
     ("cat /etc/crontab 2>/dev/null",
      Completed 0 (many 100 ("* * * * * root " +++ zeros 34)) EmptyString);
     ("systemctl list-unit-files --type=service --state=enabled --no-pager 2>/dev/null",
      Completed 0 (many 80 "ssh.service enabled enabled") EmptyString)]
    [] []
    (map (fun p => (p, auth_log_stat)) changed_files)
    morning.

(** A server where a process has put a carriage return into its name:
    [ss] prints the name between the quotes of every socket the process
    holds, 99 of them here, after the header line. *)
Definition socket_line : string :=
  "tcp   LISTEN 0      128    0.0.0.0:8080       0.0.0.0:*     users:(("
  +++ String Json.QUOTE
        ("x" +++ String CR
           ("a b c d e" +++ String Json.QUOTE ",pid=4242,fd=3))")).

Definition ss_output_renamed : string :=
  text ("Netid State  Recv-Q Send-Q Local Address:Port Peer Address:Port Process"
        :: repeat socket_line 99).

Definition renamed : Host :=
  make "Linux" [("ss -tunapl 2>/dev/null",
                 Completed 0 ss_output_renamed EmptyString)]
    [] [] [] morning.

(** A collector object as [__init__] leaves it on the server. *)
Definition fresh : IRCollector :=
  {| output_dir := "./ir_collection";
     data := [("collection_time", VStr "2024-01-15T10:30:45");
              ("hostname", VStr "web01");
              ("platform", VStr "Linux")] |}.

Definition root_account : Value :=
  VDict [("username", VStr "root"); ("uid", VStr "0"); ("gid", VStr "0");
         ("home", VStr "/root"); ("shell", VStr "/bin/bash")].

Definition alice_account : Value :=
  VDict [("username", VStr "alice"); ("uid", VStr "1000");
         ("gid", VStr "1000"); ("home", VStr "/home/alice");
         ("shell", VStr "/bin/bash")].

End Hosts.

(** ** Notions used to describe the unguarded directory listings *)

(** What listing a directory does to the run: nothing when the path does
    not exist (it is not listed) or the listing succeeds, the exception
    otherwise. *)
Definition listdir_error (h : Host) (dir : string) : option PyExc :=
  if path_exists h dir then
    match os_listdir h dir with
    | Ok _ => None
    | Raise e => Some e
    end
  else None.

Fixpoint first_listdir_error (h : Host) (dirs : list string) : option PyExc :=
  match dirs with
  | [] => None
  | dir :: rest =>
      match listdir_error h dir with
      | Some e => Some e
      | None => first_listdir_error h rest
      end
  end.

(** ** Notions used to describe the parsed records *)

(** A text without white space, and a word: a non-empty one. *)
Fixpoint space_free (s : string) : bool :=
  match s with
  | EmptyString => true
  | String c s' => negb (is_space c) && space_free s'
  end.

Definition is_word (s : string) : bool := nonempty s && space_free s.

(** A text that begins with a character that is not white space. *)
Definition starts_with_text (s : string) : bool :=
  match s with
  | EmptyString => false
  | String c _ => negb (is_space c)
  end.

(** The fields of a list cut by [split(None, n)] ([k = Some n]) or by
    [split()] ([k = None]): words, and after [n] words the rest of the
    line, which begins with text. *)
Definition cut_words (k : option nat) (l : list string) : Prop :=
  match k with
  | None => Forall (fun w => is_word w = true) l
  | Some n =>
      Forall (fun w => is_word w = true) (firstn n l)
      /\ length l <= S n
      /\ (forall r, nth_error l n = Some r -> starts_with_text r = true)
  end.

(** A process record as [collect_processes] builds it. *)
Definition process_wellformed (p : Value) : Prop :=
  exists user pid cpu mem command,
    p = VDict [("user", VStr user); ("pid", VStr pid); ("cpu", VStr cpu);
               ("mem", VStr mem); ("command", VStr command)]
    /\ is_word user = true /\ is_word pid = true
    /\ is_word cpu = true /\ is_word mem = true
    /\ starts_with_text command = true
    /\ String.length command <= 100.

(** A connection record as [collect_network] builds it. *)
Definition connection_wellformed (c : Value) : Prop :=
  exists proto local remote state,
    c = VDict [("proto", VStr proto); ("local", VStr local);
               ("remote", VStr remote); ("state", VStr state)]
    /\ is_word proto = true /\ is_word local = true
    /\ is_word state = true
    /\ (remote = EmptyString \/ is_word remote = true).

(** A recent-file record as [collect_recent_files] builds it: the path
    is a non-empty line for which [os.stat] answered, the time and size
    are the ones it answered. *)
Definition recent_record_of (h : Host) (r : Value) : Prop :=
  exists path st,
    r = VDict [("path", VStr path);
               ("mtime", VStr (isoformat (st_mtime st)));
               ("size", VInt (st_size st))]
    /\ nonempty path = true /\ os_stat h path = Ok st.

(** The name [get_interfaces] reads off a header line: what stands between
    the first and the second colon, stripped. *)
Definition header_name (line : string) : string :=
  let parts := split_on COLON line in
  if 1 <? length parts then strip (item parts 1) else EmptyString.

(** The name of an interface record, when it has one. *)
Definition record_names (r : Dict) : list string :=
  match dict_get "name" r with
  | Some (VStr n) => [n]
  | _ => []
  end.

(** The keys an interface record can have. *)
Definition interface_schema (r : Dict) : Prop :=
  dict_keys r = ["name"] \/ dict_keys r = ["ipv4"]
  \/ dict_keys r = ["name"; "ipv4"].

(** An entry of the scheduled-task or autostart list tagged [ty]. *)
Definition has_type (ty : string) (v : Value) : Prop :=
  exists d, v = VDict d /\ dict_get "type" d = Some (VStr ty).

(** The sources of scheduled tasks that are present on a host, in the
    order [collect_scheduled_tasks] visits them. *)
Definition task_sources (h : Host) : list string :=
  if is_linux h then
    (if nonempty (run_command h "cat /etc/crontab 2>/dev/null")
     then ["system_crontab"] else [])
    ++ (if nonempty (run_command h "crontab -l 2>/dev/null")
        then ["user_crontab"] else [])
    ++ filter (path_exists h) cron_dirs
    ++ (if nonempty
             (run_command h
                "systemctl list-timers --no-pager 2>/dev/null | head -20")
        then ["systemd_timers"] else [])
  else [].

(** The same for [collect_autostart]. *)
Definition autostart_sources (h : Host) : list string :=
  if is_linux h then
    (if nonempty
          (run_command h
             "systemctl list-unit-files --type=service --state=enabled --no-pager 2>/dev/null | head -50")
     then ["systemd_enabled"] else [])
    ++ (if path_exists h "/etc/init.d" then ["initd"] else [])
    ++ (if nonempty (run_command h "cat /etc/rc.local 2>/dev/null")
        then ["rc.local"] else [])
  else [].

(** The log files [collect_logs] has an excerpt of. *)
Definition logged_files (h : Host) : list string :=
  if is_linux h then
    filter (fun p => path_exists h p
                     && nonempty (run_command h (tail_command p))) log_files
  else [].

(** ** The progress lines of the collectors *)

Module Colors.

Definition ESC : ascii := ascii_of_nat 27.
Definition RED : string := String ESC "[91m".
Definition GREEN : string := String ESC "[92m".
Definition YELLOW : string := String ESC "[93m".
Definition CYAN : string := String ESC "[96m".
Definition BOLD : string := String ESC "[1m".
Definition DIM : string := String ESC "[2m".
Definition RESET : string := String ESC "[0m".

End Colors.

(** [f"{Colors.CYAN}[n/8]{Colors.RESET} what"] *)
Definition progress_line (n what : string) : string :=
  Colors.CYAN +++ "[" +++ n +++ "/8]" +++ Colors.RESET +++ " " +++ what.

(** [f"    Found {count} what"] *)
Definition found_line (count : nat) (what : string) : string :=
  "    Found " +++ dec count +++ " " +++ what.

(** What the four collectors that report a count print: the progress line
    at the start, and at the end the length of the list they have built,
    taken before any slice. *)
Definition collect_processes_prints (h : Host) : list string :=
  [progress_line "2" "Collecting processes...";
   found_line (length (processes_found h)) "processes"].

Definition collect_network_prints (h : Host) : list string :=
  [progress_line "3" "Collecting network connections...";
   found_line (length (connections_found h)) "connections"].

Definition collect_users_prints (h : Host) : list string :=
  [progress_line "4" "Collecting user accounts...";
   found_line (length (accounts_found h)) "user accounts"].

Definition collect_recent_files_prints (h : Host) : list string :=
  [progress_line "7" "Collecting recent files...";
   found_line (length (recent_found h)) "recent files"].

(** The account list of a snapshot. *)
Definition accounts_of (d : Dict) : option (list Value) :=
  match dict_get "users" d with
  | Some (VDict u) =>
      match dict_get "accounts" u with
      | Some (VList l) => Some l
      | _ => None
      end
  | _ => None
  end.

(** The printed counts against the lists of a snapshot [d]. *)
Definition counts_reported (h : Host) (d : Dict) : Prop :=
  exists np nc nu nr processes connections accounts recent,
    nth 1 (collect_processes_prints h) EmptyString
    = found_line np "processes"
    /\ nth 1 (collect_network_prints h) EmptyString
       = found_line nc "connections"
    /\ nth 1 (collect_users_prints h) EmptyString
       = found_line nu "user accounts"
    /\ nth 1 (collect_recent_files_prints h) EmptyString
       = found_line nr "recent files"
    /\ dict_get "processes" d = Some (VList processes)
    /\ length processes = Nat.min 100 np
    /\ connections_of d = Some connections
    /\ length connections = nc
    /\ accounts_of d = Some accounts
    /\ length accounts = nu
    /\ dict_get "recent_files" d = Some (VList recent)
    /\ length recent = Nat.min 50 nr.

(** ** Notions used to describe the artifact *)

(** A time whose stamp has the usual fifteen characters: a year of four
    digits, the other fields of two digits at most. *)
Definition stamp_time_valid (t : DateTime) : bool :=
  (1000 <=? year t) && (year t <? 100 * 100) && (month t <? 100)
  && (day t <? 100) && (hour t <? 100) && (minute t <? 100)
  && (second t <? 100).

(** Two readings of the local clock ([datetime.now()], a local date and
    time without time zone) that agree up to the second.  Equal readings
    need not be the same instant: the local clock repeats an hour when it
    is set back. *)
Definition same_clock_reading (t1 t2 : DateTime) : Prop :=
  year t1 = year t2 /\ month t1 = month t2 /\ day t1 = day t2
  /\ hour t1 = hour t2 /\ minute t1 = minute t2 /\ second t1 = second t2.

(** A text of printable ASCII characters and newlines. *)
Definition plain_char (c : ascii) : bool :=
  let n := nat_of_ascii c in ((32 <=? n) && (n <=? 126)) || (n =? 10).

Fixpoint plain_text (s : string) : bool :=
  match s with
  | EmptyString => true
  | String c s' => plain_char c && plain_text s'
  end.

(** A text that ends with a character that is not white space, and a
    trimmed text: empty, or with text at both ends. *)
Fixpoint ends_with_text (s : string) : bool :=
  match s with
  | EmptyString => false
  | String c EmptyString => negb (is_space c)
  | String _ s' => ends_with_text s'
  end.

Definition trimmed (s : string) : bool :=
  match s with
  | EmptyString => true
  | _ => starts_with_text s && ends_with_text s
  end.

(** A text of white space only, and what [strip] is to return for a
    text: its core, the text without the white space at its two ends. *)
Fixpoint all_space (s : string) : bool :=
  match s with
  | EmptyString => true
  | String c s' => is_space c && all_space s'
  end.

Definition core_of (out core : string) : Prop :=
  trimmed core = true
  /\ exists lead trail,
       all_space lead = true /\ all_space trail = true
       /\ out = lead +++ core +++ trail.

(** The keys of the system information. *)
Definition system_info_keys (h : Host) : list string :=
  ["os"; "os_release"; "os_version"; "machine"; "processor"; "hostname";
   "python_version"]
  ++ (if is_linux h then ["uptime"; "kernel"] else []).

(** The items of a JSON list after the first, and the members of a JSON
    object after the first, as [Json.encode] lays them out. *)
Definition items_text (level : nat) (l : list Value) : string :=
  String.concat EmptyString
    (map (fun y => "," +++ Json.newline_indent (S level)
                   +++ Json.encode (S level) y) l).

Definition members_text (level : nat) (l : list (string * Value)) : string :=
  String.concat EmptyString
    (map (fun ky => "," +++ Json.newline_indent (S level)
                    +++ Json.quoted (fst ky) +++ ": "
                    +++ Json.encode (S level) (snd ky)) l).

(** Induction on values, with the hypothesis for every item of a list and
    every member of a dictionary. *)
Definition Value_induction (P : Value -> Prop)
  (Hs : forall s, P (VStr s)) (Hi : forall z, P (VInt z))
  (Hl : forall l, Forall P l -> P (VList l))
  (Hd : forall d, Forall (fun kv => P (snd kv)) d -> P (VDict d))
  : forall v, P v :=
  fix F (v : Value) : P v :=
    match v with
    | VStr s => Hs s
    | VInt z => Hi z
    | VList l =>
        Hl l ((fix G (l : list Value) : Forall P l :=
                 match l with
                 | [] => Forall_nil P
                 | x :: l' => Forall_cons x (F x) (G l')
                 end) l)
    | VDict d =>
        Hd d ((fix G (d : list (string * Value))
                 : Forall (fun kv => P (snd kv)) d :=
                 match d with
                 | [] => Forall_nil _
                 | kv :: d' =>
                     Forall_cons (P := fun kv => P (snd kv)) kv
                       (F (snd kv)) (G d')
                 end) d)
    end.

(** ** Reading JSON text back *)

(** A reader for JSON texts with text, integer, array and object values,
    used to say what an artifact holds.  It reads one value from the front
    of a text and returns it with the rest of the text. *)

Module JsonRead.

(** White space between tokens. *)
Definition is_ws (c : ascii) : bool :=
  let n := nat_of_ascii c in (n =? 32) || (n =? 10) || (n =? 13) || (n =? 9).

Fixpoint skip_ws (s : string) : string :=
  match s with
  | EmptyString => EmptyString
  | String c s' => if is_ws c then skip_ws s' else s
  end.

Definition hex_value (c : ascii) : option nat :=
  let n := nat_of_ascii c in
  if (48 <=? n) && (n <=? 57) then Some (n - 48)
  else if (97 <=? n) && (n <=? 102) then Some (n - 87)
  else if (65 <=? n) && (n <=? 70) then Some (n - 55)
  else None.

(** The character a two-character escape stands for. *)
Definition escaped (e : ascii) : option ascii :=
  if Ascii.eqb e Json.QUOTE then Some Json.QUOTE
  else if Ascii.eqb e Json.BACKSLASH then Some Json.BACKSLASH
  else if Ascii.eqb e "/" then Some "/"%char
  else if Ascii.eqb e "b" then Some (ascii_of_nat 8)
  else if Ascii.eqb e "f" then Some (ascii_of_nat 12)
  else if Ascii.eqb e "n" then Some NL
  else if Ascii.eqb e "r" then Some CR
  else if Ascii.eqb e "t" then Some (ascii_of_nat 9)
  else None.

Definition with_char (c : ascii) (r : option (string * string))
  : option (string * string) :=
  match r with
  | Some (t, rest) => Some (String c t, rest)
  | None => None
  end.

(** The characters of a string literal after its opening quote, up to the
    closing quote.  A [\u] escape is read when it names a code point below
    256. *)
Fixpoint read_chars (s : string) : option (string * string) :=
  match s with
  | EmptyString => None
  | String c s' =>
      if Ascii.eqb c Json.QUOTE then Some (EmptyString, s')
      else if Ascii.eqb c Json.BACKSLASH then
        match s' with
        | EmptyString => None
        | String e s'' =>
            if Ascii.eqb e "u" then
              match s'' with
              | String a (String b (String x (String y r))) =>
                  match hex_value a, hex_value b, hex_value x, hex_value y with
                  | Some 0, Some 0, Some hi, Some lo =>
                      with_char (ascii_of_nat (16 * hi + lo)) (read_chars r)
                  | _, _, _, _ => None
                  end
              | _ => None
              end
            else
              match escaped e with
              | Some d => with_char d (read_chars s'')
              | None => None
              end
        end
      else if nat_of_ascii c <? 32 then None
      else with_char c (read_chars s')
  end.

(** An integer: the longest run of digits and minus signs, read as a
    decimal number with an optional minus sign in front (zeros in front
    are accepted). *)
Definition is_number_char (c : ascii) : bool :=
  is_digit c || Ascii.eqb c "-".

Fixpoint number_prefix (s : string) : string * string :=
  match s with
  | EmptyString => (EmptyString, EmptyString)
  | String c s' =>
      if is_number_char c then
        let (t, rest) := number_prefix s' in (String c t, rest)
      else (EmptyString, s)
  end.

Definition read_int (s : string) : option (Z * string) :=
  let (t, rest) := number_prefix s in
  match NilZero.int_of_string t with
  | Some d => Some (Z.of_int d, rest)
  | None => None
  end.

(** One value, given the readers of the items of an array and of the
    members of an object. *)
Definition value_step
  (items : string -> option (list Value * string))
  (members : string -> option (list (string * Value) * string))
  (s : string) : option (Value * string) :=
  match skip_ws s with
  | EmptyString => None
  | String c r =>
      if Ascii.eqb c Json.QUOTE then
        match read_chars r with
        | Some (t, rest) => Some (VStr t, rest)
        | None => None
        end
      else if Ascii.eqb c "[" then
        match skip_ws r with
        | EmptyString => None
        | String c' r' =>
            if Ascii.eqb c' "]" then Some (VList [], r')
            else match items r with
                 | Some (l, rest) => Some (VList l, rest)
                 | None => None
                 end
        end
      else if Ascii.eqb c "{" then
        match skip_ws r with
        | EmptyString => None
        | String c' r' =>
            if Ascii.eqb c' "}" then Some (VDict [], r')
            else match members r with
                 | Some (d, rest) => Some (VDict d, rest)
                 | None => None
                 end
        end
      else match read_int (String c r) with
           | Some (z, rest) => Some (VInt z, rest)
           | None => None
           end
  end.

(** The items of an array from the first one to the closing bracket. *)
Definition items_step
  (value : string -> option (Value * string))
  (items : string -> option (list Value * string))
  (s : string) : option (list Value * string) :=
  match value s with
  | Some (v, r) =>
      match skip_ws r with
      | EmptyString => None
      | String c r' =>
          if Ascii.eqb c "," then
            match items r' with
            | Some (l, rest) => Some (v :: l, rest)
            | None => None
            end
          else if Ascii.eqb c "]" then Some ([v], r')
          else None
      end
  | None => None
  end.

(** The members of an object from the first one to the closing brace. *)
Definition members_step
  (value : string -> option (Value * string))
  (members : string -> option (list (string * Value) * string))
  (s : string) : option (list (string * Value) * string) :=
  match skip_ws s with
  | EmptyString => None
  | String q r =>
      if Ascii.eqb q Json.QUOTE then
        match read_chars r with
        | Some (k, r1) =>
            match skip_ws r1 with
            | EmptyString => None
            | String c r2 =>
                if Ascii.eqb c ":" then
                  match value r2 with
                  | Some (v, r3) =>
                      match skip_ws r3 with
                      | EmptyString => None
                      | String c' r4 =>
                          if Ascii.eqb c' "," then
                            match members r4 with
                            | Some (d, rest) => Some ((k, v) :: d, rest)
                            | None => None
                            end
                          else if Ascii.eqb c' "}" then Some ([(k, v)], r4)
                          else None
                      end
                  | None => None
                  end
                else None
            end
        | None => None
        end
      else None
  end.

(** The reader; [fuel] bounds the number of nested calls. *)
Fixpoint read_value (fuel : nat) (s : string) : option (Value * string) :=
  match fuel with
  | 0 => None
  | S fuel' => value_step (read_items fuel') (read_members fuel') s
  end
with read_items (fuel : nat) (s : string) : option (list Value * string) :=
  match fuel with
  | 0 => None
  | S fuel' => items_step (read_value fuel') (read_items fuel') s
  end
with read_members (fuel : nat) (s : string)
  : option (list (string * Value) * string) :=
  match fuel with
  | 0 => None
  | S fuel' => members_step (read_value fuel') (read_members fuel') s
  end.

(** [json.loads]-like reading of a whole text: one value and nothing but
    white space after it.  A value never needs more nested calls than the
    text has characters. *)
Definition loads (s : string) : option Value :=
  match read_value (S (String.length s)) s with
  | Some (v, rest) =>
      match skip_ws rest with
      | EmptyString => Some v
      | String _ _ => None
      end
  | None => None
  end.

End JsonRead.

(** The number of nested calls that reading a value back takes at most. *)
Fixpoint read_size (v : Value) : nat :=
  match v with
  | VStr _ => 1
  | VInt _ => 1
  | VList l =>
      S ((fix sum (l : list Value) : nat :=
            match l with
            | [] => 0
            | x :: l' => S (read_size x + sum l')
            end) l)
  | VDict d =>
      S ((fix sum (d : list (string * Value)) : nat :=
            match d with
            | [] => 0
            | kx :: d' => S (read_size (snd kx) + sum d')
            end) d)
  end.

Definition items_size (l : list Value) : nat :=
  fold_right (fun x n => S (read_size x + n)) 0 l.

Definition members_size (d : list (string * Value)) : nat :=
  fold_right (fun kx n => S (read_size (snd kx) + n)) 0 d.

(** A text that does not begin with a digit or a minus sign. *)
Definition ends_number (rest : string) : bool :=
  match rest with
  | EmptyString => true
  | String c _ => negb (JsonRead.is_number_char c)
  end.

(** A text made of digits and minus signs. *)
Fixpoint number_text (s : string) : bool :=
  match s with
  | EmptyString => true
  | String c s' => JsonRead.is_number_char c && number_text s'
  end.

(** What reading back an encoded value, with any text after it that does
    not go on as a number, asks of the reader. *)
Definition reads_back (v : Value) : Prop :=
  forall level fuel rest,
    read_size v <= fuel -> ends_number rest = true ->
    JsonRead.read_value fuel (Json.encode level v +++ rest) = Some (v, rest).

(** A collector object holding a text with a carriage return, a quote
    and a character beyond ASCII. *)
Definition odd_texts : IRCollector :=
  {| output_dir := "./ir_collection";
     data := [("note", VList [VStr (String CR (String Json.QUOTE
                                      (String (ascii_of_nat 233) "x")));
                              VInt (-5)])] |}.

(** * Properties *)

(** ** The embedding on sample inputs *)

Example strip_both : strip "  ab c
" = "ab c".
Proof. reflexivity. Qed.

Example split_on_keeps_empty :
  split_on COLON "a::b:" = ["a"; EmptyString; "b"; EmptyString].
Proof. reflexivity. Qed.

Example split_on_empty : split_on NL EmptyString = [EmptyString].
Proof. reflexivity. Qed.

Example split_ws_runs : split_ws "  x   y " = ["x"; "y"].
Proof. reflexivity. Qed.

Example split_ws_max_rest : split_ws_max 1 "a b  c  " = ["a"; "b  c  "].
Proof. reflexivity. Qed.

Example split_ws_max_blank_rest : split_ws_max 1 "a   " = ["a"].
Proof. reflexivity. Qed.

Example py_int_plain : py_int None "1000" = Some 1000%Z.
Proof. reflexivity. Qed.

Example py_int_spaces_sign : py_int None " -0 " = Some 0%Z.
Proof. reflexivity. Qed.

Example py_int_underscore : py_int None "1_000" = Some 1000%Z.
Proof. reflexivity. Qed.

Example py_int_empty : py_int None EmptyString = None.
Proof. reflexivity. Qed.

Example py_int_bad : py_int None "1__0" = None /\ py_int None "x" = None
                     /\ py_int None "- 5" = None /\ py_int None "+" = None.
Proof. repeat split; reflexivity. Qed.

Example py_int_other_spaces :
  py_int None (String (ascii_of_nat 160) ("1000" +++ String (ascii_of_nat 133) EmptyString))
  = Some 1000%Z.
Proof. reflexivity. Qed.

(** [str.strip] removes the separators U+001C to U+001F, [int] refuses
    them. *)
Example py_int_separator :
  strip (String (ascii_of_nat 31) "1000") = "1000"
  /\ py_int None (String (ascii_of_nat 31) "1000") = None
  /\ py_int None ("1000" +++ String (ascii_of_nat 28) EmptyString) = None.
Proof. repeat split; reflexivity. Qed.

Example demo_processes :
  processes_found Hosts.server =
  [VDict [("user", VStr "root"); ("pid", VStr "1"); ("cpu", VStr "0.0");
          ("mem", VStr "0.1"); ("command", VStr "/sbin/init splash")];
   VDict [("user", VStr "alice"); ("pid", VStr "2211"); ("cpu", VStr "1.5");
          ("mem", VStr "2.0");
          ("command", VStr "python3 -m http.server 8000")]].
Proof. vm_compute. reflexivity. Qed.

Example pipeline_is_split :
  split_pipe_head "ss -tunapl 2>/dev/null | head -100"
  = Some ("ss -tunapl 2>/dev/null", 100)
  /\ split_pipe_head "cat /etc/crontab 2>/dev/null" = None.
Proof. split; reflexivity. Qed.

Example head_cuts_lines :
  head_lines 2 (Hosts.text ["a"; "b"; "c"]) = Hosts.text ["a"; "b"]
  /\ head_lines 2 "a" = "a".
Proof. split; reflexivity. Qed.

Example file_name_and_time :
  strftime_stamp Hosts.morning = "20240115_103045"
  /\ isoformat Hosts.a_second_later = "2024-01-15T10:30:46.000250".
Proof. split; reflexivity. Qed.

(** The encoder on a small value: two-space indentation, empty containers
    on one line, control and non-ASCII characters escaped. *)
Example json_layout :
  Json.dumps (VDict [("a", VList []); ("b", VDict []);
                     ("c", VList [VInt 1; VStr "x"]);
                     ("d", VDict [("k", VInt (-5))])])
  = Hosts.text ["{";
                "  " +++ Json.quoted "a" +++ ": [],";
                "  " +++ Json.quoted "b" +++ ": {},";
                "  " +++ Json.quoted "c" +++ ": [";
                "    1,";
                "    " +++ Json.quoted "x";
                "  ],";
                "  " +++ Json.quoted "d" +++ ": {";
                "    " +++ Json.quoted "k" +++ ": -5";
                "  }"] +++ "}".
Proof. vm_compute. reflexivity. Qed.

Example json_escapes :
  Json.escape (String NL (String (ascii_of_nat 1)
                 (String (ascii_of_nat 127)
                    (String (ascii_of_nat 233) "x"))))
  = String Json.BACKSLASH "n" +++ String Json.BACKSLASH "u0001"
    +++ String Json.BACKSLASH "u007f" +++ String Json.BACKSLASH "u00e9x".
Proof. vm_compute. reflexivity. Qed.

(** ** Text and list lemmas *)

Section Folds.

Context {A B : Type} (step : A -> B -> A) (P : A -> Prop).

(** A property kept by every turn of a loop holds when the loop ends. *)
Lemma fold_left_invariant :
  (forall a b, P a -> P (step a b)) ->
  forall l a, P a -> P (fold_left step l a).
Proof.
  intros Hstep l; induction l as [|b l IH]; intros a Ha; simpl.
  - exact Ha.
  - apply IH, Hstep, Ha.
Qed.

End Folds.

Lemma take_length (n : nat) (s : string) : String.length (take n s) <= n.
Proof.
  revert s; induction n as [|n IH]; intros [|c s]; simpl; try lia.
  specialize (IH s); lia.
Qed.

Lemma cons_head_length (c : ascii) (ws : list string) :
  ws <> [] -> length (cons_head c ws) = length ws.
Proof. destruct ws; simpl; congruence. Qed.

Lemma split_on_length (sep : ascii) (s : string) :
  length (split_on sep s) = S (count_char sep s).
Proof.
  induction s as [|c s IH]; simpl; [reflexivity|].
  destruct (Ascii.eqb c sep); simpl.
  - now rewrite IH.
  - rewrite cons_head_length; [exact IH|].
    intros E; rewrite E in IH; discriminate.
Qed.

Lemma count_char_app (c : ascii) (s t : string) :
  count_char c (s +++ t) = count_char c s + count_char c t.
Proof. induction s as [|a s IH]; simpl; [reflexivity|]. rewrite IH; lia. Qed.

Lemma count_char_lstrip (c : ascii) (s : string) :
  count_char c (lstrip s) <= count_char c s.
Proof.
  induction s as [|a s IH]; simpl; [lia|].
  destruct (is_space a); simpl; lia.
Qed.

Lemma count_char_rstrip (c : ascii) (s : string) :
  count_char c (rstrip s) <= count_char c s.
Proof.
  induction s as [|a s IH]; simpl; [lia|].
  destruct (rstrip s) eqn:E.
  - destruct (is_space a); simpl in *; lia.
  - cbn [count_char] in *. lia.
Qed.

Lemma count_char_strip (c : ascii) (s : string) :
  count_char c (strip s) <= count_char c s.
Proof.
  unfold strip.
  etransitivity; [apply count_char_rstrip | apply count_char_lstrip].
Qed.

(** [head -n] passes on at most [n] newlines, and at most [n] lines. *)
Lemma cut_line_count (s : string) :
  count_char NL (fst (cut_line s)) <= 1.
Proof.
  induction s as [|c s IH]; simpl; [lia|].
  destruct (Ascii.eqb c NL) eqn:E; simpl.
  - rewrite E; lia.
  - destruct (cut_line s) as [l r]; simpl in *. rewrite E; lia.
Qed.

Lemma head_lines_newlines (n : nat) (s : string) :
  count_char NL (head_lines n s) <= n.
Proof.
  revert s; induction n as [|n IH]; intros s; simpl; [lia|].
  pose proof (cut_line_count s) as H.
  destruct (cut_line s) as [l r]; simpl in H.
  rewrite count_char_app. specialize (IH r). lia.
Qed.

Lemma line_count_app_line (l t : string) :
  line_count (l +++ t) <= line_count l + line_count t.
Proof.
  induction l as [|c l IH]; [simpl; lia|].
  destruct l as [|c' l'].
  - cbn [String.append line_count].
    destruct t as [|d t']; [lia|].
    destruct (Ascii.eqb c NL); lia.
  - change ((String c (String c' l')) +++ t)
      with (String c ((String c' l') +++ t)).
    change (line_count (String c (String c' l' +++ t)))
      with ((if Ascii.eqb c NL then 1 else 0)
            + line_count (String c' l' +++ t)).
    change (line_count (String c (String c' l')))
      with ((if Ascii.eqb c NL then 1 else 0) + line_count (String c' l')).
    lia.
Qed.

Lemma cut_line_line_count (s : string) :
  line_count (fst (cut_line s)) <= 1.
Proof.
  induction s as [|c s IH]; simpl; [lia|].
  destruct (Ascii.eqb c NL) eqn:E; simpl; [lia|].
  destruct (cut_line s) as [l r]; simpl in *.
  destruct l; [lia|]. rewrite E. exact IH.
Qed.

Lemma head_lines_line_count (n : nat) (s : string) :
  line_count (head_lines n s) <= n.
Proof.
  revert s; induction n as [|n IH]; intros s; simpl; [lia|].
  pose proof (cut_line_line_count s) as H.
  destruct (cut_line s) as [l r]; simpl in H.
  etransitivity; [apply line_count_app_line|]. specialize (IH r). lia.
Qed.

Lemma cut_line_count_le (c : ascii) (s : string) :
  count_char c (fst (cut_line s)) + count_char c (snd (cut_line s))
  = count_char c s.
Proof.
  induction s as [|a s IH]; simpl; [reflexivity|].
  destruct (Ascii.eqb a NL); simpl; [lia|].
  destruct (cut_line s) as [l r]; simpl in *. lia.
Qed.

(** [head] passes on a prefix: it adds no character. *)
Lemma head_lines_count_le (c : ascii) (n : nat) (s : string) :
  count_char c (head_lines n s) <= count_char c s.
Proof.
  revert s; induction n as [|n IH]; intros s; simpl; [lia|].
  pose proof (cut_line_count_le c s) as H.
  destruct (cut_line s) as [l r]; simpl in H.
  rewrite count_char_app. specialize (IH r). lia.
Qed.

(** A text without carriage returns is read as it is. *)
Lemma translate_newlines_without_cr (s : string) :
  count_char CR s = 0 -> translate_newlines s = s.
Proof.
  induction s as [|c s IH]; [reflexivity|].
  cbn [count_char translate_newlines].
  destruct (Ascii.eqb c CR); [discriminate|].
  intros H. now rewrite IH.
Qed.

(** From here on the slices and [head] are used through these lemmas. *)
Arguments take : simpl never.
Arguments head_lines : simpl never.

(** ** Dictionary lemmas *)

Lemma dict_get_set (k k' : string) (v : Value) (d : Dict) :
  dict_get k' (dict_set k v d) =
  if String.eqb k k' then Some v else dict_get k' d.
Proof.
  induction d as [|[k0 v0] d IH]; simpl.
  - reflexivity.
  - destruct (String.eqb_spec k0 k) as [->|Hne]; simpl.
    + destruct (String.eqb k k'); reflexivity.
    + rewrite IH.
      destruct (String.eqb_spec k k') as [->|Hne'].
      * destruct (String.eqb_spec k0 k'); [congruence|reflexivity].
      * reflexivity.
Qed.

Lemma dict_get_set_other (k k' : string) (v : Value) (d : Dict) :
  k' <> k -> dict_get k' (dict_set k v d) = dict_get k' d.
Proof.
  intros H. rewrite dict_get_set.
  destruct (String.eqb_spec k k'); congruence.
Qed.

(** ** The command runner *)

Example run_command_unknown :
  run_command Hosts.server "this-command-does-not-exist-xyz" = EmptyString.
Proof. reflexivity. Qed.

(** The text of a [| head -N] pipeline has at most [N] newlines and at
    most [N] lines when its producer wrote no carriage return. *)
Lemma run_command_head_bound (h : Host) (cmd producer : string) (n : nat) :
  split_pipe_head cmd = Some (producer, n) ->
  count_char CR (raw_stdout h producer) = 0 ->
  count_char NL (run_command h cmd) <= n
  /\ line_count (run_command h cmd) <= n.
Proof.
  intros H. unfold run_command, subprocess_run, raw_stdout. rewrite H.
  destruct (sh_simple h producer) as [rc out err|e]; [|simpl; lia].
  intros Hcr.
  rewrite translate_newlines_without_cr.
  - split; [apply head_lines_newlines | apply head_lines_line_count].
  - pose proof (head_lines_count_le CR n out). lia.
Qed.

(** C1, as amended: [run_command] never raises (it is a total function to
    text); when [subprocess.run] raises (the 30 second timeout, a shell that
    cannot be started, output that is not text) it returns the empty text;
    when the command completes it returns the captured standard output
    whatever the exit status, so after a non-zero exit the text is empty
    only if the command printed nothing on standard output. *)
Theorem run_command_stdout_or_empty (h : Host) (cmd : string) :
  (forall e, subprocess_run h cmd = RunRaises e ->
             run_command h cmd = EmptyString)
  /\ (forall rc out err, subprocess_run h cmd = Completed rc out err ->
                         run_command h cmd = out).
Proof.
  unfold run_command; split.
  - intros e ->. reflexivity.
  - intros rc out err ->. reflexivity.
Qed.

Lemma run_command_stdout_or_empty_witness :
  run_command Hosts.silent "uptime -p" = EmptyString
  /\ run_command Hosts.server "uname -r" = Hosts.text ["6.1.0-18-amd64"].
Proof.
  split.
  - apply (proj1 (run_command_stdout_or_empty Hosts.silent "uptime -p")
             TimeoutExpired).
    reflexivity.
  - apply (proj2 (run_command_stdout_or_empty Hosts.server "uname -r")
             0%Z (Hosts.text ["6.1.0-18-amd64"]) EmptyString).
    reflexivity.
Defined.

(** C1 as stated fails: a command that prints a line and exits with status
    2 gives that line, not the empty text. *)
Lemma run_command_nonzero_exit_keeps_stdout :
  subprocess_run Hosts.partial_output Hosts.failing_command
  = Completed 2 (Hosts.text ["/var/log/auth.log:12"])
      "grep: /var/log/secure: No such file or directory"
  /\ run_command Hosts.partial_output Hosts.failing_command
     = Hosts.text ["/var/log/auth.log:12"]
  /\ ~ (forall h cmd rc out err,
          subprocess_run h cmd = Completed rc out err -> rc <> 0%Z ->
          run_command h cmd = EmptyString).
Proof.
  split; [reflexivity|]. split; [reflexivity|].
  intros H.
  specialize (H Hosts.partial_output Hosts.failing_command 2%Z
                (Hosts.text ["/var/log/auth.log:12"])
                "grep: /var/log/secure: No such file or directory"
                eq_refl).
  assert (2 <> 0)%Z as H2 by lia.
  specialize (H H2). vm_compute in H. discriminate H.
Qed.

(** ** The pipeline *)

Ltac dict_eval :=
  cbn [dict_set dict_get dict_keys map fst snd data output_dir
       String.eqb Ascii.eqb Bool.eqb].

(** What a completed [run_collection] has stored: every collector has
    assigned its key, the listing of the cron and init directories has
    succeeded, and the file holds the final dictionary. *)
Lemma run_collection_data (h : Host) (self : IRCollector)
  (saved : SavedFile) (self' : IRCollector) :
  run_collection h self = Ok (saved, self') ->
  exists tasks autostart,
    tasks_found h = Ok tasks
    /\ autostart_found h = Ok autostart
    /\ output_dir self' = output_dir self
    /\ data self' =
       dict_set "logs" (VDict (logs_found h))
         (dict_set "recent_files" (VList (firstn 50 (recent_found h)))
            (dict_set "autostart" (VList autostart)
               (dict_set "scheduled_tasks" (VList tasks)
                  (dict_set "users" (VDict (users_found h))
                     (dict_set "network" (VDict (network_found h))
                        (dict_set "processes"
                           (VList (firstn 100 (processes_found h)))
                           (dict_set "system_info"
                              (VDict (system_info_found h))
                              (data self))))))))
    /\ save_results h self' = Ok (saved, self').
Proof.
  unfold run_collection, collect_system_info, collect_processes,
    collect_network, collect_users, collect_scheduled_tasks,
    collect_autostart, collect_recent_files, collect_logs, set_data, lift,
    ret, bind.
  cbn [data output_dir].
  destruct (tasks_found h) as [tasks|e]; [|discriminate].
  destruct (autostart_found h) as [autostart|e]; [|discriminate].
  cbn [data output_dir].
  match goal with
  | |- match save_results h ?c with _ => _ end = _ -> _ =>
      set (final := c); destruct (save_results h final) as [[f c']|e] eqn:E
  end; [|discriminate].
  intros H; injection H as -> ->.
  exists tasks, autostart.
  assert (self' = final) as ->.
  { unfold save_results in E.
    destruct (open_write h (output_dir final) _); [|discriminate].
    now injection E as _ <-. }
  repeat split; try reflexivity. exact E.
Qed.

(** The same for a whole run, from [__init__] on. *)
Lemma main_data (h : Host) (output : string)
  (saved : SavedFile) (self : IRCollector) :
  main h output = Ok (saved, self) ->
  exists tasks autostart,
    tasks_found h = Ok tasks
    /\ autostart_found h = Ok autostart
    /\ output_dir self = output
    /\ data self =
       [("collection_time", VStr (isoformat (now_at_init h)));
        ("hostname", VStr (gethostname h));
        ("platform", VStr (platform_system h));
        ("system_info", VDict (system_info_found h));
        ("processes", VList (firstn 100 (processes_found h)));
        ("network", VDict (network_found h));
        ("users", VDict (users_found h));
        ("scheduled_tasks", VList tasks);
        ("autostart", VList autostart);
        ("recent_files", VList (firstn 50 (recent_found h)));
        ("logs", VDict (logs_found h))]
    /\ sf_content saved = Json.dumps (VDict (data self)).
Proof.
  unfold main, init.
  destruct (mkdir_parents h output); [|discriminate].
  intros H. apply run_collection_data in H.
  destruct H as (tasks & autostart & Ht & Ha & Hdir & Hdata & Hsave).
  exists tasks, autostart.
  split; [exact Ht|]. split; [exact Ha|]. split; [exact Hdir|]. split.
  - rewrite Hdata. dict_eval. reflexivity.
  - unfold save_results in Hsave.
    destruct (open_write h (output_dir self) _); [|discriminate].
    now injection Hsave as <-.
Qed.

(** Every collector ends in one assignment to [self.data]. *)
Lemma collector_assigns (h : Host) (k : string) (c : M unit) :
  In (k, c) (collectors h) ->
  forall self self', c self = Ok (tt, self') ->
  exists v, self' = {| output_dir := output_dir self;
                       data := dict_set k v (data self) |}.
Proof.
  unfold collectors; simpl.
  intros H self self' Hc.
  repeat (destruct H as [H|H];
          [injection H as <- <-;
           unfold collect_system_info, collect_processes, collect_network,
             collect_users, collect_scheduled_tasks, collect_autostart,
             collect_recent_files, collect_logs, set_data, lift, bind in Hc;
           try (injection Hc as <-; eexists; reflexivity)|]);
    try contradiction.
  - destruct (tasks_found h); [|discriminate].
    injection Hc as <-; eexists; reflexivity.
  - destruct (autostart_found h); [|discriminate].
    injection Hc as <-; eexists; reflexivity.
Qed.

Lemma save_results_keeps_self (h : Host) (self : IRCollector)
  (saved : SavedFile) (self' : IRCollector) :
  save_results h self = Ok (saved, self') -> self' = self.
Proof.
  unfold save_results.
  destruct (open_write h (output_dir self) _); [|discriminate].
  intros H; now injection H as _ <-.
Qed.

(** C8: a collector that returns has changed nothing but its own key of
    [self.data]: every other key, the metadata keys among them, maps to
    what it mapped to before, and the output directory is the same.  The
    keys of the eight collectors are distinct and none of them is a
    metadata key, so a fragment stored by one collector is left alone by
    the others.  [save_results] leaves the object it is given as it is. *)
Theorem collector_changes_own_key_only (h : Host) (k : string) (c : M unit)
  (self self' : IRCollector) :
  In (k, c) (collectors h) ->
  c self = Ok (tt, self') ->
  output_dir self' = output_dir self
  /\ (forall k', k' <> k ->
             dict_get k' (data self') = dict_get k' (data self))
  /\ ~ In k metadata_keys
  /\ NoDup (map fst (collectors h))
  /\ (forall saved self'',
        save_results h self' = Ok (saved, self'') -> self'' = self').
Proof.
  intros Hin Hc.
  destruct (collector_assigns h k c Hin self self' Hc) as [v ->].
  split; [reflexivity|]. split.
  { intros k' Hk. cbn [data]. now apply dict_get_set_other. }
  split.
  { unfold collectors in Hin; simpl in Hin.
    repeat (destruct Hin as [Hin|Hin];
            [injection Hin as <- _; simpl; intuition discriminate|]).
    contradiction. }
  split.
  { unfold collectors; simpl.
    repeat (constructor; [simpl; intuition discriminate|]). constructor. }
  intros saved self''. apply save_results_keeps_self.
Qed.

Lemma collector_changes_own_key_only_witness :
  exists self',
    collect_processes Hosts.server Hosts.fresh = Ok (tt, self')
    /\ dict_get "hostname" (data self') = Some (VStr "web01").
Proof.
  eexists. split; [vm_compute; reflexivity|].
  refine (eq_trans
            (proj1 (proj2 (collector_changes_own_key_only Hosts.server
                             "processes" (collect_processes Hosts.server)
                             Hosts.fresh _ _ _))
               "hostname" _) _).
  - unfold collectors; simpl; tauto.
  - vm_compute; reflexivity.
  - discriminate.
  - reflexivity.
Defined.

(** C9: the content [save_results] writes is a function of the snapshot
    alone: two writes of the same [self.data], on any hosts, at any times
    and into any directories, produce the same text, the JSON encoding of
    the snapshot. *)
Theorem save_results_content_deterministic (h1 h2 : Host)
  (self1 self2 : IRCollector) (f1 f2 : SavedFile) (c1 c2 : IRCollector) :
  data self1 = data self2 ->
  save_results h1 self1 = Ok (f1, c1) ->
  save_results h2 self2 = Ok (f2, c2) ->
  sf_content f1 = sf_content f2
  /\ sf_content f1 = Json.dumps (VDict (data self1)).
Proof.
  unfold save_results. intros Hd H1 H2.
  destruct (open_write h1 (output_dir self1) _); [|discriminate].
  destruct (open_write h2 (output_dir self2) _); [|discriminate].
  injection H1 as <- _. injection H2 as <- _.
  cbn [sf_content]. rewrite Hd. split; reflexivity.
Qed.

(** Two writes of one snapshot a second apart: two file names, one
    content. *)
Lemma save_results_content_deterministic_witness :
  exists f1 f2 c1 c2,
    save_results Hosts.server Hosts.fresh = Ok (f1, c1)
    /\ save_results Hosts.server_later Hosts.fresh = Ok (f2, c2)
    /\ sf_name f1 = "ir_collection_20240115_103045.json"
    /\ sf_name f2 = "ir_collection_20240115_103046.json"
    /\ sf_content f1 = sf_content f2.
Proof.
  do 4 eexists.
  split; [vm_compute; reflexivity|].
  split; [vm_compute; reflexivity|].
  split; [reflexivity|]. split; [reflexivity|].
  refine (proj1 (save_results_content_deterministic
                   Hosts.server Hosts.server_later Hosts.fresh Hosts.fresh
                   _ _ _ _ _ _ _)).
  - reflexivity.
  - vm_compute; reflexivity.
  - vm_compute; reflexivity.
Defined.

(** ** Truncation bounds *)

Lemma Forall_firstn {A : Type} (P : A -> Prop) (n : nat) (l : list A) :
  Forall P l -> Forall P (firstn n l).
Proof.
  intros H; revert n; induction H as [|x l Hx Hl IH]; intros [|n];
    cbn [firstn]; constructor; auto.
Qed.

Lemma Forall_snoc {A : Type} (P : A -> Prop) (l : list A) (x : A) :
  Forall P l -> P x -> Forall P (l ++ [x]).
Proof. intros Hl Hx. apply Forall_app; split; [exact Hl|]. now constructor. Qed.

Ltac entry_eval :=
  cbn [entry_content dict_get String.eqb Ascii.eqb Bool.eqb].

Lemma processes_command_bounded (h : Host) :
  Forall command_bounded (processes_found h).
Proof.
  unfold processes_found. destruct (is_linux h); [|constructor].
  apply fold_left_invariant; [|constructor].
  intros acc line Hacc. unfold processes_step.
  destruct (nonempty line); [|exact Hacc].
  destruct (11 <=? _); [|exact Hacc].
  apply Forall_snoc; [exact Hacc|].
  eexists; eexists. split; [reflexivity|]. entry_eval.
  split; [reflexivity|]. apply take_length.
Qed.

Lemma connections_step_length (acc : list Value) (line : string) :
  length (connections_step acc line) <= S (length acc).
Proof.
  unfold connections_step.
  destruct (nonempty line); [|lia].
  destruct (5 <=? _); [|lia].
  rewrite length_app; simpl; lia.
Qed.

Lemma connections_fold_length (lines : list string) (acc : list Value) :
  length (fold_left connections_step lines acc) <= length acc + length lines.
Proof.
  revert acc; induction lines as [|l lines IH]; intros acc; simpl; [lia|].
  specialize (IH (connections_step acc l)).
  pose proof (connections_step_length acc l). lia.
Qed.

(** The connection list has at most as many entries as the text of the
    pipeline has newlines. *)
Lemma connections_length_newlines (h : Host) :
  length (connections_found h)
  <= count_char NL (run_command h "ss -tunapl 2>/dev/null | head -100").
Proof.
  unfold connections_found. destruct (is_linux h); [|simpl; lia].
  set (output := run_command h _).
  etransitivity; [apply connections_fold_length|].
  rewrite length_tl, split_on_length. simpl.
  pose proof (count_char_strip NL output). lia.
Qed.

(** When [ss] wrote no carriage return the [head -100] of the pipeline
    bounds the connection list: at most 100 lines come back, and the first
    of them is left out. *)
Lemma connections_length_without_cr (h : Host) :
  count_char CR (raw_stdout h "ss -tunapl 2>/dev/null") = 0 ->
  length (connections_found h) <= 100.
Proof.
  intros Hcr.
  etransitivity; [apply connections_length_newlines|].
  apply (run_command_head_bound h _ "ss -tunapl 2>/dev/null" 100);
    [reflexivity | exact Hcr].
Qed.

Lemma cron_dirs_loop_bounded (h : Host) (dirs : list string) :
  forall tasks tasks',
    Forall crontab_bounded tasks ->
    cron_dirs_loop h dirs tasks = Ok tasks' ->
    Forall crontab_bounded tasks'.
Proof.
  induction dirs as [|dir dirs IH]; intros tasks tasks' Hb; simpl.
  - intros H; now injection H as <-.
  - destruct (path_exists h dir); [|now apply IH].
    destruct (os_listdir h dir) as [files|e]; [|discriminate].
    apply IH. apply Forall_snoc; [exact Hb|].
    intros c. entry_eval. intros [H|H]; discriminate.
Qed.

Lemma tasks_bounded (h : Host) (tasks : list Value) :
  tasks_found h = Ok tasks -> Forall crontab_bounded tasks.
Proof.
  unfold tasks_found. destruct (is_linux h).
  2:{ intros H; injection H as <-; constructor. }
  match goal with
  | |- match cron_dirs_loop h cron_dirs ?t with _ => _ end = _ -> _ =>
      assert (Forall crontab_bounded t) as Hstart; [|generalize dependent t]
  end.
  { set (crontab := run_command h "cat /etc/crontab 2>/dev/null").
    set (user_cron := run_command h "crontab -l 2>/dev/null").
    assert (Forall crontab_bounded
              (if nonempty crontab
               then [] ++ [VDict [("type", VStr "system_crontab");
                                  ("content", VStr (take 1000 crontab))]]
               else [])) as H1.
    { destruct (nonempty crontab); [|constructor].
      apply Forall_snoc; [constructor|].
      intros c. entry_eval.
      intros [H|H]; [|discriminate].
      replace c with (take 1000 crontab) by congruence. apply take_length. }
    destruct (nonempty user_cron); [|exact H1].
    apply Forall_snoc; [exact H1|].
    intros c. entry_eval.
    intros [H|H]; [discriminate|].
    replace c with (take 1000 user_cron) by congruence. apply take_length. }
  intros start Hstart.
  destruct (cron_dirs_loop h cron_dirs start) as [tasks1|e] eqn:E;
    [|discriminate].
  intros H; injection H as <-.
  pose proof (cron_dirs_loop_bounded h cron_dirs start tasks1 Hstart E) as Hb.
  destruct (nonempty _); [|exact Hb].
  apply Forall_snoc; [exact Hb|].
  intros c. entry_eval. intros [H|H]; discriminate.
Qed.

(** The autostart entries: the content of the rc.local entry is a slice of
    500 characters; the content of the enabled-services entry is the text
    of the pipeline, with whatever property [P] that text has. *)
Lemma autostart_entries (h : Host) (P : string -> Prop)
  (autostart : list Value) :
  P (run_command h
       "systemctl list-unit-files --type=service --state=enabled --no-pager 2>/dev/null | head -50") ->
  autostart_found h = Ok autostart ->
  Forall (fun a =>
            (forall c, entry_content "systemd_enabled" a = Some c -> P c)
            /\ rclocal_bounded a) autostart.
Proof.
  unfold autostart_found, rclocal_bounded. intros HP. destruct (is_linux h).
  2:{ intros H; injection H as <-; constructor. }
  revert HP. set (services := run_command h _).
  set (rclocal := run_command h "cat /etc/rc.local 2>/dev/null").
  intros HP.
  set (Q := fun a : Value =>
              (forall c, entry_content "systemd_enabled" a = Some c -> P c)
              /\ (forall c, entry_content "rc.local" a = Some c ->
                            String.length c <= 500)).
  assert (Forall Q
            (if nonempty services
             then [] ++ [VDict [("type", VStr "systemd_enabled");
                                ("content", VStr services)]]
             else [])) as H1.
  { destruct (nonempty services); [|constructor].
    apply Forall_snoc; [constructor|].
    split; intros c; entry_eval; intros H; [|discriminate].
    replace c with services by congruence. exact HP. }
  match goal with
  | |- match ?m with _ => _ end = _ -> _ =>
      assert (forall a, m = Ok a -> Forall Q a) as H2
  end.
  { intros a. destruct (path_exists h "/etc/init.d").
    - destruct (os_listdir h "/etc/init.d") as [files|e]; [|discriminate].
      intros H; injection H as <-.
      apply Forall_snoc; [exact H1|].
      split; intros c; entry_eval; intros H; discriminate.
    - intros H; injection H as <-. exact H1. }
  match goal with
  | |- match ?m with _ => _ end = _ -> _ =>
      destruct m as [a|e]; [|discriminate]
  end.
  specialize (H2 a eq_refl).
  intros H; injection H as <-.
  destruct (nonempty rclocal); [|exact H2].
  apply Forall_snoc; [exact H2|].
  split; intros c; entry_eval; intros H; [discriminate|].
  replace c with (take 500 rclocal) by congruence. apply take_length.
Qed.

Ltac snapshot_eval :=
  cbn [connections_of autostart_of dict_set dict_get dict_keys map fst snd
       data output_dir network_found String.eqb Ascii.eqb Bool.eqb].

(** X23: the bounds set with slices hold in the snapshot of every
    completed run: at most 100 processes, each command at most 100 characters, at
    most 50 recent files, crontab contents of at most 1000 characters, an
    rc.local content of at most 500 characters. *)
Lemma snapshot_sliced_bounds (h : Host) (output : string)
  (saved : SavedFile) (self : IRCollector) :
  main h output = Ok (saved, self) -> sliced_bounds (data self).
Proof.
  intros H. apply main_data in H.
  destruct H as (tasks & autostart & Ht & Ha & _ & Hdata & _).
  exists (firstn 100 (processes_found h)), (firstn 50 (recent_found h)),
    tasks, autostart.
  rewrite Hdata. snapshot_eval.
  split; [reflexivity|].
  split; [apply firstn_le_length|].
  split; [apply Forall_firstn, processes_command_bounded|].
  split; [reflexivity|].
  split; [apply firstn_le_length|].
  split; [reflexivity|].
  split; [now apply (tasks_bounded h)|].
  split; [reflexivity|].
  eapply Forall_impl; [|apply (autostart_entries h (fun _ => True) _ I Ha)].
  intros a [_ Hr]. exact Hr.
Qed.

(** X24: the bounds left to [head] hold in the snapshot of a completed
    run when [ss] and [systemctl] wrote no carriage return: at most 100 connections,
    at most 50 lines of enabled services. *)
Lemma snapshot_piped_bounds_without_cr (h : Host) (output : string)
  (saved : SavedFile) (self : IRCollector) :
  main h output = Ok (saved, self) ->
  count_char CR (raw_stdout h "ss -tunapl 2>/dev/null") = 0 ->
  count_char CR
    (raw_stdout h
       "systemctl list-unit-files --type=service --state=enabled --no-pager 2>/dev/null")
  = 0 ->
  piped_bounds (data self).
Proof.
  intros H Hss Hsc. apply main_data in H.
  destruct H as (tasks & autostart & Ht & Ha & _ & Hdata & _).
  exists (connections_found h), autostart.
  rewrite Hdata. snapshot_eval.
  split; [reflexivity|].
  split; [now apply connections_length_without_cr|].
  split; [reflexivity|].
  assert (line_count
            (run_command h
               "systemctl list-unit-files --type=service --state=enabled --no-pager 2>/dev/null | head -50")
          <= 50) as Hlines.
  { apply (run_command_head_bound h _
             "systemctl list-unit-files --type=service --state=enabled --no-pager 2>/dev/null"
             50); [reflexivity | exact Hsc]. }
  eapply Forall_impl;
    [|apply (autostart_entries h (fun c => line_count c <= 50) _ Hlines Ha)].
  intros a [Hs _]. exact Hs.
Qed.

Lemma snapshot_sliced_bounds_witness :
  exists saved self,
    main Hosts.server "./ir_collection" = Ok (saved, self)
    /\ sliced_bounds (data self).
Proof.
  eexists; eexists.
  split; [vm_compute; reflexivity|].
  eapply (snapshot_sliced_bounds Hosts.server "./ir_collection").
  vm_compute; reflexivity.
Defined.

Lemma snapshot_piped_bounds_without_cr_witness :
  exists saved self,
    main Hosts.server "./ir_collection" = Ok (saved, self)
    /\ piped_bounds (data self).
Proof.
  eexists; eexists.
  split; [vm_compute; reflexivity|].
  eapply (snapshot_piped_bounds_without_cr Hosts.server "./ir_collection");
    vm_compute; reflexivity.
Defined.

(** On the server under load the lists are cut to 100, 99 and 50 entries,
    the crontab to 1000 characters, the services to 50 lines. *)
Example busy_lengths :
  length (processes_found Hosts.busy) = 150
  /\ length (firstn 100 (processes_found Hosts.busy)) = 100
  /\ length (connections_found Hosts.busy) = 99
  /\ length (recent_found Hosts.busy) = 100
  /\ length (firstn 50 (recent_found Hosts.busy)) = 50.
Proof. vm_compute. repeat split. Qed.

Example busy_contents :
  match tasks_found Hosts.busy with
  | Ok [t] =>
      option_map String.length (entry_content "system_crontab" t) = Some 1000
  | _ => False
  end
  /\ match autostart_found Hosts.busy with
     | Ok [a] =>
         option_map line_count (entry_content "systemd_enabled" a) = Some 50
     | _ => False
     end.
Proof. vm_compute. split; reflexivity. Qed.

(** C4 fails on the code: the connection list has no slice of its own, its
    bound is the [head -100] of the pipeline, and [head] counts newlines
    only.  When a process has a carriage return in its name, [ss] writes
    100 lines, [head -100] passes them all, text mode turns every carriage
    return into a newline, and 99 sockets give 198 connection records in
    the snapshot of the completed run. *)
Theorem connections_exceed_bound_after_newline_translation :
  line_count Hosts.ss_output_renamed = 100
  /\ head_lines 100 Hosts.ss_output_renamed = Hosts.ss_output_renamed
  /\ length (connections_found Hosts.renamed) = 198
  /\ match main Hosts.renamed "./ir_collection" with
     | Ok (_, self) =>
         option_map (@length Value) (connections_of (data self)) = Some 198
     | Raise _ => False
     end.
Proof. repeat split; vm_compute; reflexivity. Qed.

(** ** Log excerpts *)

Lemma logs_fold (h : Host) (files : list string) :
  forall (acc : Dict) (p : string),
    dict_get p (fold_left (logs_step h) files acc) =
    if existsb (String.eqb p) files && path_exists h p
       && nonempty (run_command h (tail_command p))
    then Some (VStr (run_command h (tail_command p)))
    else dict_get p acc.
Proof.
  induction files as [|f files IH]; intros acc p; [reflexivity|].
  cbn [fold_left existsb]. rewrite IH.
  destruct (existsb (String.eqb p) files) eqn:Ein.
  - rewrite orb_true_r. cbn [andb].
    destruct (path_exists h p) eqn:Ep; cbn [andb].
    + destruct (nonempty (run_command h (tail_command p))) eqn:Eo;
        [reflexivity|].
      unfold logs_step.
      destruct (path_exists h f); [|reflexivity].
      destruct (nonempty (run_command h (tail_command f))) eqn:Ef;
        [|reflexivity].
      rewrite dict_get_set.
      destruct (String.eqb_spec f p) as [->|]; [congruence|reflexivity].
    + unfold logs_step.
      destruct (path_exists h f) eqn:Ef; [|reflexivity].
      destruct (nonempty (run_command h (tail_command f))); [|reflexivity].
      rewrite dict_get_set.
      destruct (String.eqb_spec f p) as [->|]; [congruence|reflexivity].
  - rewrite orb_false_r. unfold logs_step.
    destruct (String.eqb_spec p f) as [->|Hne]; cbn [andb].
    + destruct (path_exists h f); cbn [andb]; [|reflexivity].
      destruct (nonempty (run_command h (tail_command f))); [|reflexivity].
      rewrite dict_get_set, String.eqb_refl. reflexivity.
    + destruct (path_exists h f); [|reflexivity].
      destruct (nonempty (run_command h (tail_command f))); [|reflexivity].
      rewrite dict_get_set.
      destruct (String.eqb_spec f p) as [->|]; [congruence|reflexivity].
Qed.

Lemma tail_command_not_piped (p : string) :
  In p log_files -> split_pipe_head (tail_command p) = None.
Proof.
  intros [<-|[<-|[<-|[<-|[]]]]]; vm_compute; reflexivity.
Qed.

Lemma log_file_listed (p : string) :
  In p log_files -> existsb (String.eqb p) log_files = true.
Proof.
  intros [<-|[<-|[<-|[<-|[]]]]]; vm_compute; reflexivity.
Qed.

(** When [tail] prints the last 50 lines of a log, [run_command] returns
    them as text mode hands them over. *)
Lemma run_command_tail (h : Host) (p content : string) :
  In p log_files -> tail_prints h p content ->
  run_command h (tail_command p)
  = translate_newlines (last_lines 50 content).
Proof.
  intros Hin Ht. unfold run_command, subprocess_run.
  rewrite (tail_command_not_piped p Hin). unfold tail_prints in Ht.
  now rewrite Ht.
Qed.

Lemma file_lines_not_empty (s : string) :
  Forall (fun l => nonempty l = true) (file_lines s).
Proof.
  induction s as [|c s IH]; [constructor|].
  cbn [file_lines]. destruct (Ascii.eqb c NL).
  - constructor; [reflexivity | exact IH].
  - destruct (file_lines s) as [|w ws]; cbn [cons_head].
    + constructor; [reflexivity | constructor].
    + inversion IH; subst. constructor; [reflexivity | assumption].
Qed.

Lemma file_lines_of_text (s : string) :
  nonempty s = true -> file_lines s <> [].
Proof.
  destruct s as [|c s]; [discriminate|]. intros _.
  cbn [file_lines]. destruct (Ascii.eqb c NL); [discriminate|].
  destruct (file_lines s); discriminate.
Qed.

Lemma skipn_Forall {A : Type} (P : A -> Prop) (l : list A) :
  Forall P l -> forall k, Forall P (skipn k l).
Proof.
  induction 1 as [|x l Hx Hl IH]; intros k.
  - destruct k; constructor.
  - destruct k; cbn [skipn]; [constructor; assumption | apply IH].
Qed.

(** The last lines of a text that is not empty are not empty. *)
Lemma last_lines_nonempty (n : nat) (s : string) :
  0 < n -> nonempty s = true -> nonempty (last_lines n s) = true.
Proof.
  intros Hn Hs. unfold last_lines.
  pose proof (file_lines_of_text s Hs) as Hnil.
  pose proof (skipn_Forall _ _ (file_lines_not_empty s)
                (length (file_lines s) - n)) as Hall.
  destruct (skipn (length (file_lines s) - n) (file_lines s))
    as [|x l] eqn:E.
  - apply (f_equal (@length string)) in E. rewrite length_skipn in E.
    destruct (file_lines s); [congruence|]. cbn [length] in E. lia.
  - inversion Hall as [|? ? Hx _]; subst.
    destruct x as [|c x]; [discriminate|]. now destruct l.
Qed.

(** C7, as amended: [collect_logs] always returns and stores the log
    dictionary under [logs].  That dictionary has a key for a path exactly
    when the host is Linux, the path is one of the four well-known log
    paths, it exists and [tail -50] printed something for it: a path that
    does not exist has no key, and neither has an existing path for which
    [tail] printed nothing (an empty log, a log the user may not read, a
    timeout).  When [tail] prints the last 50 lines of an existing log
    that is not empty, and these lines hold no carriage return, the key
    maps to exactly these lines: the last 50 lines of that file,
    verbatim. *)
Theorem logs_keys_and_values (h : Host) (self : IRCollector) :
  exists self',
    collect_logs h self = Ok (tt, self')
    /\ dict_get "logs" (data self') = Some (VDict (logs_found h))
    /\ (forall p,
          dict_has p (logs_found h)
          = is_linux h && existsb (String.eqb p) log_files
            && path_exists h p
            && nonempty (run_command h (tail_command p)))
    /\ (forall p content,
          is_linux h = true -> In p log_files -> path_exists h p = true ->
          tail_prints h p content ->
          nonempty content = true ->
          count_char CR (last_lines 50 content) = 0 ->
          dict_get p (logs_found h) = Some (VStr (last_lines 50 content))).
Proof.
  eexists. split; [reflexivity|]. split.
  { cbn [data]. rewrite dict_get_set, String.eqb_refl. reflexivity. }
  split.
  - intros p. unfold dict_has, logs_found.
    destruct (is_linux h); [|reflexivity].
    rewrite logs_fold. cbn [andb dict_get].
    now destruct (existsb (String.eqb p) log_files && path_exists h p
                  && nonempty (run_command h (tail_command p))).
  - intros p content Hl Hin He Ht Hc Hcr. unfold logs_found.
    rewrite Hl, logs_fold, (log_file_listed p Hin), He.
    rewrite (run_command_tail h p content Hin Ht).
    rewrite (translate_newlines_without_cr _ Hcr).
    rewrite last_lines_nonempty; [reflexivity | lia | exact Hc].
Qed.

(** On a server whose authentication log has sixty lines the key maps to
    lines 11 to 60 of the file. *)
Lemma logs_keys_and_values_witness :
  exists self',
    collect_logs Hosts.long_log
      {| output_dir := "./ir_collection"; data := [] |} = Ok (tt, self')
    /\ dict_has "/var/log/auth.log" (logs_found Hosts.long_log) = true
    /\ dict_has "/var/log/syslog" (logs_found Hosts.long_log) = false
    /\ dict_get "/var/log/auth.log" (logs_found Hosts.long_log)
       = Some (VStr (Hosts.text (map Hosts.session_line (seq 11 50)))).
Proof.
  destruct (logs_keys_and_values Hosts.long_log
              {| output_dir := "./ir_collection"; data := [] |})
    as (self' & Hrun & _ & Hkeys & Hvalues).
  exists self'. split; [exact Hrun|].
  split; [rewrite Hkeys; vm_compute; reflexivity|].
  split; [rewrite Hkeys; vm_compute; reflexivity|].
  rewrite (Hvalues "/var/log/auth.log" Hosts.sixty_lines);
    [vm_compute; reflexivity | reflexivity | simpl; tauto | reflexivity
    | reflexivity | reflexivity | vm_compute; reflexivity].
Defined.

Example server_logs :
  logs_found Hosts.server
  = [("/var/log/auth.log",
      VStr (Hosts.text ["Jan 15 10:02:11 web01 sshd[2200]: Accepted publickey for alice"]))].
Proof. vm_compute. reflexivity. Qed.

(** C7 as stated fails: on a Linux host /var/log/auth.log exists, the
    user running the script may not read it, and the log dictionary has no
    key for it. *)
Lemma logs_omit_existing_silent_file :
  In "/var/log/auth.log" log_files
  /\ is_linux Hosts.unreadable_log = true
  /\ path_exists Hosts.unreadable_log "/var/log/auth.log" = true
  /\ dict_get "/var/log/auth.log" (logs_found Hosts.unreadable_log) = None
  /\ ~ (forall h p, In p log_files -> path_exists h p = true ->
                     dict_has p (logs_found h) = true).
Proof.
  split; [simpl; tauto|].
  split; [reflexivity|]. split; [reflexivity|]. split; [reflexivity|].
  intros H.
  specialize (H Hosts.unreadable_log "/var/log/auth.log").
  assert (dict_has "/var/log/auth.log" (logs_found Hosts.unreadable_log)
          = false) as E by reflexivity.
  rewrite H in E; [discriminate| simpl; tauto | reflexivity].
Qed.

(** Text mode at work on a log: a carriage return inside a line comes
    back as a newline, and the one line of the file is stored as two. *)
Example log_with_carriage_return :
  tail_prints Hosts.cr_log "/var/log/auth.log" Hosts.line_with_cr
  /\ line_count (last_lines 50 Hosts.line_with_cr) = 1
  /\ exists stored,
       dict_get "/var/log/auth.log" (logs_found Hosts.cr_log)
       = Some (VStr stored)
       /\ line_count stored = 2.
Proof.
  split; [reflexivity|]. split; [reflexivity|].
  eexists. split; vm_compute; reflexivity.
Qed.

(** ** Network interfaces *)

Lemma nameless_nonempty (r : Dict) : nameless r -> dict_nonempty r = true.
Proof. destruct r; [intros [H _]; discriminate | reflexivity]. Qed.

Lemma named_nonempty (r : Dict) : named r -> dict_nonempty r = true.
Proof. destruct r; [discriminate | reflexivity]. Qed.

Lemma dict_has_set (k k' : string) (v : Value) (d : Dict) :
  dict_has k' (dict_set k v d) = String.eqb k k' || dict_has k' d.
Proof.
  unfold dict_has. rewrite dict_get_set.
  destruct (String.eqb k k'); reflexivity.
Qed.

Lemma interfaces_step_headless (st : list Dict * Dict) (line : string) :
  headless_state st -> headless_state (interfaces_step st line).
Proof.
  destruct st as [interfaces current]. unfold headless_state, interfaces_step.
  cbn [fst snd]. intros H.
  destruct (is_header line).
  - destruct interfaces as [|r others]; cbn [fst snd].
    + rewrite (nameless_nonempty _ H). cbn [app].
      repeat split; try apply H. constructor.
    + destruct H as (Hr & Ho & Hc).
      rewrite (named_nonempty _ Hc). cbn [app].
      repeat split; try apply Hr. now apply Forall_snoc.
  - destruct (contains "inet " line); cbn [fst snd]; [|exact H].
    destruct interfaces as [|r others].
    + destruct H as [H1 H2]. unfold nameless.
      rewrite !dict_has_set, H2. split; reflexivity.
    + destruct H as (Hr & Ho & Hc). repeat split; try apply Hr; [exact Ho|].
      unfold named. rewrite dict_has_set, Hc. apply orb_true_r.
Qed.

(** Lines that are empty or indented, in front of the first header line,
    finish no record. *)
Lemma interfaces_prelude (pre : list string) :
  Forall (fun l => is_header l = false) pre ->
  prelude_state (fold_left interfaces_step pre ([], [])).
Proof.
  intros Hpre.
  assert (prelude_state ([], [])) as H0 by (split; [reflexivity | now left]).
  revert H0. generalize (@nil Dict, @nil (string * Value)).
  induction Hpre as [|l pre Hl _ IH]; intros st Hst; [exact Hst|].
  cbn [fold_left]. apply IH.
  destruct st as [interfaces current]. destruct Hst as [Hi Hc].
  cbn [fst snd] in Hi, Hc. subst interfaces.
  unfold interfaces_step. rewrite Hl.
  destruct (contains "inet " l); [|split; [reflexivity | exact Hc]].
  split; [reflexivity|]. right. cbn [snd]. unfold nameless.
  rewrite !dict_has_set. split; [reflexivity|].
  destruct Hc as [->|[_ Hn]]; [reflexivity | now rewrite Hn].
Qed.

(** C10: when the address listing has, in front of its first header line,
    an indented line containing [inet ] (in particular when it begins with
    one), the first record [get_interfaces] returns has an [ipv4] key and no
    [name] key; all the records after it, begun at a header line, have a
    [name] key. *)
Theorem leading_inet_line_gives_nameless_record (h : Host)
  (pre : list string) (line : string) (rest : list string) :
  is_linux h = true ->
  split_on NL (run_command h "ip addr show") = pre ++ line :: rest ->
  Forall (fun l => is_header l = false) pre ->
  startswith " " line = true ->
  contains "inet " line = true ->
  exists r others,
    get_interfaces h = r :: others
    /\ dict_has "ipv4" r = true
    /\ dict_has "name" r = false
    /\ Forall (fun d => dict_has "name" d = true) others.
Proof.
  intros Hl Hs Hpre Hsp Hin. unfold get_interfaces. rewrite Hl, Hs.
  rewrite fold_left_app. cbn [fold_left].
  pose proof (interfaces_prelude pre Hpre) as Hp.
  destruct (fold_left interfaces_step pre ([], [])) as [i0 c0].
  destruct Hp as [Hi Hc]. cbn [fst snd] in Hi, Hc. subst i0.
  assert (headless_state (interfaces_step ([], c0) line)) as H0.
  { unfold interfaces_step, headless_state, is_header.
    rewrite Hsp, Hin, andb_false_r. cbn [fst snd negb].
    unfold nameless. rewrite !dict_has_set. split; [reflexivity|].
    destruct Hc as [->|[_ Hn]]; [reflexivity | now rewrite Hn]. }
  pose proof (fold_left_invariant interfaces_step headless_state
                interfaces_step_headless rest _ H0) as H.
  destruct (fold_left interfaces_step rest _) as [interfaces current].
  unfold headless_state in H; cbn [fst snd] in H.
  destruct interfaces as [|r others].
  - rewrite (nameless_nonempty _ H). cbn [app].
    exists current, []. repeat split; try apply H. constructor.
  - destruct H as (Hr & Ho & Hc').
    exists r. rewrite (named_nonempty _ Hc').
    exists (others ++ [current]).
    repeat split; try apply Hr. now apply Forall_snoc.
Qed.

Lemma leading_inet_line_gives_nameless_record_witness :
  exists r others,
    get_interfaces Hosts.headless = r :: others
    /\ dict_has "ipv4" r = true
    /\ dict_has "name" r = false
    /\ Forall (fun d => dict_has "name" d = true) others.
Proof.
  apply (leading_inet_line_gives_nameless_record Hosts.headless []
           "    inet 127.0.0.1/8 scope host lo"
           ["2: eth0: <BROADCAST,MULTICAST,UP,LOWER_UP> mtu 1500 qdisc fq_codel";
            "    inet 10.0.0.5/24 brd 10.0.0.255 scope global eth0";
            EmptyString]).
  - reflexivity.
  - vm_compute; reflexivity.
  - constructor.
  - reflexivity.
  - reflexivity.
Defined.

Example headless_interfaces :
  get_interfaces Hosts.headless
  = [[("ipv4", VStr "127.0.0.1/8")];
     [("name", VStr "eth0"); ("ipv4", VStr "10.0.0.5/24")]].
Proof. vm_compute. reflexivity. Qed.

(** ** Collectors that return and collectors that raise *)

(** On a platform other than Linux the collectors store empty fragments,
    whatever the host holds. *)
Example other_platform_fragments :
  processes_found Hosts.mac = [] /\ connections_found Hosts.mac = []
  /\ get_interfaces Hosts.mac = [] /\ accounts_found Hosts.mac = []
  /\ tasks_found Hosts.mac = Ok [] /\ autostart_found Hosts.mac = Ok []
  /\ recent_found Hosts.mac = [] /\ logs_found Hosts.mac = [].
Proof. repeat split. Qed.

(** The six collectors that guard their file-system calls, or make none,
    return on every host. *)
Lemma guarded_collectors_return (h : Host) (k : string) (c : M unit)
  (self : IRCollector) :
  In (k, c) (collectors h) ->
  k <> "scheduled_tasks" -> k <> "autostart" ->
  exists self', c self = Ok (tt, self').
Proof.
  unfold collectors; simpl. intros H Ht Ha.
  repeat (destruct H as [H|H];
          [injection H as <- <-;
           try (eexists; reflexivity); congruence|]).
  contradiction.
Qed.

(** [collect_scheduled_tasks] passes on what [os.listdir] raises for the
    first cron directory, and the run ends there. *)
Lemma collect_scheduled_tasks_raises (h : Host) (e : PyExc)
  (self : IRCollector) :
  is_linux h = true ->
  path_exists h "/etc/cron.d" = true ->
  os_listdir h "/etc/cron.d" = Raise e ->
  collect_scheduled_tasks h self = Raise e.
Proof.
  intros Hl Hp Hd.
  unfold collect_scheduled_tasks, bind, lift, tasks_found.
  rewrite Hl. unfold cron_dirs. cbn [cron_dirs_loop].
  rewrite Hp, Hd. reflexivity.
Qed.

Lemma collect_autostart_raises (h : Host) (e : PyExc) (self : IRCollector) :
  is_linux h = true ->
  path_exists h "/etc/init.d" = true ->
  os_listdir h "/etc/init.d" = Raise e ->
  collect_autostart h self = Raise e.
Proof.
  intros Hl Hp Hd.
  unfold collect_autostart, bind, lift, autostart_found.
  rewrite Hl, Hp, Hd. reflexivity.
Qed.

(** C2 fails on the code: on a Linux server where /etc/cron.d exists and
    may be listed by root only, run by another user, [os.listdir] raises
    [PermissionError]; [collect_scheduled_tasks] does not catch it, and the
    whole run ends with that exception, no artifact written.  The same
    holds for [collect_autostart] and /etc/init.d. *)
Theorem unguarded_listdir_raises :
  is_linux Hosts.hardened = true
  /\ path_exists Hosts.hardened "/etc/cron.d" = true
  /\ os_listdir Hosts.hardened "/etc/cron.d" = Raise PermissionError
  /\ collect_scheduled_tasks Hosts.hardened Hosts.fresh
     = Raise PermissionError
  /\ collect_autostart Hosts.closed_initd Hosts.fresh = Raise PermissionError
  /\ main Hosts.hardened "./ir_collection" = Raise PermissionError.
Proof. repeat split; vm_compute; reflexivity. Qed.

(** ** Line-by-line parsing *)

Section Linewise.

Context {B : Type} (step : list Value -> B -> list Value).
Hypothesis step_appends : forall acc b, step acc b = acc ++ step [] b.

(** A loop whose body only appends handles every line on its own: what a
    line contributes does not depend on the lines before it. *)
Lemma fold_left_linewise (l : list B) :
  forall acc, fold_left step l acc = acc ++ flat_map (step []) l.
Proof.
  induction l as [|b l IH]; intros acc; simpl.
  - now rewrite app_nil_r.
  - rewrite IH, step_appends, <- app_assoc. reflexivity.
Qed.

End Linewise.

Lemma processes_step_appends (acc : list Value) (line : string) :
  processes_step acc line = acc ++ processes_step [] line.
Proof.
  unfold processes_step.
  destruct (nonempty line); [|now rewrite app_nil_r].
  destruct (11 <=? _); [reflexivity | now rewrite app_nil_r].
Qed.

Lemma connections_step_appends (acc : list Value) (line : string) :
  connections_step acc line = acc ++ connections_step [] line.
Proof.
  unfold connections_step.
  destruct (nonempty line); [|now rewrite app_nil_r].
  destruct (5 <=? _); [reflexivity | now rewrite app_nil_r].
Qed.

(** X10: in the loop of [collect_processes] a line with fewer than eleven
    fields adds nothing, and the lines before and after it give the
    records they would give without it. *)
Lemma processes_skip_short_line (before after : list string) (line : string) :
  length (split_ws_max 10 line) < 11 ->
  fold_left processes_step (before ++ line :: after) []
  = fold_left processes_step (before ++ after) [].
Proof.
  intros H.
  rewrite !(fold_left_linewise _ processes_step_appends), !flat_map_app.
  cbn [flat_map app]. unfold processes_step at 2.
  destruct (nonempty line); [|reflexivity].
  apply Nat.leb_gt in H. rewrite H. reflexivity.
Qed.

Lemma processes_skip_short_line_witness :
  fold_left processes_step
    ["root 1 0.0 0.1 167744 11852 ? Ss Jan14 0:03 /sbin/init splash";
     "error: garbage option";
     "alice 2211 1.5 2.0 912344 81220 pts/0 Sl+ 10:02 0:41 python3 app.py"]
    []
  = fold_left processes_step
      ["root 1 0.0 0.1 167744 11852 ? Ss Jan14 0:03 /sbin/init splash";
       "alice 2211 1.5 2.0 912344 81220 pts/0 Sl+ 10:02 0:41 python3 app.py"]
      [].
Proof.
  apply (processes_skip_short_line
           ["root 1 0.0 0.1 167744 11852 ? Ss Jan14 0:03 /sbin/init splash"]
           ["alice 2211 1.5 2.0 912344 81220 pts/0 Sl+ 10:02 0:41 python3 app.py"]
           "error: garbage option").
  vm_compute; lia.
Defined.


(** X11: in the loop of [collect_network] a line with fewer than five
    fields adds nothing, and the lines before and after it give the
    records they would give without it. *)
Lemma connections_skip_short_line (before after : list string)
  (line : string) :
  length (split_ws line) < 5 ->
  fold_left connections_step (before ++ line :: after) []
  = fold_left connections_step (before ++ after) [].
Proof.
  intros H.
  rewrite !(fold_left_linewise _ connections_step_appends), !flat_map_app.
  cbn [flat_map app]. unfold connections_step at 2.
  destruct (nonempty line); [|reflexivity].
  apply Nat.leb_gt in H. rewrite H. reflexivity.
Qed.

Lemma connections_skip_short_line_witness :
  fold_left connections_step
    ["tcp LISTEN 0 128 0.0.0.0:22 0.0.0.0:*";
     "Cannot open netlink socket";
     "tcp ESTAB 0 0 10.0.0.5:22 10.0.0.9:51234"]
    []
  = fold_left connections_step
      ["tcp LISTEN 0 128 0.0.0.0:22 0.0.0.0:*";
       "tcp ESTAB 0 0 10.0.0.5:22 10.0.0.9:51234"]
      [].
Proof.
  apply (connections_skip_short_line
           ["tcp LISTEN 0 128 0.0.0.0:22 0.0.0.0:*"]
           ["tcp ESTAB 0 0 10.0.0.5:22 10.0.0.9:51234"]
           "Cannot open netlink socket").
  vm_compute; lia.
Defined.


Lemma recent_step_appends (h : Host) (acc : list Value) (line : string) :
  recent_step h acc line = acc ++ recent_step h [] line.
Proof.
  unfold recent_step.
  destruct (nonempty line); [|now rewrite app_nil_r].
  destruct (os_stat h line); [reflexivity | now rewrite app_nil_r].
Qed.

(** X12: in the loop of [collect_recent_files] a path for which
    [os.stat] raises (the file vanished, or may not be examined) adds
    nothing, and the paths before and after it give the records they would
    give without it. *)
Lemma recent_skip_vanished_file (h : Host) (before after : list string)
  (line : string) (e : PyExc) :
  os_stat h line = Raise e ->
  fold_left (recent_step h) (before ++ line :: after) []
  = fold_left (recent_step h) (before ++ after) [].
Proof.
  intros H.
  rewrite !(fold_left_linewise _ (recent_step_appends h)), !flat_map_app.
  cbn [flat_map app]. unfold recent_step at 2.
  destruct (nonempty line); [|reflexivity].
  rewrite H. reflexivity.
Qed.

Lemma recent_skip_vanished_file_witness :
  fold_left (recent_step Hosts.server)
    ["/tmp/gone.tmp"; "/var/log/auth.log"] []
  = fold_left (recent_step Hosts.server) ["/var/log/auth.log"] [].
Proof.
  apply (recent_skip_vanished_file Hosts.server [] ["/var/log/auth.log"]
           "/tmp/gone.tmp" FileNotFoundError).
  reflexivity.
Defined.


(** ** User accounts *)

(** The account loop gives the accounts the specification asks for, but
    only of the lines in front of the first unparsable uid; at that line it
    stops with [ValueError]. *)
Lemma passwd_loop_spec (limit : option nat) (lines : list string) :
  forall users,
    passwd_loop limit lines users
    = (users ++ accounts_by_spec limit (before_unparsable limit lines),
       if forallb (fun l => negb (unparsable_uid limit l)) lines
       then None else Some ValueError).
Proof.
  induction lines as [|line rest IH]; intros users.
  - simpl. now rewrite app_nil_r.
  - assert (accounts_by_spec limit (line :: before_unparsable limit rest)
            = match well_formed_entry limit line with
              | Some (parts, uid) =>
                  if ((1000 <=? uid) || (uid =? 0))%Z
                  then [account_record parts] else []
              | None => []
              end ++ accounts_by_spec limit (before_unparsable limit rest))
      as Hcons by reflexivity.
    cbn [passwd_loop before_unparsable forallb].
    destruct (7 <=? length (split_on COLON (strip line))) eqn:E7.
    + destruct (py_int limit (item (split_on COLON (strip line)) 2))
        as [uid|] eqn:Eint.
      * assert (unparsable_uid limit line = false) as Eu
          by (unfold unparsable_uid; now rewrite E7, Eint).
        assert (well_formed_entry limit line
                = Some (split_on COLON (strip line), uid)) as Ew
          by (unfold well_formed_entry; now rewrite E7, Eint).
        rewrite Eu, Hcons, Ew. cbn [negb andb].
        destruct ((1000 <=? uid) || (uid =? 0))%Z; rewrite IH.
        -- rewrite <- app_assoc. reflexivity.
        -- reflexivity.
      * assert (unparsable_uid limit line = true) as Eu
          by (unfold unparsable_uid; now rewrite E7, Eint).
        rewrite Eu. cbn [negb andb accounts_by_spec flat_map].
        now rewrite app_nil_r.
    + assert (unparsable_uid limit line = false) as Eu
        by (unfold unparsable_uid; now rewrite E7).
      assert (well_formed_entry limit line = None) as Ew
        by (unfold well_formed_entry; now rewrite E7).
      rewrite Eu, Hcons, Ew, IH. reflexivity.
Qed.

(** X6: on Linux, when /etc/passwd is read to its end, [content] being
    its text, and every line of it with seven fields or more has a uid
    that [int] accepts, the account list is exactly the list the
    specification asks for: the well-formed entries of the file with uid at
    least 1000 or uid 0, in file order. *)
Lemma accounts_when_all_parsable (h : Host) (content : string) :
  is_linux h = true ->
  open_read h "/etc/passwd" = Ok (content, None) ->
  forallb (fun l => negb (unparsable_uid (int_max_str_digits h) l))
    (file_lines content) = true ->
  accounts_found h
  = accounts_by_spec (int_max_str_digits h) (file_lines content).
Proof.
  intros Hl Ho Hall. unfold accounts_found. rewrite Hl, Ho, passwd_loop_spec.
  cbn [fst app]. f_equal.
  induction (file_lines content) as [|l ls IH]; [reflexivity|].
  cbn [forallb] in Hall. apply andb_true_iff in Hall as [H1 H2].
  cbn [before_unparsable]. apply negb_true_iff in H1. rewrite H1.
  now rewrite IH.
Qed.

Lemma accounts_when_all_parsable_witness :
  accounts_found Hosts.server
  = accounts_by_spec (Some 4300) (file_lines Hosts.passwd)
  /\ accounts_found Hosts.server
     = [Hosts.root_account; Hosts.alice_account].
Proof.
  split.
  - apply (accounts_when_all_parsable Hosts.server Hosts.passwd);
      reflexivity.
  - vm_compute; reflexivity.
Defined.


Lemma accounts_by_spec_kept (limit : option nat) (lines : list string) :
  Forall (account_kept limit) (accounts_by_spec limit lines).
Proof.
  induction lines as [|line rest IH]; [constructor|].
  cbn [accounts_by_spec flat_map]. apply Forall_app; split; [|exact IH].
  unfold well_formed_entry.
  destruct (7 <=? _); [|constructor].
  destruct (py_int limit _) as [uid|] eqn:E; [|constructor].
  destruct ((1000 <=? uid) || (uid =? 0))%Z eqn:Ef; [|constructor].
  constructor; [|constructor].
  eexists; exists (item (split_on COLON (strip line)) 2), uid.
  split; [reflexivity|]. split; [reflexivity|]. split; [exact E|]. lia.
Qed.

(** X4: on every host, every account in the list has a uid text that
    [int] accepts, with a value of at least 1000 or the value 0: no entry
    with a uid from 1 to 999, no entry with a negative uid and no entry
    whose uid [int] refuses is ever listed. *)
Lemma accounts_found_kept (h : Host) :
  Forall (account_kept (int_max_str_digits h)) (accounts_found h).
Proof.
  unfold accounts_found. destruct (is_linux h); [|constructor].
  destruct (open_read h "/etc/passwd") as [[content e]|]; [|constructor].
  rewrite passwd_loop_spec. cbn [fst app]. apply accounts_by_spec_kept.
Qed.

(** C5 fails on the code: with a NIS compatibility entry, whose uid field
    is empty, in front of alice's entry, the account list stops at that
    entry; alice, a well-formed entry with uid 1000 that the specification
    asks for, is not listed. *)
Theorem accounts_miss_entries_after_unparsable_uid :
  open_read Hosts.nis_client "/etc/passwd" = Ok (Hosts.passwd_compat, None)
  /\ accounts_by_spec (int_max_str_digits Hosts.nis_client)
       (file_lines Hosts.passwd_compat)
     = [Hosts.root_account; Hosts.alice_account]
  /\ accounts_found Hosts.nis_client = [Hosts.root_account].
Proof. repeat split; vm_compute; reflexivity. Qed.

(** C6 fails on the code: a line of the account database with too few
    fields is skipped and the lines after it are read, but a line with
    seven fields whose uid is not an integer ends the loop: [int] raises
    inside the [try] that encloses the whole loop, and the entries after
    that line never reach the list. *)
Theorem passwd_loop_stops_at_unparsable_uid :
  passwd_loop (Some 4300) (file_lines Hosts.passwd_short_line) []
  = ([Hosts.root_account; Hosts.alice_account], None)
  /\ file_lines Hosts.passwd_compat
     = [String.append "root:x:0:0:root:/root:/bin/bash" (String NL EmptyString);
        String.append "+::::::" (String NL EmptyString);
        String.append "alice:x:1000:1000:Alice,,,:/home/alice:/bin/bash"
          (String NL EmptyString)]
  /\ passwd_loop (Some 4300) (file_lines Hosts.passwd_compat) []
     = ([Hosts.root_account], Some ValueError).
Proof. repeat split; vm_compute; reflexivity. Qed.

(** A uid with a unit separator (U+001F) in front of its digits: [strip]
    would remove the separator, [int] refuses the field, and the loop ends
    at that line. *)
Example passwd_loop_refuses_separator_uid :
  passwd_loop (Some 4300)
    (file_lines
       (Hosts.text ["root:x:0:0:root:/root:/bin/bash";
                    "fs:x:" +++ String (ascii_of_nat 31)
                                  "1000:1000::/home/fs:/bin/sh";
                    "alice:x:1000:1000:Alice,,,:/home/alice:/bin/bash"]))
    []
  = ([Hosts.root_account], Some ValueError).
Proof. vm_compute. reflexivity. Qed.

(** * Further properties of the script *)

(** ** The collectors that list directories *)

Lemma cron_dirs_loop_result (h : Host) (dirs : list string) :
  forall tasks,
    match first_listdir_error h dirs with
    | Some e => cron_dirs_loop h dirs tasks = Raise e
    | None => exists tasks', cron_dirs_loop h dirs tasks = Ok tasks'
    end.
Proof.
  induction dirs as [|d dirs IH]; intros tasks.
  - eexists; reflexivity.
  - cbn [first_listdir_error cron_dirs_loop]. unfold listdir_error.
    destruct (path_exists h d); [|apply IH].
    destruct (os_listdir h d) as [files|e]; [apply IH | reflexivity].
Qed.

Lemma tasks_found_result (h : Host) :
  match (if is_linux h then first_listdir_error h cron_dirs else None) with
  | Some e => tasks_found h = Raise e
  | None => exists tasks, tasks_found h = Ok tasks
  end.
Proof.
  unfold tasks_found. destruct (is_linux h); [|eexists; reflexivity].
  match goal with
  | |- context [cron_dirs_loop h cron_dirs ?t] =>
      pose proof (cron_dirs_loop_result h cron_dirs t) as H; generalize dependent t
  end.
  intros start H.
  destruct (first_listdir_error h cron_dirs) as [e|].
  - now rewrite H.
  - destruct H as [t' ->]. eexists; reflexivity.
Qed.

Lemma autostart_found_result (h : Host) :
  match (if is_linux h then listdir_error h "/etc/init.d" else None) with
  | Some e => autostart_found h = Raise e
  | None => exists autostart, autostart_found h = Ok autostart
  end.
Proof.
  unfold autostart_found, listdir_error.
  destruct (is_linux h); [|eexists; reflexivity].
  destruct (path_exists h "/etc/init.d"); [|eexists; reflexivity].
  destruct (os_listdir h "/etc/init.d"); [eexists; reflexivity | reflexivity].
Qed.

(** X2: in [collect_scheduled_tasks], building the task list (lines 196
    to 218) raises exactly when, on Linux, one of the cron directories
    exists and cannot be listed, and the exception is the one [os.listdir]
    raised for the first such directory in the order /etc/cron.d,
    /etc/cron.daily, /etc/cron.hourly.  Nothing a command does (failing,
    timing out, printing nothing) makes it raise, and on another platform
    it never raises. *)
Theorem task_list_raises_iff (h : Host) (e : PyExc) :
  tasks_found h = Raise e
  <-> is_linux h = true /\ first_listdir_error h cron_dirs = Some e.
Proof.
  pose proof (tasks_found_result h) as Ht.
  destruct (is_linux h).
  - destruct (first_listdir_error h cron_dirs) as [e'|].
    + rewrite Ht. split.
      * intros H; injection H as ->. split; reflexivity.
      * intros [_ H]; injection H as ->. reflexivity.
    + destruct Ht as [tasks ->]. split; [discriminate|].
      intros [_ H]; discriminate.
  - destruct Ht as [tasks ->]. split; [discriminate|].
    intros [H _]; discriminate.
Qed.

Example task_list_raises_on_hardened_host :
  tasks_found Hosts.hardened = Raise PermissionError
  /\ first_listdir_error Hosts.hardened cron_dirs = Some PermissionError
  /\ exists tasks, tasks_found Hosts.silent = Ok tasks.
Proof.
  split; [apply task_list_raises_iff; split; reflexivity|].
  split; [reflexivity|]. eexists; vm_compute; reflexivity.
Qed.

(** X3: in [collect_autostart], building the autostart list (lines 226 to
    241) raises exactly when, on Linux, /etc/init.d exists and cannot be
    listed, and the exception is the one [os.listdir] raised.  Nothing a
    command does makes it raise, and on another platform it never
    raises. *)
Theorem autostart_list_raises_iff (h : Host) (e : PyExc) :
  autostart_found h = Raise e
  <-> is_linux h = true /\ listdir_error h "/etc/init.d" = Some e.
Proof.
  pose proof (autostart_found_result h) as Ha.
  destruct (is_linux h).
  - destruct (listdir_error h "/etc/init.d") as [e'|].
    + rewrite Ha. split.
      * intros H; injection H as ->. split; reflexivity.
      * intros [_ H]; injection H as ->. reflexivity.
    + destruct Ha as [autostart ->]. split; [discriminate|].
      intros [_ H]; discriminate.
  - destruct Ha as [autostart ->]. split; [discriminate|].
    intros [H _]; discriminate.
Qed.

Example autostart_list_raises_on_closed_initd :
  autostart_found Hosts.closed_initd = Raise PermissionError
  /\ exists autostart, autostart_found Hosts.server = Ok autostart.
Proof.
  split; [apply autostart_list_raises_iff; split; reflexivity|].
  eexists; vm_compute; reflexivity.
Qed.

(** ** User accounts and sessions *)

(** X5: on Linux, when /etc/passwd is read to its end, [content] being
    its text, the account list is the list the specification asks for
    (well-formed entries with uid at least 1000 or uid 0, in file order),
    computed on the lines of the file in front of the first line that has
    seven fields or more and a uid that [int] refuses; that line and the
    lines after it contribute nothing. *)
Theorem accounts_found_prefix (h : Host) (content : string) :
  is_linux h = true ->
  open_read h "/etc/passwd" = Ok (content, None) ->
  accounts_found h
  = accounts_by_spec (int_max_str_digits h)
      (before_unparsable (int_max_str_digits h) (file_lines content)).
Proof.
  intros Hl Ho. unfold accounts_found.
  rewrite Hl, Ho, passwd_loop_spec. reflexivity.
Qed.

Lemma accounts_found_prefix_witness :
  accounts_found Hosts.nis_client
  = accounts_by_spec (Some 4300)
      (before_unparsable (Some 4300) (file_lines Hosts.passwd_compat))
  /\ before_unparsable (Some 4300) (file_lines Hosts.passwd_compat)
     = [String.append "root:x:0:0:root:/root:/bin/bash"
          (String NL EmptyString)].
Proof.
  split.
  - apply (accounts_found_prefix Hosts.nis_client Hosts.passwd_compat);
      reflexivity.
  - vm_compute; reflexivity.
Defined.

(** X7: on Linux the list of logged-in sessions is never empty: it has
    one entry per line of the stripped output of [who], and when [who]
    printed nothing (nobody is logged in, or the command failed) it is the
    list made of one empty text, not the empty list. *)
Theorem logged_in_has_an_entry (h : Host) :
  is_linux h = true ->
  exists first rest,
    dict_get "logged_in" (users_found h)
    = Some (VList (VStr first :: map VStr rest))
    /\ length rest = count_char NL (strip (run_command h "who"))
    /\ (strip (run_command h "who") = EmptyString ->
        first = EmptyString /\ rest = []).
Proof.
  intros Hl. unfold users_found. rewrite Hl.
  cbn [dict_get String.eqb Ascii.eqb Bool.eqb].
  pose proof (split_on_length NL (strip (run_command h "who"))) as Hlen.
  destruct (split_on NL (strip (run_command h "who"))) as [|first rest] eqn:E;
    [discriminate|].
  exists first, rest. split; [reflexivity|].
  split; [simpl in Hlen; lia|].
  intros Hs. rewrite Hs in E. cbn [split_on] in E.
  injection E as <- <-. split; reflexivity.
Qed.

Lemma logged_in_has_an_entry_witness :
  dict_get "logged_in" (users_found Hosts.silent)
  = Some (VList [VStr EmptyString]).
Proof.
  destruct (logged_in_has_an_entry Hosts.silent eq_refl)
    as (first & rest & Hd & _ & Hempty).
  destruct (Hempty eq_refl) as [-> ->]. exact Hd.
Defined.

(** ** The fields of process and connection records *)

Lemma cut_words_nil (k : option nat) : cut_words k [].
Proof.
  destruct k as [n|]; cbn [cut_words]; [|constructor].
  rewrite firstn_nil. split; [constructor|]. split; [simpl; lia|].
  intros r H. destruct n; discriminate.
Qed.

(** What white-space splitting returns: inside a word, the rest of that
    word (no white space in it) and then the fields; between words, the
    fields. *)
Lemma split_ws_from_words (s : string) :
  forall (inword : bool) (k : option nat),
    if inword then
      exists w l, split_ws_from true k s = w :: l
                  /\ space_free w = true /\ cut_words k l
    else cut_words k (split_ws_from false k s).
Proof.
  induction s as [|c s IH]; intros inword k.
  - destruct inword; cbn [split_ws_from]; [|apply cut_words_nil].
    exists EmptyString, []. repeat split. apply cut_words_nil.
  - cbn [split_ws_from]. destruct (is_space c) eqn:Ec.
    + destruct inword; [|apply (IH false k)].
      exists EmptyString, (split_ws_from false k s).
      repeat split. apply (IH false k).
    + destruct inword.
      * destruct (IH true k) as (w & l & -> & Hw & Hl).
        exists (String c w), l. cbn [cons_head space_free].
        rewrite Ec, Hw. repeat split. exact Hl.
      * destruct k as [[|n]|]; cbn [dec_count].
        -- cbn [cut_words firstn]. split; [constructor|].
           split; [simpl; lia|].
           intros r H. injection H as <-. cbn [starts_with_text].
           now rewrite Ec.
        -- destruct (IH true (Some n)) as (w & l & -> & Hw & Hf & Hlen & Hr).
           cbn [cons_head cut_words firstn].
           split; [constructor; [|exact Hf]|].
           { unfold is_word. cbn [nonempty space_free]. now rewrite Ec, Hw. }
           split; [simpl; lia|]. exact Hr.
        -- destruct (IH true None) as (w & l & -> & Hw & Hl).
           cbn [cons_head cut_words]. constructor; [|exact Hl].
           unfold is_word. cbn [nonempty space_free]. now rewrite Ec, Hw.
Qed.

Lemma take_cons (n : nat) (c : ascii) (s : string) :
  take (S n) (String c s) = String c (take n s).
Proof. reflexivity. Qed.

Lemma processes_step_wellformed (acc : list Value) (line : string) :
  Forall process_wellformed acc ->
  Forall process_wellformed (processes_step acc line).
Proof.
  intros Hacc. unfold processes_step.
  destruct (nonempty line); [|exact Hacc].
  pose proof (split_ws_from_words line false (Some 10)) as Hw.
  fold (split_ws_max 10 line) in Hw.
  destruct (11 <=? length (split_ws_max 10 line)) eqn:E; [|exact Hacc].
  apply Nat.leb_le in E.
  destruct Hw as (Hf & Hlen & Hrest).
  destruct (split_ws_max 10 line)
    as [|p0 [|p1 [|p2 [|p3 [|p4 [|p5 [|p6 [|p7 [|p8 [|p9 [|p10 [|p11 l]]]]]]]]]]]];
    simpl in E, Hlen; try lia.
  cbn [firstn] in Hf.
  apply Forall_snoc; [exact Hacc|].
  specialize (Hrest p10 eq_refl).
  inversion Hf as [|? ? H0 Hf1]; subst.
  inversion Hf1 as [|? ? H1 Hf2]; subst.
  inversion Hf2 as [|? ? H2 Hf3]; subst.
  inversion Hf3 as [|? ? H3 _]; subst.
  exists p0, p1, p2, p3, (take 100 p10). unfold item. cbn [nth].
  repeat split; try assumption.
  - destruct p10 as [|c p]; [discriminate|]. rewrite take_cons. exact Hrest.
  - apply take_length.
Qed.

(** X8: every process record in the snapshot has the five keys user, pid,
    cpu, mem, command in that order; user, pid, cpu and mem are words
    (non-empty, no white space); the command is not empty, begins with a
    character that is not white space and has at most 100 characters. *)
Theorem stored_processes_wellformed (h : Host) :
  Forall process_wellformed (firstn 100 (processes_found h)).
Proof.
  apply Forall_firstn. unfold processes_found.
  destruct (is_linux h); [|constructor].
  apply fold_left_invariant; [|constructor].
  intros acc line. apply processes_step_wellformed.
Qed.

Lemma item_is_word (parts : list string) (i : nat) :
  Forall (fun w => is_word w = true) parts ->
  i < length parts -> is_word (item parts i) = true.
Proof.
  intros Hf Hi. rewrite Forall_forall in Hf. apply Hf.
  unfold item. now apply nth_In.
Qed.

(** X9: every connection record has the four keys proto, local, remote,
    state in that order; proto, local and state are words (non-empty, no
    white space), and remote is a word, or empty when the line has five
    fields only. *)
Theorem connections_wellformed (h : Host) :
  Forall connection_wellformed (connections_found h).
Proof.
  unfold connections_found. destruct (is_linux h); [|constructor].
  apply fold_left_invariant; [|constructor].
  intros acc line Hacc. unfold connections_step.
  destruct (nonempty line); [|exact Hacc].
  pose proof (split_ws_from_words line false None) as Hw.
  fold (split_ws line) in Hw. cbn [cut_words] in Hw.
  destruct (5 <=? length (split_ws line)) eqn:E; [|exact Hacc].
  apply Nat.leb_le in E.
  apply Forall_snoc; [exact Hacc|].
  eexists; eexists; eexists; eexists. split; [reflexivity|].
  split; [apply item_is_word; [exact Hw | lia]|].
  split; [apply item_is_word; [exact Hw | lia]|].
  split.
  - destruct (1 <? length (split_ws line)) eqn:E1.
    + apply item_is_word; [exact Hw | lia].
    + apply Nat.ltb_ge in E1. lia.
  - destruct (5 <? length (split_ws line)) eqn:E5; [right | now left].
    apply Nat.ltb_lt in E5. now apply item_is_word.
Qed.

(** ** Recent files *)

(** X13: every record of the recent-file list in the snapshot comes from a
    non-empty line of the output of [find] for which [os.stat] answered,
    and carries the modification time and size it answered: a file that
    vanished between [find] and [os.stat] is never listed. *)
Theorem stored_recent_files_were_examined (h : Host) :
  Forall (recent_record_of h) (firstn 50 (recent_found h)).
Proof.
  apply Forall_firstn. unfold recent_found.
  destruct (is_linux h); [|constructor].
  apply fold_left_invariant; [|constructor].
  intros acc line Hacc. unfold recent_step.
  destruct (nonempty line) eqn:En; [|exact Hacc].
  destruct (os_stat h line) as [st|e] eqn:Es; [|exact Hacc].
  apply Forall_snoc; [exact Hacc|].
  exists line, st. repeat split; assumption.
Qed.

(** ** Network interfaces, continued *)

Lemma record_names_set_ipv4 (v : Value) (r : Dict) :
  record_names (dict_set "ipv4" v r) = record_names r.
Proof.
  unfold record_names. rewrite dict_get_set_other; [reflexivity|discriminate].
Qed.

Lemma interfaces_fold_names (lines : list string) :
  forall interfaces current,
    flat_map record_names (fst (fold_left interfaces_step lines
                                  (interfaces, current)))
    ++ record_names (snd (fold_left interfaces_step lines
                            (interfaces, current)))
    = flat_map record_names interfaces ++ record_names current
      ++ map header_name (filter is_header lines).
Proof.
  induction lines as [|line lines IH]; intros interfaces current.
  - cbn [fold_left fst snd filter map]. now rewrite app_nil_r.
  - cbn [fold_left filter]. unfold interfaces_step at 2 4.
    destruct (is_header line).
    + rewrite IH. cbn [map]. fold (header_name line).
      change (record_names [("name", VStr (header_name line))])
        with [header_name line].
      destruct current as [|kv current'].
      * cbn [dict_nonempty]. reflexivity.
      * cbn [dict_nonempty]. rewrite flat_map_app. cbn [flat_map].
        rewrite app_nil_r, <- !app_assoc. reflexivity.
    + destruct (contains "inet " line); rewrite IH;
        [rewrite record_names_set_ipv4|]; reflexivity.
Qed.

(** X14: the interface records that have a name are as many as the header
    lines of the address listing (the non-empty lines that do not begin
    with a space), in the same order, and each carries the name read off
    its header line; a header line gives a record even when no address
    line follows it. *)
Theorem interface_names_follow_headers (h : Host) :
  flat_map record_names (get_interfaces h)
  = if is_linux h
    then map header_name
           (filter is_header (split_on NL (run_command h "ip addr show")))
    else [].
Proof.
  unfold get_interfaces. destruct (is_linux h); [|reflexivity].
  assert (forall st : list Dict * Dict,
             flat_map record_names
               (let (interfaces, current) := st in
                if dict_nonempty current then interfaces ++ [current]
                else interfaces)
             = flat_map record_names (fst st) ++ record_names (snd st))
    as Hend.
  { intros [interfaces [|kv current]]; cbn [fst snd dict_nonempty].
    - change (record_names []) with (@nil string). now rewrite app_nil_r.
    - rewrite flat_map_app. cbn [flat_map]. now rewrite app_nil_r. }
  rewrite Hend.
  apply (interfaces_fold_names
           (split_on NL (run_command h "ip addr show")) [] []).
Qed.

Lemma interface_schema_set_ipv4 (v : Value) (r : Dict) :
  r = [] \/ interface_schema r -> interface_schema (dict_set "ipv4" v r).
Proof.
  unfold interface_schema, dict_keys. intros [->|[H|[H|H]]].
  - right; left; reflexivity.
  - destruct r as [|[k x] [|? ?]]; try discriminate.
    cbn [map fst] in H. injection H as ->.
    right; right; reflexivity.
  - destruct r as [|[k x] [|? ?]]; try discriminate.
    cbn [map fst] in H. injection H as ->.
    right; left; reflexivity.
  - destruct r as [|[k x] [|[k' x'] [|? ?]]]; try discriminate.
    cbn [map fst] in H. injection H as -> ->.
    right; right; reflexivity.
Qed.

(** X15: every interface record has the key [name], the key [ipv4], or
    both in that order, each once: no record is empty, and an interface
    with several address lines keeps one [ipv4] entry. *)
Theorem interface_records_schema (h : Host) :
  Forall interface_schema (get_interfaces h).
Proof.
  unfold get_interfaces. destruct (is_linux h); [|constructor].
  assert (forall st : list Dict * Dict,
             Forall interface_schema (fst st)
             /\ (snd st = [] \/ interface_schema (snd st)) ->
             Forall interface_schema
               (let (interfaces, current) := st in
                if dict_nonempty current then interfaces ++ [current]
                else interfaces)) as Hend.
  { intros [interfaces current]. cbn [fst snd]. intros [Hi [->|Hc]];
      [exact Hi|].
    destruct current; [exact Hi|]. cbn [dict_nonempty].
    now apply Forall_snoc. }
  apply Hend.
  apply (fold_left_invariant interfaces_step
           (fun st => Forall interface_schema (fst st)
                      /\ (snd st = [] \/ interface_schema (snd st)))).
  - intros [interfaces current] line [Hi Hc]. cbn [fst snd] in Hi, Hc.
    unfold interfaces_step. destruct (is_header line).
    + cbn [fst snd]. split; [|right; left; reflexivity].
      destruct Hc as [->|Hc]; [exact Hi|].
      destruct current; [exact Hi|]. cbn [dict_nonempty].
      now apply Forall_snoc.
    + destruct (contains "inet " line); cbn [fst snd]; [|now split].
      split; [exact Hi|]. right. now apply interface_schema_set_ipv4.
  - split; [constructor | now left].
Qed.

(** ** Scheduled tasks and autostart entries, source by source *)

Lemma Forall2_snoc {A B : Type} (R : A -> B -> Prop) (la : list A)
  (lb : list B) (a : A) (b : B) :
  Forall2 R la lb -> R a b -> Forall2 R (la ++ [a]) (lb ++ [b]).
Proof. intros H Hab. apply Forall2_app; [exact H|]. now constructor. Qed.

Lemma cron_dirs_loop_types (h : Host) (dirs : list string) :
  forall types tasks tasks',
    Forall2 has_type types tasks ->
    cron_dirs_loop h dirs tasks = Ok tasks' ->
    Forall2 has_type (types ++ filter (path_exists h) dirs) tasks'.
Proof.
  induction dirs as [|dir dirs IH]; intros types tasks tasks' Ht;
    cbn [cron_dirs_loop filter].
  - intros H; injection H as <-. now rewrite app_nil_r.
  - destruct (path_exists h dir); [|now apply IH].
    destruct (os_listdir h dir) as [files|e]; [|discriminate].
    intros H.
    replace (types ++ dir :: filter (path_exists h) dirs)
      with ((types ++ [dir]) ++ filter (path_exists h) dirs)
      by (now rewrite <- app_assoc).
    eapply IH; [|exact H].
    apply Forall2_snoc; [exact Ht|]. eexists; split; reflexivity.
Qed.

(** X16: the scheduled-task list of a run has one entry per source that is
    present, in the fixed order system crontab, user crontab, the cron
    directories that exist (each tagged with its path), the timer listing;
    a source whose command printed nothing, or a directory that does not
    exist, has no entry. *)
Theorem tasks_follow_sources (h : Host) (tasks : list Value) :
  tasks_found h = Ok tasks -> Forall2 has_type (task_sources h) tasks.
Proof.
  unfold tasks_found, task_sources. destruct (is_linux h).
  2:{ intros H; injection H as <-; constructor. }
  set (c1 := nonempty (run_command h "cat /etc/crontab 2>/dev/null")).
  set (c2 := nonempty (run_command h "crontab -l 2>/dev/null")).
  set (c3 := nonempty (run_command h _)).
  match goal with
  | |- match cron_dirs_loop h cron_dirs ?t with _ => _ end = _ -> _ =>
      assert (Forall2 has_type
                ((if c1 then ["system_crontab"] else [])
                 ++ (if c2 then ["user_crontab"] else [])) t) as Hstart;
      [|generalize dependent t]
  end.
  { destruct c1, c2; cbn [app];
      repeat (constructor; [eexists; split; reflexivity|]); constructor. }
  intros start Hstart.
  destruct (cron_dirs_loop h cron_dirs start) as [tasks1|e] eqn:E;
    [|discriminate].
  intros H; injection H as <-.
  pose proof (cron_dirs_loop_types h cron_dirs _ start tasks1 Hstart E) as Hc.
  rewrite <- app_assoc in Hc. rewrite !app_assoc.
  destruct c3.
  - apply Forall2_snoc; [|eexists; split; reflexivity].
    rewrite <- !app_assoc. exact Hc.
  - rewrite app_nil_r, <- !app_assoc. exact Hc.
Qed.

Lemma tasks_follow_sources_witness :
  Forall2 has_type ["system_crontab"; "/etc/cron.d"]
    [VDict [("type", VStr "system_crontab");
            ("content",
             VStr (Hosts.text ["17 *    * * *   root    cd / && run-parts --report /etc/cron.hourly"]))];
     VDict [("type", VStr "/etc/cron.d");
            ("files", VList [VStr "e2scrub_all"; VStr ".placeholder"])]].
Proof.
  apply (tasks_follow_sources Hosts.server). vm_compute; reflexivity.
Defined.

(** X17: the autostart list of a run has one entry per source that is
    present, in the fixed order enabled services, init scripts, rc.local;
    a source whose command printed nothing, or a missing /etc/init.d, has
    no entry. *)
Theorem autostart_follows_sources (h : Host) (autostart : list Value) :
  autostart_found h = Ok autostart ->
  Forall2 has_type (autostart_sources h) autostart.
Proof.
  unfold autostart_found, autostart_sources. destruct (is_linux h).
  2:{ intros H; injection H as <-; constructor. }
  set (c1 := nonempty (run_command h _)).
  set (c3 := nonempty (run_command h "cat /etc/rc.local 2>/dev/null")).
  destruct (path_exists h "/etc/init.d").
  - destruct (os_listdir h "/etc/init.d") as [files|e]; [|discriminate].
    intros H; injection H as <-.
    destruct c1, c3; cbn [app];
      repeat (constructor; [eexists; split; reflexivity|]); constructor.
  - intros H; injection H as <-.
    destruct c1, c3; cbn [app];
      repeat (constructor; [eexists; split; reflexivity|]); constructor.
Qed.

Lemma autostart_follows_sources_witness :
  Forall2 has_type ["initd"]
    [VDict [("type", VStr "initd");
            ("files", VList [VStr "ssh"; VStr "cron"])]].
Proof.
  apply (autostart_follows_sources Hosts.server). vm_compute; reflexivity.
Defined.

(** ** Log excerpts, continued *)

(** X18: the keys of the log dictionary are the well-known log paths that
    exist and for which [tail] printed something, each once, in the fixed
    order auth.log, syslog, secure, messages. *)
Theorem logs_keys_in_order (h : Host) :
  dict_keys (logs_found h) = logged_files h.
Proof.
  unfold logs_found, logged_files. destruct (is_linux h); [|reflexivity].
  unfold log_files. cbn [fold_left filter]. unfold logs_step.
  destruct (path_exists h "/var/log/auth.log"),
    (nonempty (run_command h (tail_command "/var/log/auth.log")));
    destruct (path_exists h "/var/log/syslog"),
      (nonempty (run_command h (tail_command "/var/log/syslog")));
    destruct (path_exists h "/var/log/secure"),
      (nonempty (run_command h (tail_command "/var/log/secure")));
    destruct (path_exists h "/var/log/messages"),
      (nonempty (run_command h (tail_command "/var/log/messages")));
    reflexivity.
Qed.

(** ** The counts the collectors report *)

(** X20: the count a collector prints is the length of the list it built
    before any slice.  For processes and recent files the snapshot holds
    the first 100 and the first 50 of them, so the printed count is larger
    than the number stored whenever more were found; for connections and
    user accounts the printed count is the number stored. *)
Theorem reported_counts_and_stored_lists (h : Host) (output : string)
  (saved : SavedFile) (self : IRCollector) :
  main h output = Ok (saved, self) -> counts_reported h (data self).
Proof.
  intros H. apply main_data in H.
  destruct H as (tasks & autostart & _ & _ & _ & Hdata & _).
  exists (length (processes_found h)), (length (connections_found h)),
    (length (accounts_found h)), (length (recent_found h)),
    (firstn 100 (processes_found h)), (connections_found h),
    (accounts_found h), (firstn 50 (recent_found h)).
  rewrite Hdata.
  cbn [connections_of accounts_of dict_get network_found users_found
       String.eqb Ascii.eqb Bool.eqb].
  repeat split; try reflexivity; apply length_firstn.
Qed.

Lemma reported_counts_and_stored_lists_witness :
  exists saved self,
    main Hosts.server "./ir_collection" = Ok (saved, self)
    /\ counts_reported Hosts.server (data self).
Proof.
  eexists; eexists.
  split; [vm_compute; reflexivity|].
  eapply (reported_counts_and_stored_lists Hosts.server "./ir_collection").
  vm_compute; reflexivity.
Defined.

(** On the server under load 150 processes are reported and 100 stored,
    100 recent files reported and 50 stored. *)
Example busy_counts :
  nth 1 (collect_processes_prints Hosts.busy) EmptyString
  = "    Found 150 processes"
  /\ nth 1 (collect_recent_files_prints Hosts.busy) EmptyString
     = "    Found 100 recent files"
  /\ nth 0 (collect_processes_prints Hosts.busy) EmptyString
     = String Colors.ESC "[96m[2/8]" +++ String Colors.ESC "[0m Collecting processes...".
Proof. vm_compute. repeat split. Qed.

(** ** The name of the artifact *)

Lemma append_length (a b : string) :
  String.length (a +++ b) = String.length a + String.length b.
Proof. induction a as [|c a IH]; simpl; [reflexivity | now rewrite IH]. Qed.

Lemma append_assoc (a b c : string) : (a +++ b) +++ c = a +++ (b +++ c).
Proof. induction a as [|x a IH]; simpl; [reflexivity | now rewrite IH]. Qed.

(** Two texts that begin with parts of the same length are equal part by
    part. *)
Lemma append_inj (a a' b b' : string) :
  String.length a = String.length a' ->
  a +++ b = a' +++ b' -> a = a' /\ b = b'.
Proof.
  revert a'; induction a as [|c a IH]; intros [|c' a'] Hl H;
    try discriminate.
  - now split.
  - simpl in Hl, H. injection H as -> H. injection Hl as Hl.
    destruct (IH a' Hl H) as [-> ->]. now split.
Qed.

(** A field of the stamp has its two (for the year, four) digits and can
    be read back. *)
Lemma pad_two_digits (n : nat) :
  n < 100 ->
  String.length (pad 2 n) = 2 /\ parse_nat_from (pad 2 n) 0 = Some n.
Proof.
  intros Hn.
  assert (forallb (fun m =>
                     (String.length (pad 2 m) =? 2)
                     && match parse_nat_from (pad 2 m) 0 with
                        | Some m' => m' =? m
                        | None => false
                        end) (seq 0 100) = true) as Hall
    by (vm_compute; reflexivity).
  rewrite forallb_forall in Hall.
  specialize (Hall n ltac:(apply in_seq; lia)).
  apply andb_true_iff in Hall as [H1 H2].
  apply Nat.eqb_eq in H1. split; [exact H1|].
  destruct (parse_nat_from (pad 2 n) 0); [|discriminate].
  apply Nat.eqb_eq in H2. now subst.
Qed.

(** Reading a decimal back gives the number. *)
Lemma parse_string_of_uint (d : Decimal.uint) :
  forall acc,
    parse_nat_from (NilEmpty.string_of_uint d) acc
    = Some (Nat.of_uint_acc d acc).
Proof.
  induction d as [|d IH|d IH|d IH|d IH|d IH|d IH|d IH|d IH|d IH|d IH];
    intros acc; [reflexivity|..];
    cbn [NilEmpty.string_of_uint parse_nat_from Nat.of_uint_acc];
    change (is_digit _) with true; cbv iota; rewrite IH;
    rewrite Nat.tail_mul_spec; do 2 f_equal;
    cbn [nat_of_ascii]; simpl; lia.
Qed.

Lemma parse_dec (n : nat) : parse_nat_from (dec n) 0 = Some n.
Proof.
  unfold dec, NilZero.string_of_uint.
  pose proof (DecimalNat.Unsigned.of_to n) as H. unfold Nat.of_uint in H.
  destruct (Nat.to_uint n) eqn:E;
    try (rewrite parse_string_of_uint; now rewrite H).
  simpl in H. now subst.
Qed.

Lemma parse_zeros (k : nat) (s : string) :
  parse_nat_from (zeros k +++ s) 0 = parse_nat_from s 0.
Proof. induction k as [|k IH]; [reflexivity|]. exact IH. Qed.

Lemma parse_pad (w n : nat) : parse_nat_from (pad w n) 0 = Some n.
Proof. unfold pad. rewrite parse_zeros. apply parse_dec. Qed.

(** Two texts that end with parts of the same length are equal part by
    part. *)
Lemma append_inj_right (a a' b b' : string) :
  String.length b = String.length b' ->
  a +++ b = a' +++ b' -> a = a' /\ b = b'.
Proof.
  intros Hb H. apply append_inj; [|exact H].
  apply (f_equal String.length) in H. rewrite !append_length in H. lia.
Qed.

Lemma strftime_stamp_inj (t1 t2 : DateTime) :
  stamp_time_valid t1 = true -> stamp_time_valid t2 = true ->
  strftime_stamp t1 = strftime_stamp t2 -> same_clock_reading t1 t2.
Proof.
  unfold stamp_time_valid. rewrite !andb_true_iff.
  intros ((((((Hy1 & Hy2) & Hm) & Hd) & Hh) & Hmi) & Hs).
  intros ((((((Hy1' & Hy2') & Hm') & Hd') & Hh') & Hmi') & Hs').
  apply Nat.ltb_lt in Hm, Hd, Hh, Hmi, Hs, Hm', Hd', Hh', Hmi', Hs'.
  destruct (pad_two_digits _ Hm) as [Lm _].
  destruct (pad_two_digits _ Hm') as [Lm' _].
  destruct (pad_two_digits _ Hd) as [Ld _].
  destruct (pad_two_digits _ Hd') as [Ld' _].
  destruct (pad_two_digits _ Hh) as [Lh _].
  destruct (pad_two_digits _ Hh') as [Lh' _].
  destruct (pad_two_digits _ Hmi) as [Lmi _].
  destruct (pad_two_digits _ Hmi') as [Lmi' _].
  destruct (pad_two_digits _ Hs) as [Ls _].
  destruct (pad_two_digits _ Hs') as [Ls' _].
  unfold strftime_stamp. intros H.
  apply append_inj_right in H as [Ey H];
    [|rewrite !append_length; simpl; lia].
  apply append_inj in H as [Em H]; [|congruence].
  apply append_inj in H as [Ed H]; [|congruence].
  apply append_inj in H as [_ H]; [|reflexivity].
  apply append_inj in H as [Eh H]; [|congruence].
  apply append_inj in H as [Emi Es]; [|congruence].
  apply (f_equal (fun s => parse_nat_from s 0)) in Ey, Em, Ed, Eh, Emi, Es.
  rewrite !parse_pad in Ey, Em, Ed, Eh, Emi, Es.
  unfold same_clock_reading. repeat split; congruence.
Qed.

(** X19: two artifacts written when the local clock shows a four-digit
    year have the same file name exactly when [datetime.now()] read the
    same local year, month, day, hour, minute and second at both saves;
    the microseconds play no part.  So saves into one directory overwrite
    each other when, and only when, the two local clock readings agree up
    to the second, which they also do an hour apart when the clock was set
    back in between. *)
Theorem artifact_names_differ_by_second (h1 h2 : Host)
  (self1 self2 : IRCollector) (f1 f2 : SavedFile) (c1 c2 : IRCollector) :
  stamp_time_valid (now_at_save h1) = true ->
  stamp_time_valid (now_at_save h2) = true ->
  save_results h1 self1 = Ok (f1, c1) ->
  save_results h2 self2 = Ok (f2, c2) ->
  (sf_name f1 = sf_name f2 <-> same_clock_reading (now_at_save h1) (now_at_save h2)).
Proof.
  intros V1 V2. unfold save_results.
  destruct (open_write h1 _ _); [|discriminate].
  destruct (open_write h2 _ _); [|discriminate].
  intros H1 H2. injection H1 as <- _. injection H2 as <- _.
  cbn [sf_name]. split.
  - intros H. injection H as H.
    apply append_inj_right in H as [H _]; [|reflexivity].
    now apply strftime_stamp_inj.
  - intros (Ey & Em & Ed & Eh & Emi & Es).
    unfold strftime_stamp. now rewrite Ey, Em, Ed, Eh, Emi, Es.
Qed.

Lemma artifact_names_differ_by_second_witness :
  exists f1 f2 c1 c2,
    save_results Hosts.server Hosts.fresh = Ok (f1, c1)
    /\ save_results Hosts.server_later Hosts.fresh = Ok (f2, c2)
    /\ sf_name f1 <> sf_name f2.
Proof.
  do 4 eexists.
  split; [vm_compute; reflexivity|].
  split; [vm_compute; reflexivity|].
  intros H.
  apply (artifact_names_differ_by_second Hosts.server Hosts.server_later
           Hosts.fresh Hosts.fresh _ _ _ _ eq_refl eq_refl
           ltac:(vm_compute; reflexivity) ltac:(vm_compute; reflexivity))
    in H.
  destruct H as (_ & _ & _ & _ & _ & Hs). vm_compute in Hs. discriminate Hs.
Defined.

(** ** System information *)

Lemma lstrip_starts (s : string) :
  lstrip s = EmptyString \/ starts_with_text (lstrip s) = true.
Proof.
  induction s as [|c s IH]; [now left|].
  cbn [lstrip]. destruct (is_space c) eqn:E; [exact IH|].
  right. cbn [starts_with_text]. now rewrite E.
Qed.

Lemma rstrip_starts (s : string) :
  starts_with_text s = true -> starts_with_text (rstrip s) = true.
Proof.
  destruct s as [|c s]; [discriminate|].
  cbn [starts_with_text rstrip]. intros E.
  destruct (rstrip s); [|exact E].
  apply negb_true_iff in E. rewrite E. cbn [starts_with_text].
  now rewrite E.
Qed.

Lemma rstrip_ends (s : string) :
  rstrip s = EmptyString \/ ends_with_text (rstrip s) = true.
Proof.
  induction s as [|c s IH]; [now left|].
  cbn [rstrip]. destruct (rstrip s) as [|d r].
  - destruct (is_space c) eqn:E; [now left|].
    right. cbn [ends_with_text]. now rewrite E.
  - right. destruct IH as [IH|IH]; [discriminate|]. exact IH.
Qed.

(** What [strip] returns is empty or has text at both ends. *)
Lemma strip_trimmed (s : string) : trimmed (strip s) = true.
Proof.
  unfold strip.
  destruct (lstrip_starts s) as [->|Hs]; [reflexivity|].
  apply rstrip_starts in Hs.
  destruct (rstrip_ends (lstrip s)) as [->|He]; [reflexivity|].
  destruct (rstrip (lstrip s)); [reflexivity|].
  unfold trimmed. now rewrite Hs, He.
Qed.

Lemma lstrip_split (s : string) :
  exists lead, all_space lead = true /\ s = lead +++ lstrip s.
Proof.
  induction s as [|c s (lead & Hl & Hs)]; [now exists EmptyString|].
  cbn [lstrip]. destruct (is_space c) eqn:E.
  - exists (String c lead). cbn [all_space String.append].
    rewrite E, Hl. split; [reflexivity | now rewrite <- Hs].
  - now exists EmptyString.
Qed.

Lemma rstrip_split (s : string) :
  exists trail, all_space trail = true /\ s = rstrip s +++ trail.
Proof.
  induction s as [|c s (trail & Ht & Hs)]; [now exists EmptyString|].
  cbn [rstrip]. destruct (rstrip s) as [|d r].
  - cbn [String.append] in Hs. subst trail.
    destruct (is_space c) eqn:E.
    + exists (String c s). cbn [all_space]. now rewrite E, Ht.
    + now exists s.
  - exists trail. split; [exact Ht|]. cbn [String.append] in *. congruence.
Qed.

(** [strip] returns the core of its argument. *)
Lemma strip_core (s : string) : core_of s (strip s).
Proof.
  split; [apply strip_trimmed|].
  destruct (lstrip_split s) as (lead & Hl & Hs).
  destruct (rstrip_split (lstrip s)) as (trail & Ht & Hr).
  exists lead, trail. split; [exact Hl|]. split; [exact Ht|].
  unfold strip. now rewrite <- Hr.
Qed.

Lemma lstrip_all_space (lead s : string) :
  all_space lead = true -> lstrip (lead +++ s) = lstrip s.
Proof.
  induction lead as [|c lead IH]; [reflexivity|].
  cbn [all_space String.append lstrip]. intros H.
  apply andb_true_iff in H as [-> H]. now apply IH.
Qed.

Lemma rstrip_all_space (s trail : string) :
  all_space trail = true -> rstrip (s +++ trail) = rstrip s.
Proof.
  intros Ht. induction s as [|c s IH].
  - cbn [String.append]. induction trail as [|d trail IHt]; [reflexivity|].
    cbn [all_space] in Ht. apply andb_true_iff in Ht as [Hd Ht].
    cbn [rstrip]. now rewrite (IHt Ht), Hd.
  - cbn [String.append rstrip]. now rewrite IH.
Qed.

Lemma lstrip_text (s : string) :
  starts_with_text s = true -> lstrip s = s.
Proof.
  destruct s as [|c s]; [discriminate|].
  cbn [starts_with_text lstrip]. intros E.
  apply negb_true_iff in E. now rewrite E.
Qed.

Lemma rstrip_text (s : string) :
  ends_with_text s = true -> rstrip s = s.
Proof.
  induction s as [|c s IH]; [discriminate|].
  destruct s as [|d s].
  - cbn [ends_with_text rstrip]. intros E.
    apply negb_true_iff in E. now rewrite E.
  - intros E. change (ends_with_text (String d s) = true) in E.
    change (rstrip (String c (String d s)))
      with (match rstrip (String d s) with
            | EmptyString =>
                if is_space c then EmptyString else String c EmptyString
            | r => String c r
            end).
    now rewrite (IH E).
Qed.

(** A text has one core only: the one [strip] returns. *)
Lemma core_of_strip (out core : string) :
  core_of out core -> core = strip out.
Proof.
  intros (Ht & lead & trail & Hl & Htr & ->). unfold strip.
  rewrite (lstrip_all_space _ _ Hl).
  destruct core as [|c core].
  - cbn [String.append].
    assert (lstrip trail = EmptyString) as ->; [|reflexivity].
    clear - Htr. induction trail as [|d trail IH]; [reflexivity|].
    cbn [all_space] in Htr. apply andb_true_iff in Htr as [Hd Htr].
    cbn [lstrip]. rewrite Hd. now apply IH.
  - unfold trimmed in Ht. apply andb_true_iff in Ht as [Hs He].
    rewrite lstrip_text.
    + rewrite (rstrip_all_space _ _ Htr). symmetry. now apply rstrip_text.
    + cbn [String.append starts_with_text] in *. exact Hs.
Qed.

(** X21: the system information has the seven platform keys and, on
    Linux, the keys uptime and kernel after them.  The text under uptime
    is the core of what [uptime -p] printed, the text under kernel the core
    of what [uname -r] printed: the output without the white space at its
    two ends (so without the newline that ends the line), empty when the
    command failed or printed white space only. *)
Theorem system_info_texts_trimmed (h : Host) :
  is_linux h = true ->
  dict_keys (system_info_found h) = system_info_keys h
  /\ exists uptime kernel,
       dict_get "uptime" (system_info_found h) = Some (VStr uptime)
       /\ dict_get "kernel" (system_info_found h) = Some (VStr kernel)
       /\ core_of (run_command h "uptime -p") uptime
       /\ core_of (run_command h "uname -r") kernel.
Proof.
  intros Hl. unfold system_info_found, system_info_keys. rewrite Hl.
  split; [dict_eval; reflexivity|].
  exists (strip (run_command h "uptime -p")),
    (strip (run_command h "uname -r")).
  dict_eval. repeat split; try apply strip_trimmed; apply strip_core.
Qed.

Lemma system_info_texts_trimmed_witness :
  dict_keys (system_info_found Hosts.server) = system_info_keys Hosts.server
  /\ exists uptime kernel,
       dict_get "uptime" (system_info_found Hosts.server)
       = Some (VStr uptime)
       /\ dict_get "kernel" (system_info_found Hosts.server)
          = Some (VStr kernel)
       /\ core_of (run_command Hosts.server "uptime -p") uptime
       /\ core_of (run_command Hosts.server "uname -r") kernel.
Proof. apply (system_info_texts_trimmed Hosts.server). reflexivity. Defined.

Example server_uptime :
  run_command Hosts.server "uptime -p" = Hosts.text ["up 3 days, 2 hours"]
  /\ dict_get "uptime" (system_info_found Hosts.server)
     = Some (VStr "up 3 days, 2 hours").
Proof. split; reflexivity. Qed.

(** ** The text of the artifact *)

Lemma plain_text_append (a b : string) :
  plain_text (a +++ b) = plain_text a && plain_text b.
Proof.
  induction a as [|c a IH]; [reflexivity|].
  simpl. rewrite IH. now rewrite andb_assoc.
Qed.

Lemma escape_char_plain (c : ascii) : plain_text (Json.escape_char c) = true.
Proof. destruct c as [[] [] [] [] [] [] [] []]; reflexivity. Qed.

Lemma escape_plain (s : string) : plain_text (Json.escape s) = true.
Proof.
  induction s as [|c s IH]; [reflexivity|].
  cbn [Json.escape]. now rewrite plain_text_append, escape_char_plain, IH.
Qed.

Lemma quoted_plain (s : string) : plain_text (Json.quoted s) = true.
Proof.
  unfold Json.quoted. cbn [plain_text].
  now rewrite plain_text_append, escape_plain.
Qed.

Lemma uint_text_plain (d : Decimal.uint) :
  plain_text (NilEmpty.string_of_uint d) = true.
Proof. induction d; [reflexivity|..]; cbn [NilEmpty.string_of_uint plain_text];
         now rewrite IHd. Qed.

Lemma nilzero_text_plain (d : Decimal.uint) :
  plain_text (NilZero.string_of_uint d) = true.
Proof.
  unfold NilZero.string_of_uint.
  destruct d; [reflexivity|..]; apply uint_text_plain.
Qed.

Lemma int_text_plain (z : Z) : plain_text (Json.int_text z) = true.
Proof.
  unfold Json.int_text, NilZero.string_of_int.
  destruct (Z.to_int z) as [d|d]; [apply nilzero_text_plain|].
  cbn [plain_text]. apply nilzero_text_plain.
Qed.

Lemma spaces_plain (n : nat) : plain_text (Json.spaces n) = true.
Proof. induction n as [|n IH]; [reflexivity|]. exact IH. Qed.

Lemma newline_indent_plain (level : nat) :
  plain_text (Json.newline_indent level) = true.
Proof. unfold Json.newline_indent. cbn [plain_text]. apply spaces_plain. Qed.

Lemma append_empty_r (a : string) : a +++ EmptyString = a.
Proof. induction a as [|c a IH]; simpl; [reflexivity | now rewrite IH]. Qed.

Lemma concat_cons (x : string) (l : list string) :
  String.concat EmptyString (x :: l) = x +++ String.concat EmptyString l.
Proof.
  destruct l; cbn [String.concat]; [now rewrite append_empty_r | reflexivity].
Qed.

(** The layout of a list and of a dictionary that are not empty. *)
Lemma encode_list (level : nat) (x : Value) (xs : list Value) :
  Json.encode level (VList (x :: xs))
  = "[" +++ Json.newline_indent (S level) +++ Json.encode (S level) x
    +++ items_text level xs +++ Json.newline_indent level +++ "]".
Proof.
  cbn [Json.encode]. do 3 f_equal. f_equal.
  unfold items_text.
  induction xs as [|y ys IH]; [reflexivity|].
  cbn [map]. rewrite concat_cons, IH, !append_assoc. reflexivity.
Qed.

Lemma encode_dict (level : nat) (k : string) (x : Value)
  (kxs : list (string * Value)) :
  Json.encode level (VDict ((k, x) :: kxs))
  = "{" +++ Json.newline_indent (S level) +++ Json.quoted k +++ ": "
    +++ Json.encode (S level) x
    +++ members_text level kxs +++ Json.newline_indent level +++ "}".
Proof.
  cbn [Json.encode]. do 5 f_equal. f_equal.
  unfold members_text.
  induction kxs as [|[k' y] ys IH]; [reflexivity|].
  cbn [map fst snd]. rewrite concat_cons, IH, !append_assoc. reflexivity.
Qed.

Ltac plain_parts :=
  repeat (rewrite plain_text_append || rewrite quoted_plain
          || rewrite newline_indent_plain);
  cbn [plain_text andb].

(** Every character [Json.encode] writes is printable ASCII or a
    newline. *)
Lemma encode_plain (v : Value) :
  forall level, plain_text (Json.encode level v) = true.
Proof.
  induction v as [s|z|l IH|d IH] using Value_induction; intros level.
  - apply quoted_plain.
  - apply int_text_plain.
  - destruct l as [|x xs]; [reflexivity|].
    rewrite encode_list. inversion IH as [|? ? Hx Hxs]; subst.
    assert (plain_text (items_text level xs) = true) as Hitems.
    { unfold items_text. clear - Hxs.
      induction Hxs as [|y ys Hy _ IHys]; [reflexivity|].
      cbn [map]. rewrite concat_cons. plain_parts.
      now rewrite Hy, IHys. }
    plain_parts. now rewrite Hx, Hitems.
  - destruct d as [|[k x] kxs]; [reflexivity|].
    rewrite encode_dict. inversion IH as [|? ? Hx Hxs]; subst.
    cbn [snd] in Hx.
    assert (plain_text (members_text level kxs) = true) as Hmembers.
    { unfold members_text. clear - Hxs.
      induction Hxs as [|[k' y] ys Hy _ IHys]; [reflexivity|].
      cbn [map fst snd] in *. rewrite concat_cons. plain_parts.
      now rewrite Hy, IHys. }
    plain_parts. now rewrite Hx, Hmembers.
Qed.

(** X22: the artifact [save_results] writes consists of printable ASCII
    characters and newlines only, whatever the commands printed: control
    characters, quotes, backslashes and characters beyond ASCII inside
    texts and keys are written as escapes. *)
Theorem artifact_is_plain_ascii (h : Host) (self : IRCollector)
  (saved : SavedFile) (self' : IRCollector) :
  save_results h self = Ok (saved, self') ->
  plain_text (sf_content saved) = true.
Proof.
  unfold save_results.
  destruct (open_write h (output_dir self) _); [|discriminate].
  intros H; injection H as <- _. cbn [sf_content].
  apply encode_plain.
Qed.

Lemma artifact_is_plain_ascii_witness :
  exists saved self',
    save_results Hosts.server odd_texts = Ok (saved, self')
    /\ plain_text (sf_content saved) = true.
Proof.
  eexists; eexists.
  split; [vm_compute; reflexivity|].
  eapply (artifact_is_plain_ascii Hosts.server odd_texts).
  vm_compute; reflexivity.
Defined.

(** ** Reading the artifact back *)


Lemma items_text_cons (level : nat) (y : Value) (ys : list Value) :
  items_text level (y :: ys)
  = "," +++ Json.newline_indent (S level) +++ Json.encode (S level) y
    +++ items_text level ys.
Proof.
  unfold items_text. cbn [map]. rewrite concat_cons, !append_assoc.
  reflexivity.
Qed.

Lemma members_text_cons (level : nat) (k : string) (y : Value)
  (ys : list (string * Value)) :
  members_text level ((k, y) :: ys)
  = "," +++ Json.newline_indent (S level) +++ Json.quoted k +++ ": "
    +++ Json.encode (S level) y +++ members_text level ys.
Proof.
  unfold members_text. cbn [map fst snd]. rewrite concat_cons, !append_assoc.
  reflexivity.
Qed.

Lemma read_size_list (l : list Value) :
  read_size (VList l) = S (items_size l).
Proof.
  reflexivity.
Qed.

Lemma read_size_dict (d : list (string * Value)) :
  read_size (VDict d) = S (members_size d).
Proof.
  reflexivity.
Qed.

(** Every escape reads back as the character it was written for. *)
Lemma read_chars_escape_char (c : ascii) (t : string) :
  JsonRead.read_chars (Json.escape_char c +++ t)
  = JsonRead.with_char c (JsonRead.read_chars t).
Proof.
  destruct c as [[] [] [] [] [] [] [] []]; reflexivity.
Qed.

Lemma read_chars_escape (s rest : string) :
  JsonRead.read_chars (Json.escape s +++ String Json.QUOTE rest)
  = Some (s, rest).
Proof.
  induction s as [|c s IH]; [reflexivity|].
  cbn [Json.escape]. rewrite append_assoc, read_chars_escape_char, IH.
  reflexivity.
Qed.

Lemma quoted_append (s rest : string) :
  Json.quoted s +++ rest
  = String Json.QUOTE (Json.escape s +++ String Json.QUOTE rest).
Proof.
  unfold Json.quoted. cbn [String.append]. now rewrite append_assoc.
Qed.


(** Numbers. *)
Lemma number_prefix_append (t rest : string) :
  number_text t = true -> ends_number rest = true ->
  JsonRead.number_prefix (t +++ rest) = (t, rest).
Proof.
  intros Ht Hr. induction t as [|c t IH].
  - destruct rest as [|c r]; [reflexivity|].
    cbn [String.append JsonRead.number_prefix]. cbn [ends_number] in Hr.
    apply negb_true_iff in Hr. now rewrite Hr.
  - cbn [number_text] in Ht. apply andb_true_iff in Ht as [Hc Ht].
    cbn [String.append JsonRead.number_prefix]. rewrite Hc, (IH Ht).
    reflexivity.
Qed.

Lemma uint_text_number (d : Decimal.uint) :
  number_text (NilEmpty.string_of_uint d) = true.
Proof.
  induction d; [reflexivity|..]; cbn [NilEmpty.string_of_uint number_text];
    now rewrite IHd.
Qed.

Lemma nilzero_text_number (d : Decimal.uint) :
  number_text (NilZero.string_of_uint d) = true.
Proof.
  unfold NilZero.string_of_uint.
  destruct d; [reflexivity|..]; apply uint_text_number.
Qed.

Lemma int_text_number (z : Z) : number_text (Json.int_text z) = true.
Proof.
  unfold Json.int_text, NilZero.string_of_int.
  destruct (Z.to_int z) as [d|d]; [apply nilzero_text_number|].
  cbn [number_text]. apply nilzero_text_number.
Qed.

Lemma int_text_read (z : Z) :
  NilZero.int_of_string (Json.int_text z) = Some (Z.to_int z).
Proof.
  unfold Json.int_text. apply NilZero.isi; destruct z; cbn [Z.to_int];
    try discriminate; intros H; injection H as H;
    now apply DecimalPos.Unsigned.to_uint_nonnil in H.
Qed.

Lemma read_int_text (z : Z) (rest : string) :
  ends_number rest = true ->
  JsonRead.read_int (Json.int_text z +++ rest) = Some (z, rest).
Proof.
  intros Hr. unfold JsonRead.read_int.
  rewrite (number_prefix_append _ _ (int_text_number z) Hr), int_text_read.
  now rewrite DecimalZ.of_to.
Qed.

Lemma int_text_first (z : Z) :
  exists c t, Json.int_text z = String c t
              /\ JsonRead.is_number_char c = true.
Proof.
  pose proof (int_text_number z) as Hn. pose proof (int_text_read z) as Hr.
  destruct (Json.int_text z) as [|c t]; [discriminate|].
  exists c, t. split; [reflexivity|].
  cbn [number_text] in Hn. now apply andb_true_iff in Hn as [Hc _].
Qed.

(** A digit or a minus sign is none of the characters that begin another
    token. *)
Lemma number_char_token (c : ascii) :
  JsonRead.is_number_char c = true ->
  JsonRead.is_ws c = false /\ Ascii.eqb c Json.QUOTE = false
  /\ Ascii.eqb c "[" = false /\ Ascii.eqb c "{" = false
  /\ Ascii.eqb c "]" = false.
Proof.
  destruct c as [[] [] [] [] [] [] [] []]; intros H; try discriminate H;
    repeat split.
Qed.

(** White space in front of a value is skipped. *)
Lemma skip_ws_spaces (n : nat) (t : string) :
  JsonRead.skip_ws (Json.spaces n +++ t) = JsonRead.skip_ws t.
Proof. induction n as [|n IH]; [reflexivity|]. exact IH. Qed.

Lemma skip_ws_newline_indent (level : nat) (t : string) :
  JsonRead.skip_ws (Json.newline_indent level +++ t) = JsonRead.skip_ws t.
Proof.
  unfold Json.newline_indent. cbn [String.append JsonRead.skip_ws].
  change (JsonRead.is_ws NL) with true. cbn iota. apply skip_ws_spaces.
Qed.

(** The first character of an encoded value begins a token. *)
Lemma encode_first (level : nat) (v : Value) :
  exists c t, Json.encode level v = String c t
              /\ JsonRead.is_ws c = false /\ Ascii.eqb c "]" = false.
Proof.
  destruct v as [s|z|[|x xs]|[|[k x] kxs]].
  - eexists; eexists. split; [reflexivity|]. split; reflexivity.
  - destruct (int_text_first z) as (c & t & E & Hc).
    exists c, t. split; [exact E|].
    now destruct (number_char_token c Hc) as (? & _ & _ & _ & ?).
  - eexists; eexists. split; [reflexivity|]. split; reflexivity.
  - eexists; eexists. split; [reflexivity|]. split; reflexivity.
  - eexists; eexists. split; [reflexivity|]. split; reflexivity.
  - eexists; eexists. split; [reflexivity|]. split; reflexivity.
Qed.

Lemma skip_ws_encode (level : nat) (v : Value) (t : string) :
  JsonRead.skip_ws (Json.encode level v +++ t) = Json.encode level v +++ t.
Proof.
  destruct (encode_first level v) as (c & u & -> & Hc & _).
  cbn [String.append JsonRead.skip_ws]. now rewrite Hc.
Qed.

Lemma read_value_skip (fuel level : nat) (t : string) :
  JsonRead.read_value fuel (Json.newline_indent level +++ t)
  = JsonRead.read_value fuel t.
Proof.
  destruct fuel as [|fuel]; [reflexivity|].
  cbn [JsonRead.read_value]. unfold JsonRead.value_step.
  now rewrite skip_ws_newline_indent.
Qed.

Lemma read_value_space (fuel : nat) (t : string) :
  JsonRead.read_value fuel (String SP t) = JsonRead.read_value fuel t.
Proof.
  destruct fuel as [|fuel]; reflexivity.
Qed.

(** Texts that follow a value inside an array or an object. *)
Lemma ends_number_items (level : nat) (xs : list Value) (t : string) :
  ends_number (items_text level xs +++ Json.newline_indent level +++ t) = true.
Proof.
  destruct xs as [|y ys]; [reflexivity|]. now rewrite items_text_cons.
Qed.

Lemma ends_number_members (level : nat) (d : list (string * Value))
  (t : string) :
  ends_number (members_text level d +++ Json.newline_indent level +++ t)
  = true.
Proof.
  destruct d as [|[k y] ys]; [reflexivity|]. now rewrite members_text_cons.
Qed.

Lemma read_items_back (level : nat) (rest : string) (xs : list Value) :
  Forall reads_back xs ->
  forall x fuel,
    reads_back x ->
    items_size (x :: xs) <= fuel ->
    JsonRead.read_items fuel
      (Json.newline_indent (S level) +++ Json.encode (S level) x
       +++ items_text level xs +++ Json.newline_indent level
       +++ String "]" rest)
    = Some (x :: xs, rest).
Proof.
  induction 1 as [|y ys Hy Hys IH]; intros x fuel Hx Hfuel.
  - destruct fuel as [|fuel]; [cbn in Hfuel; lia|].
    cbn [items_size fold_right] in Hfuel.
    cbn [JsonRead.read_items]. unfold JsonRead.items_step.
    rewrite read_value_skip.
    rewrite (Hx (S level) fuel); [|lia|apply (ends_number_items level [])].
    unfold items_text. cbn [map String.concat String.append].
    rewrite skip_ws_newline_indent. reflexivity.
  - destruct fuel as [|fuel]; [cbn in Hfuel; lia|].
    change (items_size (x :: y :: ys))
      with (S (read_size x + items_size (y :: ys))) in Hfuel.
    cbn [JsonRead.read_items]. unfold JsonRead.items_step.
    rewrite read_value_skip.
    rewrite (Hx (S level) fuel); [|lia|apply ends_number_items].
    rewrite items_text_cons, !append_assoc.
    cbn [String.append JsonRead.skip_ws].
    change (JsonRead.is_ws ",") with false. cbn iota.
    change (Ascii.eqb "," ",") with true. cbn iota.
    rewrite (IH y fuel Hy); [reflexivity | lia].
Qed.

Lemma read_members_back (level : nat) (rest : string)
  (d : list (string * Value)) :
  Forall (fun kx => reads_back (snd kx)) d ->
  forall k x fuel,
    reads_back x ->
    members_size ((k, x) :: d) <= fuel ->
    JsonRead.read_members fuel
      (Json.newline_indent (S level) +++ Json.quoted k
       +++ String ":" (String " " (Json.encode (S level) x
       +++ members_text level d +++ Json.newline_indent level
       +++ String "}" rest)))
    = Some ((k, x) :: d, rest).
Proof.
  induction 1 as [|[k' y] ys Hy Hys IH]; intros k x fuel Hx Hfuel.
  - destruct fuel as [|fuel]; [cbn in Hfuel; lia|].
    cbn [members_size fold_right snd] in Hfuel.
    cbn [JsonRead.read_members]. unfold JsonRead.members_step.
    rewrite skip_ws_newline_indent, quoted_append.
    cbn [JsonRead.skip_ws].
    change (JsonRead.is_ws Json.QUOTE) with false. cbn iota.
    change (Ascii.eqb Json.QUOTE Json.QUOTE) with true. cbn iota.
    rewrite read_chars_escape.
    cbn [String.append JsonRead.skip_ws].
    change (JsonRead.is_ws ":") with false. cbn iota.
    change (Ascii.eqb ":" ":") with true. cbn iota.
    rewrite read_value_space.
    rewrite (Hx (S level) fuel); [|lia|apply (ends_number_members level [])].
    unfold members_text. cbn [map String.concat String.append].
    rewrite skip_ws_newline_indent. reflexivity.
  - destruct fuel as [|fuel]; [cbn in Hfuel; lia|].
    change (members_size ((k, x) :: (k', y) :: ys))
      with (S (read_size x + members_size ((k', y) :: ys))) in Hfuel.
    cbn [JsonRead.read_members]. unfold JsonRead.members_step.
    rewrite skip_ws_newline_indent, quoted_append.
    cbn [JsonRead.skip_ws].
    change (JsonRead.is_ws Json.QUOTE) with false. cbn iota.
    change (Ascii.eqb Json.QUOTE Json.QUOTE) with true. cbn iota.
    rewrite read_chars_escape.
    cbn [String.append JsonRead.skip_ws].
    change (JsonRead.is_ws ":") with false. cbn iota.
    change (Ascii.eqb ":" ":") with true. cbn iota.
    rewrite read_value_space.
    rewrite (Hx (S level) fuel); [|lia|apply ends_number_members].
    rewrite members_text_cons, !append_assoc.
    cbn [String.append JsonRead.skip_ws].
    change (JsonRead.is_ws ",") with false. cbn iota.
    change (Ascii.eqb "," ",") with true. cbn iota.
    cbn [snd] in Hy.
    rewrite (IH k' y fuel Hy); [reflexivity | lia].
Qed.

(** Reading back what [Json.encode] wrote gives the value again. *)
Lemma read_encode (v : Value) : reads_back v.
Proof.
  induction v as [s|z|l IH|d IH] using Value_induction;
    intros level fuel rest Hfuel Hrest.
  - destruct fuel as [|fuel]; [cbn in Hfuel; lia|].
    cbn [Json.encode JsonRead.read_value]. unfold JsonRead.value_step.
    rewrite quoted_append. cbn [JsonRead.skip_ws].
    change (JsonRead.is_ws Json.QUOTE) with false. cbn iota.
    change (Ascii.eqb Json.QUOTE Json.QUOTE) with true. cbn iota.
    now rewrite read_chars_escape.
  - destruct fuel as [|fuel]; [cbn in Hfuel; lia|].
    cbn [Json.encode JsonRead.read_value]. unfold JsonRead.value_step.
    pose proof (read_int_text z rest Hrest) as Hread.
    destruct (int_text_first z) as (c & t & E & Hc).
    rewrite E in *. cbn [String.append] in *. cbn [JsonRead.skip_ws].
    destruct (number_char_token c Hc) as (Hws & Hq & Hl & Hd & _).
    now rewrite Hws, Hq, Hl, Hd, Hread.
  - destruct fuel as [|fuel]; [cbn in Hfuel; lia|].
    destruct l as [|x xs]; [reflexivity|].
    rewrite read_size_list in Hfuel.
    inversion IH as [|? ? Hx Hxs]; subst.
    rewrite encode_list, !append_assoc.
    cbn [JsonRead.read_value]. unfold JsonRead.value_step.
    cbn [String.append JsonRead.skip_ws].
    change (JsonRead.is_ws "[") with false. cbn iota.
    change (Ascii.eqb "[" Json.QUOTE) with false. cbn iota.
    change (Ascii.eqb "[" "[") with true. cbn iota.
    change (String NL (Json.spaces (2 * S level) +++ ?t))
      with (Json.newline_indent (S level) +++ t).
    rewrite (read_items_back level rest xs Hxs x fuel Hx); [|lia].
    rewrite skip_ws_newline_indent, skip_ws_encode.
    destruct (encode_first (S level) x) as (c & u & -> & _ & Hc).
    cbn [String.append]. now rewrite Hc.
  - destruct fuel as [|fuel]; [cbn in Hfuel; lia|].
    destruct d as [|[k x] kxs]; [reflexivity|].
    rewrite read_size_dict in Hfuel.
    inversion IH as [|? ? Hx Hxs]; subst. cbn [snd] in Hx.
    rewrite encode_dict, !append_assoc.
    cbn [JsonRead.read_value]. unfold JsonRead.value_step.
    cbn [String.append JsonRead.skip_ws].
    change (JsonRead.is_ws "{") with false. cbn iota.
    change (Ascii.eqb "{" Json.QUOTE) with false. cbn iota.
    change (Ascii.eqb "{" "[") with false. cbn iota.
    change (Ascii.eqb "{" "{") with true. cbn iota.
    rewrite (read_members_back level rest kxs Hxs k x fuel Hx); [|lia].
    rewrite skip_ws_newline_indent, quoted_append.
    cbn [JsonRead.skip_ws].
    change (JsonRead.is_ws Json.QUOTE) with false. cbn iota.
    change (Ascii.eqb Json.QUOTE "}") with false. cbn iota.
    reflexivity.
Qed.

(** An encoded value has at least as many characters as reading it back
    takes nested calls. *)
Lemma read_size_le (v : Value) :
  forall level, read_size v <= String.length (Json.encode level v).
Proof.
  induction v as [s|z|l IH|d IH] using Value_induction; intros level.
  - cbn [Json.encode Json.quoted String.length read_size]. lia.
  - destruct (int_text_first z) as (c & t & E & _).
    cbn [Json.encode read_size]. rewrite E. cbn [String.length]. lia.
  - destruct l as [|x xs]; [cbn; lia|].
    rewrite read_size_list, encode_list. inversion IH as [|? ? Hx Hxs]; subst.
    assert (items_size xs <= String.length (items_text level xs)) as Hitems.
    { clear - Hxs. induction Hxs as [|y ys Hy _ IHys]; [cbn; lia|].
      rewrite items_text_cons, !append_length.
      change (items_size (y :: ys)) with (S (read_size y + items_size ys)).
      specialize (Hy (S level)). cbn [String.length]. lia. }
    rewrite !append_length.
    change (items_size (x :: xs)) with (S (read_size x + items_size xs)).
    specialize (Hx (S level)). cbn [String.length]. lia.
  - destruct d as [|[k x] kxs]; [cbn; lia|].
    rewrite read_size_dict, encode_dict.
    inversion IH as [|? ? Hx Hxs]; subst. cbn [snd] in Hx.
    assert (members_size kxs <= String.length (members_text level kxs))
      as Hmembers.
    { clear - Hxs. induction Hxs as [|[k' y] ys Hy _ IHys]; [cbn; lia|].
      rewrite members_text_cons, !append_length. cbn [snd] in Hy.
      change (members_size ((k', y) :: ys))
        with (S (read_size y + members_size ys)).
      specialize (Hy (S level)). cbn [String.length]. lia. }
    rewrite !append_length.
    change (members_size ((k, x) :: kxs))
      with (S (read_size x + members_size kxs)).
    specialize (Hx (S level)). cbn [String.length]. lia.
Qed.

(** Reading back the text [Json.dumps] makes of a value gives the value. *)
Lemma loads_dumps (v : Value) : JsonRead.loads (Json.dumps v) = Some v.
Proof.
  unfold JsonRead.loads, Json.dumps.
  pose proof (read_encode v 0 (S (String.length (Json.encode 0 v)))
                EmptyString) as H.
  rewrite append_empty_r in H. rewrite H; [reflexivity| |reflexivity].
  pose proof (read_size_le v 0). lia.
Qed.

(** X1: whatever the collector holds, the text [save_results] writes
    reads back, as JSON, to the dictionary [self.data] itself: the same
    keys in the same order, the same texts character for character
    (control characters, quotes and characters beyond ASCII included), the
    same integers, the same nesting.  Nothing of the snapshot is lost or
    altered on its way into the artifact. *)
Theorem saved_text_reads_back (h : Host) (self : IRCollector)
  (saved : SavedFile) (self' : IRCollector) :
  save_results h self = Ok (saved, self') ->
  JsonRead.loads (sf_content saved) = Some (VDict (data self)).
Proof.
  unfold save_results.
  destruct (open_write h (output_dir self) _); [|discriminate].
  intros H; injection H as <- _. cbn [sf_content].
  apply loads_dumps.
Qed.

Lemma saved_text_reads_back_witness :
  exists saved self',
    save_results Hosts.server odd_texts = Ok (saved, self')
    /\ JsonRead.loads (sf_content saved) = Some (VDict (data odd_texts)).
Proof.
  eexists; eexists.
  split; [vm_compute; reflexivity|].
  eapply (saved_text_reads_back Hosts.server odd_texts).
  vm_compute; reflexivity.
Defined.

(** C3: when a run completes, the keys of the snapshot are exactly the
    three metadata keys followed by the eight fragment keys, each once,
    whatever the commands and file reads did; and so are the keys of the
    written artifact: its text reads back, as JSON, to an object with
    exactly these eleven keys, which is the snapshot. *)
Theorem completed_run_has_all_keys (h : Host) (output : string)
  (saved : SavedFile) (self : IRCollector) :
  main h output = Ok (saved, self) ->
  dict_keys (data self) = snapshot_keys
  /\ exists artifact,
       JsonRead.loads (sf_content saved) = Some (VDict artifact)
       /\ dict_keys artifact = snapshot_keys
       /\ artifact = data self.
Proof.
  intros H. apply main_data in H.
  destruct H as (tasks & autostart & _ & _ & _ & Hdata & Hsaved).
  assert (dict_keys (data self) = snapshot_keys) as Hkeys
    by (rewrite Hdata; reflexivity).
  split; [exact Hkeys|].
  exists (data self). rewrite Hsaved.
  split; [apply loads_dumps|]. split; [exact Hkeys | reflexivity].
Qed.

(** On a host where every command times out and no file exists the run
    completes, with all eleven keys in the snapshot and in the artifact. *)
Lemma completed_run_has_all_keys_witness :
  exists saved self,
    main Hosts.silent "./ir_collection" = Ok (saved, self)
    /\ dict_keys (data self) = snapshot_keys
    /\ exists artifact,
         JsonRead.loads (sf_content saved) = Some (VDict artifact)
         /\ dict_keys artifact = snapshot_keys
         /\ artifact = data self.
Proof.
  eexists; eexists.
  split; [vm_compute; reflexivity|].
  eapply (completed_run_has_all_keys Hosts.silent "./ir_collection").
  vm_compute; reflexivity.
Defined.
